(** * Reconciliation logic of the Anypoint Ansible modules

    A shallow embedding of
    [lib/ansible/modules/cloud/anypoint/ap_exchange_asset.py] and
    [lib/ansible/modules/cloud/mulesoft/ap_account_environment.py].

    Both modules are straight-line Python over an [AnsibleModule] object
    that carries the declared parameters and gives access to the host
    (external binaries, HTTP, files).  The embedding keeps that shape:
    - Python values coming back from JSON are a small [json] type;
    - [fail_json] and [exit_json] end the process, uncaught exceptions do
      too: computations live in an outcome monad;
    - every call that leaves the process is recorded, in order, in a trace
      of [Event]s, and the answer of the host may depend on the calls made
      before it. *)

From Stdlib Require Import String Ascii List ZArith Bool Lia.
Import ListNotations.
Set Warnings "-register-all".
Open Scope string_scope.
Open Scope Z_scope.

(** ** Python values and outcomes *)

Module Py.

(** What [json.load] / [json.loads] produce (numbers restricted to
    integers). *)
Inductive json : Type :=
| JNull
| JBool (b : bool)
| JInt (z : Z)
| JStr (s : string)
| JList (l : list json)
| JObj (l : list (string * json)).

(** How a computation ends: a normal return, [module.exit_json],
    [module.fail_json], or an uncaught Python exception. *)
Inductive Outcome (R A : Type) : Type :=
| Ret (a : A)
| Exit (r : R)
| Fail (msg : string)
| Raise (exn : string).
Arguments Ret {R A} a.
Arguments Exit {R A} r.
Arguments Fail {R A} msg.
Arguments Raise {R A} exn.

(** Answer of a helper of [ap_common] / [ap_exchange_common] that receives
    the module object: it returns, or ends the run itself. *)
Inductive Reply (A : Type) : Type :=
| Answer (a : A)
| Fatal (msg : string).
Arguments Answer {A} a.
Arguments Fatal {A} msg.

Fixpoint lookup (k : string) (d : list (string * json)) : option json :=
  match d with
  | [] => None
  | (k', v) :: d' => if String.eqb k k' then Some v else lookup k d'
  end.

(** [d[k]] *)
Definition getitem {R} (d : json) (k : string) : Outcome R json :=
  match d with
  | JObj l => match lookup k l with
              | Some v => Ret v
              | None => Raise "KeyError"
              end
  | _ => Raise "TypeError"
  end.

(** [d.get(k)] *)
Definition get {R} (d : json) (k : string) : Outcome R json :=
  match d with
  | JObj l => match lookup k l with
              | Some v => Ret v
              | None => Ret JNull
              end
  | _ => Raise "AttributeError"
  end.

(** [v[0]] *)
Definition index0 {R} (v : json) : Outcome R json :=
  match v with
  | JList (x :: _) => Ret x
  | JList [] => Raise "IndexError"
  | JStr (String c _) => Ret (JStr (String c EmptyString))
  | JStr EmptyString => Raise "IndexError"
  | JObj _ => Raise "KeyError"
  | _ => Raise "TypeError"
  end.

(** Truth value of [v] in a condition. *)
Definition truthy (v : json) : bool :=
  match v with
  | JNull => false
  | JBool b => b
  | JInt z => negb (z =? 0)
  | JStr s => negb (String.eqb s EmptyString)
  | JList l => match l with [] => false | _ => true end
  | JObj l => match l with [] => false | _ => true end
  end.

(** [v != n] for an integer literal [n]. *)
Definition ne_int (v : json) (n : Z) : bool :=
  match v with
  | JInt z => negb (z =? n)
  | JBool b => negb ((if b then 1 else 0) =? n)
  | _ => true
  end.

(** [s == v] for a [str] [s]. *)
Definition eq_str (s : string) (v : json) : bool :=
  match v with
  | JStr t => String.eqb s t
  | _ => false
  end.

(** [v != {}] *)
Definition ne_empty_dict (v : json) : bool :=
  match v with
  | JObj [] => false
  | _ => true
  end.

(** [v is None] *)
Definition is_none (v : json) : bool :=
  match v with
  | JNull => true
  | _ => false
  end.

(** ['...' + v]: concatenation needs a [str]. *)
Definition as_str {R} (v : json) : Outcome R string :=
  match v with
  | JStr s => Ret s
  | _ => Raise "TypeError"
  end.

Definition newline : ascii := Ascii.ascii_of_nat 10.

(** [s.replace('\n', '')] *)
Fixpoint remove_newlines (s : string) : string :=
  match s with
  | EmptyString => EmptyString
  | String c r =>
      if Ascii.eqb c newline then remove_newlines r
      else String c (remove_newlines r)
  end.

(** [sep.join(l)] *)
Fixpoint join (sep : string) (l : list string) : string :=
  match l with
  | [] => EmptyString
  | [x] => x
  | x :: r => x ++ sep ++ join sep r
  end.

(** [s.rfind(c)], [-1] when [c] does not occur. *)
Fixpoint rfind_from (c : ascii) (s : string) (i last : Z) : Z :=
  match s with
  | EmptyString => last
  | String a r => rfind_from c r (i + 1) (if Ascii.eqb a c then i else last)
  end.

Definition rfind (c : ascii) (s : string) : Z := rfind_from c s 0 (-1).

(** The loop of [genericpath._splitext] that skips leading dots of the file
    name: [n] positions from [i] up to the last dot are inspected. *)
Fixpoint has_non_dot (p : string) (i : nat) (n : nat) : bool :=
  match n with
  | O => false
  | S n' =>
      match String.get i p with
      | Some c => if Ascii.eqb c "."%char then has_non_dot p (S i) n' else true
      | None => true
      end
  end.

(** [os.path.splitext(p)[1]] on a POSIX host. *)
Definition splitext_ext (p : string) : string :=
  let sepIndex := rfind "/"%char p in
  let dotIndex := rfind "."%char p in
  if sepIndex <? dotIndex then
    let filenameIndex := sepIndex + 1 in
    if has_non_dot p (Z.to_nat filenameIndex) (Z.to_nat (dotIndex - filenameIndex))
    then String.substring (Z.to_nat dotIndex)
                          (String.length p - Z.to_nat dotIndex) p
    else EmptyString
  else EmptyString.

(** A double quote and a line feed, as one-character strings. *)
Definition dq : string := String (Ascii.ascii_of_nat 34) EmptyString.
Definition nl : string := String newline EmptyString.

(** *** Computations

    A computation reads the trace of the external calls made so far,
    extends it, and ends in an [Outcome]. *)
Definition M (E R A : Type) : Type := list E -> Outcome R A * list E.

Definition ret {E R A} (a : A) : M E R A := fun tr => (Ret a, tr).

Definition bind {E R A B} (c : M E R A) (k : A -> M E R B) : M E R B :=
  fun tr =>
    match c tr with
    | (Ret a, tr') => k a tr'
    | (Exit r, tr') => (Exit r, tr')
    | (Fail msg, tr') => (Fail msg, tr')
    | (Raise exn, tr') => (Raise exn, tr')
    end.

(** [module.fail_json(msg=...)] *)
Definition fail_json {E R A} (msg : string) : M E R A :=
  fun tr => (Fail msg, tr).

(** [module.exit_json] with the result dictionary. *)
Definition exit_json {E R A} (r : R) : M E R A :=
  fun tr => (Exit r, tr).

(** An uncaught exception. *)
Definition raise {E R A} (exn : string) : M E R A :=
  fun tr => (Raise exn, tr).

(** A pure Python operation that may raise. *)
Definition lift {E R A} (o : Outcome R A) : M E R A := fun tr => (o, tr).

(** An external call: the answer is the host's, given the calls made
    before; the call is appended to the trace. *)
Definition call {E R A} (e : E) (answer : list E -> A) : M E R A :=
  fun tr => (Ret (answer tr), (tr ++ [e])%list).

(** A call to a helper that may end the run itself. *)
Definition call_helper {E R A} (e : E) (answer : list E -> Reply A) : M E R A :=
  fun tr =>
    match answer tr with
    | Answer a => (Ret a, (tr ++ [e])%list)
    | Fatal msg => (Fail msg, (tr ++ [e])%list)
    end.

End Py.

Notation "x <- c ;; k" := (Py.bind c (fun x => k))
  (at level 61, c at next level, right associativity).
Notation "c ;;; k" := (Py.bind c (fun _ => k))
  (at level 61, right associativity).

(** ** ap_exchange_asset.py *)

Module ExchangeAsset.
Import Py.

(** *** Declared parameters ([module_args], [maven_spec]) *)

(** [choices] of [state]. *)
Inductive State : Type := Present | Deprecated | Absent.

(** [choices] of [type]. *)
Inductive AssetType : Type :=
| custom | oas | wsdl | example | template | extension | connector | policy.

(** The string a [type] choice stands for. *)
Definition type_name (t : AssetType) : string :=
  match t with
  | custom => "custom"
  | oas => "oas"
  | wsdl => "wsdl"
  | example => "example"
  | template => "template"
  | extension => "extension"
  | connector => "connector"
  | policy => "policy"
  end.

Record Maven : Type := {
  sources : option string;
  settings : option string;
  pom : option string;
  arguments : list string
}.

(** [maven.get(key)] for the path-valued keys; a key outside [maven_spec]
    is not in the dictionary. *)
Definition maven_get (mv : Maven) (key : string) : option string :=
  if String.eqb key "sources" then sources mv
  else if String.eqb key "settings" then settings mv
  else if String.eqb key "pom" then pom mv
  else None.

Record Params : Type := {
  name : string;
  state : State;
  bearer : string;
  host : string;
  organization : string;
  organization_id : string;
  type : AssetType;
  group_id : string;
  asset_id : string;
  asset_version : string;
  api_version : string;
  main_file : option string;
  file_path : option string;
  tags : list string;
  description : option string;
  icon : option string;
  maven : option Maven
}.

(** *** The reconciliation plan ([return_value] of [get_context]) *)

Record Context : Type := {
  do_nothing : bool;
  exists_ : bool;
  exchange_must_update : bool;
  exchange_must_update_name : bool;
  exchange_must_update_icon : bool;
  exchange_must_update_description : bool;
  exchange_must_update_tags : bool;
  deprecated : bool
}.

(** The dictionary [ap_exchange_common.analyze_asset] returns; the key
    ['deprecated'] is the field [asset_deprecated]. *)
Record Analysis : Type := {
  must_update : bool;
  must_update_name : bool;
  must_update_icon : bool;
  must_update_description : bool;
  must_update_tags : bool;
  asset_deprecated : bool
}.

(** [result] of [run_module]. *)
Record Result : Type := {
  changed : bool;
  msg : string
}.

(** *** External calls *)

Inductive Event : Type :=
| RunCommand (cmd : string)
| WriteFile (path content : string)
| RewritePom (source_pom version artifact_id group name : string)
             (classifier : option string)
| LookExchangeAsset (group asset version : string)
| AnalyzeAsset (group asset version name : string)
               (description icon : option string) (tags : list string)
| ModifyExchangeAsset (group asset version : string) (context : Context)
                      (name : string) (description icon : option string)
                      (tags : list string)
| SetAssetName (group asset version name : string)
| DeleteExchangeAsset (group asset version : string).

(** The host and the platform behind the module object: for each kind of
    external call, the answer given the calls made before.  The helpers of
    [ap_exchange_common] are not part of this file: they are taken as they
    answer. *)
Record Host : Type := {
  bin_path : string -> option string;
  run_command_result : list Event -> string -> Z * string * string;
  write_result : list Event -> string -> string -> option string;
  rewrite_pom_result : list Event -> string -> option string;
  graphql_answer : list Event -> string -> string -> string -> Reply json;
  analyze_answer :
    list Event -> string -> string -> string -> string ->
    option string -> option string -> list string -> Reply Analysis;
  modify_answer :
    list Event -> string -> string -> string -> Context -> string ->
    option string -> option string -> list string -> Reply string;
  set_name_answer :
    list Event -> string -> string -> string -> string -> Reply unit;
  delete_answer : list Event -> string -> string -> string -> Reply string;
  asset_identifier : string -> string -> string -> string
}.

Record AnsibleModule : Type := {
  params : Params;
  check_mode : bool;
  platform : Host
}.

Definition Run (A : Type) : Type := M Event Result A.

(** [module.get_bin_path(name, required, opt_dirs)]: with [required] the
    framework fails when the binary is not found. *)
Definition get_bin_path (module : AnsibleModule) (name : string)
    (required : bool) : Run (option string) :=
  match bin_path (platform module) name with
  | Some p => ret (Some p)
  | None =>
      if required
      then fail_json ("Failed to find required executable " ++ name)
      else ret None
  end.

(** [module.run_command(cmd)] *)
Definition run_command (module : AnsibleModule) (cmd : string)
    : Run (Z * string * string) :=
  call (RunCommand cmd)
       (fun tr => run_command_result (platform module) tr cmd).

Module ap_common.

(** Modelled from the spec: [ap_common.get_anypointcli_path] is missing
    here; the external binary is looked up on the host and its absence is
    fatal at startup. *)
Definition get_anypointcli_path (module : AnsibleModule) : Run (option string) :=
  get_bin_path module "anypoint-cli" true.

(** Modelled from the spec: [ap_common.execute_anypoint_cli] is missing
    here; it runs the command line, a non-zero exit code is a failure with
    the output as message, exit code 0 gives the output. *)
Definition execute_anypoint_cli (tag : string) (module : AnsibleModule)
    (cmd : string) : Run string :=
  result <- run_command module cmd ;;
  if negb (fst (fst result) =? 0)
  then fail_json (tag ++ " " ++ snd (fst result))
  else ret (snd (fst result)).

End ap_common.

(** The calls into [ap_exchange_common], answered by the platform. *)
Module ap_exchange_common.

Definition look_exchange_asset_with_graphql (module : AnsibleModule)
    (group asset version : string) : Run json :=
  call_helper (LookExchangeAsset group asset version)
              (fun tr => graphql_answer (platform module) tr group asset version).

Definition analyze_asset (module : AnsibleModule)
    (group asset version name : string) (description icon : option string)
    (tags : list string) : Run Analysis :=
  call_helper (AnalyzeAsset group asset version name description icon tags)
              (fun tr => analyze_answer (platform module) tr group asset version
                           name description icon tags).

Definition modify_exchange_asset (module : AnsibleModule)
    (group asset version : string) (context : Context) (name : string)
    (description icon : option string) (tags : list string) : Run string :=
  call_helper (ModifyExchangeAsset group asset version context name
                                   description icon tags)
              (fun tr => modify_answer (platform module) tr group asset version
                           context name description icon tags).

Definition set_asset_name (module : AnsibleModule)
    (group asset version name : string) : Run unit :=
  call_helper (SetAssetName group asset version name)
              (fun tr => set_name_answer (platform module) tr group asset
                           version name).

Definition delete_exchange_asset (module : AnsibleModule)
    (group asset version : string) : Run string :=
  call_helper (DeleteExchangeAsset group asset version)
              (fun tr => delete_answer (platform module) tr group asset version).

Definition get_asset_identifier (module : AnsibleModule)
    (group asset version : string) : string :=
  asset_identifier (platform module) group asset version.

End ap_exchange_common.

Definition get_maven_path (module : AnsibleModule) : Run (option string) :=
  get_bin_path module "mvn" true.

Definition execute_maven (module : AnsibleModule) (cmd : string) : Run string :=
  p <- get_maven_path module ;;
  final_cmd <- match p with
               | Some p => ret (p ++ " " ++ cmd)
               | None => raise "TypeError"
               end ;;
  result <- run_command module final_cmd ;;
  if negb (fst (fst result) =? 0)
  then fail_json ("[execute_maven] " ++ snd (fst result))
  else ret (snd (fst result)).

Definition get_tmp_dir : string := "/tmp".

Definition look_asset_on_exchange (module : AnsibleModule) : Run (option json) :=
  let p := params module in
  output <- ap_exchange_common.look_exchange_asset_with_graphql
              module (group_id p) (asset_id p) (asset_version p) ;;
  errors <- lift (get output "errors") ;;
  if truthy errors then
    errs <- lift (getitem output "errors") ;;
    e0 <- lift (index0 errs) ;;
    status <- lift (get e0 "status") ;;
    if ne_int status 404 then
      errs' <- lift (getitem output "errors") ;;
      e0' <- lift (index0 errs') ;;
      message <- lift (getitem e0' "message") ;;
      message <- lift (as_str message) ;;
      fail_json ("[look_asset_on_exchange] Error looking for asset on exchange: "
                 ++ message)
    else ret None
  else
    data <- lift (getitem output "data") ;;
    assets <- lift (getitem data "assets") ;;
    item <- lift (index0 assets) ;;
    a <- lift (getitem item "assetId") ;;
    if eq_str (asset_id p) a then
      g <- lift (getitem item "groupId") ;;
      if eq_str (group_id p) g then
        v <- lift (getitem item "version") ;;
        if eq_str (asset_version p) v then
          t <- lift (getitem item "type") ;;
          if eq_str (type_name (type p)) t then
            r <- lift (getitem item "assetId") ;;
            ret (Some r)
          else ret None
        else ret None
      else ret None
    else ret None.

Definition get_context (module : AnsibleModule) (cmd_base : string) : Run Context :=
  let p := params module in
  let return_value := {|
    do_nothing := false;
    exists_ := false;
    exchange_must_update := false;
    exchange_must_update_name := false;
    exchange_must_update_icon := false;
    exchange_must_update_description := false;
    exchange_must_update_tags := false;
    deprecated := false |} in
  asset_id' <- look_asset_on_exchange module ;;
  let exists' := match asset_id' with Some _ => true | None => false end in
  match state p with
  | Present | Deprecated =>
      if exists' then
        result <- ap_exchange_common.analyze_asset
                    module (group_id p) (asset_id p) (asset_version p)
                    (name p) (description p) (icon p) (tags p) ;;
        ret {|
          do_nothing :=
            match state p with
            | Present => negb (must_update result) && negb (asset_deprecated result)
            | Deprecated => asset_deprecated result
            | Absent => false
            end;
          exists_ := true;
          exchange_must_update := must_update result;
          exchange_must_update_name := must_update_name result;
          exchange_must_update_icon := must_update_icon result;
          exchange_must_update_description := must_update_description result;
          exchange_must_update_tags := must_update_tags result;
          deprecated := asset_deprecated result |}
      else ret return_value
  | Absent =>
      ret {|
        do_nothing := negb exists';
        exists_ := exists';
        exchange_must_update := false;
        exchange_must_update_name := false;
        exchange_must_update_icon := false;
        exchange_must_update_description := false;
        exchange_must_update_tags := false;
        deprecated := false |}
  end.

Definition get_settings_xml_path (module : AnsibleModule) : string :=
  get_tmp_dir ++ "/" ++ group_id (params module) ++ "_"
  ++ asset_id (params module) ++ "_settings.xml".

(** One [<server>] entry of the generated settings file. *)
Definition server_xml (id password : string) : string :=
  "        <server>" ++ nl
  ++ "            <id>" ++ id ++ "</id>" ++ nl
  ++ "            <username>~~~Token~~~</username>" ++ nl
  ++ "            <password>" ++ password ++ "</password>" ++ nl
  ++ "        </server>" ++ nl.

Definition settings_xml_content (module : AnsibleModule) : string :=
  "<?xml version=" ++ dq ++ "1.0" ++ dq ++ " encoding=" ++ dq ++ "UTF-8" ++ dq ++ "?>" ++ nl
  ++ "<settings xmlns=" ++ dq ++ "http://maven.apache.org/SETTINGS/1.0.0" ++ dq ++ nl
  ++ "          xmlns:xsi=" ++ dq ++ "http://www.w3.org/2001/XMLSchema-instance" ++ dq ++ nl
  ++ "          xsi:schemaLocation=" ++ dq
  ++ "http://maven.apache.org/SETTINGS/1.0.0 http://maven.apache.org/xsd/settings-1.0.0.xsd"
  ++ dq ++ ">" ++ nl
  ++ "    <servers>" ++ nl
  ++ server_xml "Repository" (bearer (params module))
  ++ server_xml "anypoint-exchange" (bearer (params module))
  ++ server_xml "anypoint-exchange-v2" (bearer (params module))
  ++ "    </servers>" ++ nl
  ++ "</settings>" ++ nl.

Definition create_settings_xml (module : AnsibleModule) : Run bool :=
  let xml_content := settings_xml_content module in
  r <- call (WriteFile (get_settings_xml_path module) xml_content)
            (fun tr => write_result (platform module) tr
                         (get_settings_xml_path module) xml_content) ;;
  match r with
  | None => ret true
  | Some e =>
      fail_json ("[create_settings_xml] Can not create settings.xml file dynamically ["
                 ++ e ++ "]")
  end.

Definition get_distribution_repository_url (module : AnsibleModule) : string :=
  "https://maven." ++ host (params module) ++ "/api/v1/organizations/"
  ++ group_id (params module) ++ "/maven".

(** The descriptor is parsed, edited and written back by the XML library:
    the call records the values set; a malformed descriptor raises. *)
Definition modify_pom_file (module : AnsibleModule) (source_pom : string) : Run unit :=
  let p := params module in
  let tmp_classifier :=
    match type p with
    | example => Some "mule-application-example"
    | template => Some "mule-application-template"
    | _ => None
    end in
  r <- call (RewritePom source_pom (asset_version p) (asset_id p) (group_id p)
                        (name p) tmp_classifier)
            (fun tr => rewrite_pom_result (platform module) tr source_pom) ;;
  match r with
  | None => ret tt
  | Some exn => raise exn
  end.

(** [module.params['type'] == t] *)
Definition type_is (module : AnsibleModule) (t : string) : bool :=
  String.eqb (type_name (type (params module))) t.

Definition upload_exchange_asset (module : AnsibleModule) (context : Context)
    (cmd_base asset_identifier : string) : Run string :=
  let p := params module in
  let return_value := "Asset uploaded" in
  (if type_is module "custom" || type_is module "oas" || type_is module "wsdl"
   then
     let upload_cmd := cmd_base in
     let upload_cmd := upload_cmd ++ " upload" in
     let upload_cmd := upload_cmd ++ " --name " ++ dq ++ name p ++ dq in
     let upload_cmd :=
       match main_file p with
       | Some f => upload_cmd ++ " --mainFile " ++ dq ++ f ++ dq
       | None => upload_cmd
       end in
     let upload_cmd :=
       upload_cmd ++ " --classifier " ++ dq ++ type_name (type p) ++ dq in
     let upload_cmd := upload_cmd ++ " " ++ dq ++ asset_identifier ++ dq in
     let upload_cmd :=
       match file_path p with
       | Some f => upload_cmd ++ " " ++ dq ++ f ++ dq
       | None => upload_cmd
       end in
     ap_common.execute_anypoint_cli "[upload_exchange_asset]" module upload_cmd ;;;
     ret tt
   else if type_is module "example" || type_is module "template"
           || type_is module "connector" || type_is module "extension"
           || type_is module "policy"
   then
     let deploy_cmd := EmptyString in
     if (type_is module "example" || type_is module "template")
        && (match file_path p with None => true | Some _ => false end)
     then
       mv <- match maven p with
             | Some mv => ret mv
             | None => raise "TypeError"
             end ;;
       match sources mv with
       | Some src =>
           (* need to build the asset from the sources *)
           let deploy_cmd :=
             deploy_cmd ++ "-U -B clean deploy -DskipTests -DattachMuleSources=true" in
           (* process global settings file *)
           let deploy_cmd :=
             match maven_get mv "settings" with
             | Some gs => deploy_cmd ++ " -gs " ++ dq ++ gs ++ dq
             | None => deploy_cmd
             end in
           (* process user settings file *)
           create_settings_xml module ;;;
           let deploy_cmd :=
             deploy_cmd ++ " -s " ++ dq ++ get_settings_xml_path module ++ dq in
           (* process alternate pom file *)
           let source_pom :=
             match maven_get mv "pom" with
             | Some f => if negb (String.eqb f EmptyString) then f
                         else src ++ "/pom.xml"
             | None => src ++ "/pom.xml"
             end in
           (* update group id, artifact id and version on the selected pom.xml *)
           modify_pom_file module source_pom ;;;
           let deploy_cmd := deploy_cmd ++ " -f " ++ dq ++ source_pom ++ dq in
           (* add specified variables *)
           let deploy_cmd :=
             match arguments mv with
             | [] => deploy_cmd
             | args => deploy_cmd ++ join " -D" args
             end in
           (* set alternative deployment repository *)
           let deployment_repository := get_distribution_repository_url module in
           let deploy_cmd :=
             deploy_cmd ++ " -DaltDeploymentRepository=" ++ dq
             ++ "Repository::default::" ++ deployment_repository ++ dq in
           (* finally execute the maven command *)
           execute_maven module deploy_cmd ;;;
           ret tt
       | None =>
           fail_json
             ("[upload_exchange_asset] asset type " ++ dq ++ "template" ++ dq
              ++ " or " ++ dq ++ "example" ++ dq
              ++ " requires either a project directory"
              ++ "to build it or a file to just upload it")
       end
     else
       (* just upload provided file *)
       let deploy_cmd := deploy_cmd ++ "deploy:deploy-file" in
       (* process user settings file *)
       create_settings_xml module ;;;
       let deploy_cmd :=
         deploy_cmd ++ " -s " ++ dq ++ get_settings_xml_path module ++ dq in
       (* set the required pom attributes *)
       file <- match file_path p with
               | Some f => ret f
               | None => raise "TypeError"
               end ;;
       let deploy_cmd := deploy_cmd ++ " -Dfile=" ++ dq ++ file ++ dq in
       let deploy_cmd := deploy_cmd ++ " -DrepositoryId=Repository" in
       let deploy_cmd := deploy_cmd ++ " -DartifactId=" ++ asset_id p in
       let deploy_cmd := deploy_cmd ++ " -DgroupId=" ++ group_id p in
       let deploy_cmd := deploy_cmd ++ " -Dversion=" ++ asset_version p in
       (* set classifier *)
       let file_extension := splitext_ext file in
       deploy_cmd <-
         (if type_is module "connector" && String.eqb file_extension ".zip"
          then ret (deploy_cmd ++ " -Dclassifier=studio-plugin")
          else if type_is module "extension" && String.eqb file_extension ".jar"
          then ret (deploy_cmd ++ " -Dclassifier=mule-plugin")
          else if type_is module "policy" && String.eqb file_extension ".jar"
          then ret (deploy_cmd ++ " -Dclassifier=mule-policy")
          else if type_is module "example" && String.eqb file_extension ".jar"
          then ret (deploy_cmd ++ " -Dclassifier=mule-application-example")
          else if type_is module "template" && String.eqb file_extension ".jar"
          then ret (deploy_cmd ++ " -Dclassifier=mule-application-template")
          else
            fail_json
              ("[upload_exchange_asset] invalid file extension for "
               ++ type_name (type p) ++ " asset type "
               ++ "(only supported .zip for mule 3 and .jar for mule 4)")) ;;
       let deploy_cmd :=
         deploy_cmd ++ " -Durl=" ++ get_distribution_repository_url module in
       (* finally execute the maven command *)
       execute_maven module deploy_cmd ;;;
       (* set the asset name: this is required just for extension asset type *)
       ap_exchange_common.set_asset_name
         module (group_id p) (asset_id p) (asset_version p) (name p)
   else ret tt) ;;;
  (* update other fields if it is necessary *)
  ap_exchange_common.modify_exchange_asset
    module (group_id p) (asset_id p) (asset_version p) context
    (name p) (description p) (icon p) (tags p) ;;;
  ret return_value.

(** *** [run_module] *)

(** Lines 520-531: empty strings are turned into [None] in
    [module.params]. *)
Definition empty_to_none (v : option string) : option string :=
  match v with
  | Some s => if String.eqb s EmptyString then None else Some s
  | None => None
  end.

Definition normalize_params (p : Params) : Params := {|
  name := name p;
  state := state p;
  bearer := bearer p;
  host := host p;
  organization := organization p;
  organization_id := organization_id p;
  type := type p;
  group_id := group_id p;
  asset_id := asset_id p;
  asset_version := asset_version p;
  api_version := api_version p;
  main_file := empty_to_none (main_file p);
  file_path := empty_to_none (file_path p);
  tags := tags p;
  description := empty_to_none (description p);
  icon := empty_to_none (icon p);
  maven :=
    match maven p with
    | Some mv =>
        Some {| sources := empty_to_none (sources mv);
                settings := settings mv;
                pom := pom mv;
                arguments := arguments mv |}
    | None => None
    end |}.

(** Lines 533-546: validate required parameters. *)
Definition validate_parameters (module : AnsibleModule) : Run unit :=
  let p := params module in
  (match state p with
   | Present =>
       if type_is module "example" || type_is module "template" then
         if match maven p with
            | None => true
            | Some mv => match maven_get mv "project_dir" with
                         | Some _ => true
                         | None => false
                         end
            end
         then fail_json
                "asset type template or example requires a project directory to build it"
         else ret tt
       else ret tt
   | _ => ret tt
   end) ;;;
  match state p with
  | Present =>
      if type_is module "oas" || type_is module "wsdl"
         || type_is module "connector" || type_is module "extension"
         || type_is module "policy"
      then
        match file_path p with
        | None =>
            fail_json
              "[run_module] asset type oas, wsdl, connector, extension or policy requires a file path to upload it"
        | Some _ => ret tt
        end
      else ret tt
  | _ => ret tt
  end.

(** [output] is unbound until a branch assigns it. *)
Definition read_output (output : option string) : Run string :=
  match output with
  | Some o => ret o
  | None => raise "UnboundLocalError"
  end.

(** Lines 553-589: the calls that change the platform, then the result. *)
Definition apply_changes (module : AnsibleModule) (context : Context)
    (cmd_base : string) : Run unit :=
  let p := params module in
  let asset_identifier :=
    ap_exchange_common.get_asset_identifier
      module (group_id p) (asset_id p) (asset_version p) in
  output <-
    match state p with
    | Present =>
        (* if it doesn't exists then upload *)
        if negb (exists_ context) then
          o <- upload_exchange_asset module context cmd_base asset_identifier ;;
          ret (Some o)
        else
          (* if it exists and it is deprecated, then undeprecate it *)
          output <-
            (if deprecated context then
               let undeprecate_cmd := cmd_base in
               let undeprecate_cmd :=
                 undeprecate_cmd ++ " undeprecate " ++ dq ++ asset_identifier ++ dq in
               o <- ap_common.execute_anypoint_cli "[run_module]" module undeprecate_cmd ;;
               ret (Some o)
             else ret None) ;;
          (* if it exists and must change then modify *)
          if exchange_must_update context then
            o <- ap_exchange_common.modify_exchange_asset
                   module (group_id p) (asset_id p) (asset_version p) context
                   (name p) (description p) (icon p) (tags p) ;;
            ret (Some o)
          else ret output
    | Deprecated =>
        (if negb (exists_ context) then
           upload_exchange_asset module context cmd_base asset_identifier ;;;
           ret tt
         else ret tt) ;;;
        (* if it exists and must change then modify *)
        (if exchange_must_update context then
           ap_exchange_common.modify_exchange_asset
             module (group_id p) (asset_id p) (asset_version p) context
             (name p) (description p) (icon p) (tags p) ;;;
           ret tt
         else ret tt) ;;;
        (* finally just deprecate the asset *)
        let deprecate_cmd := cmd_base in
        let deprecate_cmd :=
          deprecate_cmd ++ " deprecate " ++ dq ++ asset_identifier ++ dq in
        o <- ap_common.execute_anypoint_cli "[run_module]" module deprecate_cmd ;;
        ret (Some o)
    | Absent =>
        o <- ap_exchange_common.delete_exchange_asset
               module (group_id p) (asset_id p) (asset_version p) ;;
        ret (Some o)
    end ;;
  output <- read_output output ;;
  exit_json {| changed := true; msg := remove_newlines output |}.

(** Lines 515-518: [cmd_base], from the path of the CLI binary. *)
Definition cmd_base_of (module : AnsibleModule) (anypointcli_path : string)
    : string :=
  let cmd_base :=
    anypointcli_path ++ " --bearer=" ++ dq ++ bearer (params module) ++ dq in
  let cmd_base := cmd_base ++ " --host=" ++ dq ++ host (params module) ++ dq in
  let cmd_base :=
    cmd_base ++ " --organization=" ++ dq ++ organization (params module) ++ dq in
  cmd_base ++ " exchange asset".

Definition run_module (module : AnsibleModule) : Run unit :=
  let result := {| changed := false; msg := "No action taken" |} in
  (* first all check that the anypoint-cli binary is present on the host *)
  cli <- ap_common.get_anypointcli_path module ;;
  (match cli with
   | None => fail_json "[run_module] anypoint-cli binary not present on host"
   | Some _ => ret tt
   end) ;;;
  mvn <- get_maven_path module ;;
  (match mvn with
   | None => fail_json "[run_module] maven binary not present on host"
   | Some _ => ret tt
   end) ;;;
  (if check_mode module then exit_json result else ret tt) ;;;
  cli <- ap_common.get_anypointcli_path module ;;
  cmd_base <- match cli with
              | Some path => ret (cmd_base_of module path)
              | None => raise "TypeError"
              end ;;
  (* convert empty strings to None if it is necessary *)
  let module := {| params := normalize_params (params module);
                   check_mode := check_mode module;
                   platform := platform module |} in
  (* validate required parameters *)
  validate_parameters module ;;;
  (* exit if I need to do nothing *)
  context <- get_context module cmd_base ;;
  (if do_nothing context then exit_json result else ret tt) ;;;
  apply_changes module context cmd_base.

End ExchangeAsset.

(** ** ap_account_environment.py *)

Module AccountEnvironment.
Import Py.

(** [choices] of [state]. *)
Inductive State : Type := Present | Absent.

(** [choices] of [type]. *)
Inductive EnvType : Type := design | sandbox | production.

Definition type_name (t : EnvType) : string :=
  match t with
  | design => "design"
  | sandbox => "sandbox"
  | production => "production"
  end.

Record Params : Type := {
  name : string;
  state : State;
  bearer : string;
  host : string;
  organization : string;
  type : EnvType
}.

(** [return_value] of [get_context]. *)
Record Context : Type := {
  do_nothing : bool;
  id : json;
  client_id : json;
  client_secret : json
}.

(** [return_value] of [create_environment] and [delete_environment]. *)
Record Output : Type := {
  out_id : json;
  out_client_id : json;
  out_client_secret : json;
  out_msg : string
}.

(** [result] of [run_module]. *)
Record Result : Type := {
  changed : bool;
  result_id : json;
  result_client_id : json;
  result_client_secret : json;
  msg : string
}.

Definition Headers : Type := list (string * string).

Inductive Event : Type :=
| RunCommand (cmd : string)
| OpenUrl (url method : string) (headers : Headers) (data : option string).

(** The host behind the module object: for each external call the answer
    given the calls made before.  [open_url] answers with the body of the
    response ([inr]) or raises ([inl], the text of the exception);
    [json_loads] is the JSON parser, [None] on malformed input. *)
Record Host : Type := {
  bin_path : string -> option string;
  run_command_result : list Event -> string -> Z * string * string;
  open_url_result :
    list Event -> string -> string -> Headers -> option string -> string + string;
  json_loads : string -> option json
}.

Record AnsibleModule : Type := {
  params : Params;
  check_mode : bool;
  platform : Host
}.

Definition Run (A : Type) : Type := M Event Result A.

(** [module.get_bin_path(name, required, opt_dirs)]: with [required] the
    framework fails when the binary is not found. *)
Definition get_bin_path (module : AnsibleModule) (name : string)
    (required : bool) : Run (option string) :=
  match bin_path (platform module) name with
  | Some p => ret (Some p)
  | None =>
      if required
      then fail_json ("Failed to find required executable " ++ name)
      else ret None
  end.

(** [module.run_command(cmd)] *)
Definition run_command (module : AnsibleModule) (cmd : string)
    : Run (Z * string * string) :=
  call (RunCommand cmd)
       (fun tr => run_command_result (platform module) tr cmd).

(** [json.loads(s)] and [json.load(response)] *)
Definition loads (module : AnsibleModule) (s : string) : Run json :=
  match json_loads (platform module) s with
  | Some v => ret v
  | None => raise "ValueError"
  end.

Definition load (module : AnsibleModule) (response : option string) : Run json :=
  match response with
  | Some body => loads module body
  | None => raise "AttributeError"
  end.

Definition get_anypointcli_path (module : AnsibleModule) : Run (option string) :=
  get_bin_path module "anypoint-cli" true.

Definition execute_anypoint_cli (module : AnsibleModule) (cmd : string)
    : Run string :=
  result <- run_command module cmd ;;
  if negb (fst (fst result) =? 0)
  then fail_json (snd (fst result))
  else ret (snd (fst result)).

Definition execute_http_call (module : AnsibleModule) (url method : string)
    (headers : option Headers) (payload : option string)
    : Run (option string) :=
  match headers with
  | Some h =>
      r <- call (OpenUrl url method h payload)
                (fun tr => open_url_result (platform module) tr url method h payload) ;;
      match r with
      | inr body => ret (Some body)
      | inl e => fail_json ("Error executinh HTTP call: " ++ e)
      end
  | None => ret None
  end.

(** The loop of [get_org_id]: the [id] of the first item named like the
    organization, [None] when the loop ends without one. *)
Fixpoint find_org (organization : string) (items : list json)
    : Outcome Result json :=
  match items with
  | [] => Ret JNull
  | item :: rest =>
      match getitem (R := Result) item "name" with
      | Ret n =>
          if eq_str organization n then getitem item "id"
          else find_org organization rest
      | Exit r => Exit r
      | Fail m => Fail m
      | Raise e => Raise e
      end
  end.

(** [for item in v]: the items of a list; an empty string or dictionary
    has none; anything else cannot be iterated as a list of records. *)
Definition items_of (v : json) : Outcome Result (list json) :=
  match v with
  | JList l => Ret l
  | JObj [] => Ret []
  | JStr EmptyString => Ret []
  | _ => Raise "TypeError"
  end.

Definition auth_headers (module : AnsibleModule) : Headers :=
  [("Accept", "application/json");
   ("Authorization", "Bearer " ++ bearer (params module))].

Definition get_org_id (module : AnsibleModule) : Run json :=
  let my_url := "https://" ++ host (params module) ++ "/accounts/api/profile" in
  let headers := auth_headers module in
  response <- execute_http_call module my_url "GET" (Some headers) None ;;
  output <- load module response ;;
  orgs <- lift (getitem output "memberOfOrganizations") ;;
  items <- lift (items_of orgs) ;;
  org_id <- lift (find_org (organization (params module)) items) ;;
  (if is_none org_id
   then fail_json ("Business Group {" ++ organization (params module)
                   ++ "} not found")
   else ret tt) ;;;
  ret org_id.

Definition error_message : string := "Error: Environment not found".

Definition get_environment (module : AnsibleModule) (cmd_base : string)
    : Run json :=
  let cmd_final := cmd_base in
  let cmd_final := cmd_final ++ " describe" in
  let cmd_final := cmd_final ++ " " ++ dq ++ name (params module) ++ dq in
  let cmd_final := cmd_final ++ " --output json" in
  result <- run_command module cmd_final ;;
  if fst (fst result) =? 0 then
    loads module (snd (fst result))
  else if (fst (fst result) =? 255)
          && String.eqb (remove_newlines (snd (fst result))) error_message then
    ret (JObj [])
  else
    fail_json (snd (fst result)).

Definition get_env_client_secret (module : AnsibleModule)
    (org_id client_id : json) : Run json :=
  org_id <- lift (as_str org_id) ;;
  client_id <- lift (as_str client_id) ;;
  let my_url := "https://" ++ host (params module)
                ++ "/accounts/api/organizations/" ++ org_id
                ++ "/clients/" ++ client_id in
  let headers := auth_headers module in
  response <- execute_http_call module my_url "GET" (Some headers) None ;;
  output <- load module response ;;
  lift (get output "client_secret").

Definition get_context (module : AnsibleModule) (cmd_base : string)
    : Run Context :=
  resp_json <- get_environment module cmd_base ;;
  ids <- (if ne_empty_dict resp_json then
            i <- lift (getitem resp_json "ID") ;;
            c <- lift (getitem resp_json "Client ID") ;;
            ret (i, c)
          else ret (JNull, JNull)) ;;
  let id' := fst ids in
  let client_id' := snd ids in
  match state (params module) with
  | Absent =>
      ret {| do_nothing := is_none id';
             id := id';
             client_id := client_id';
             client_secret := JNull |}
  | Present =>
      if is_none id' then
        ret {| do_nothing := false;
               id := id';
               client_id := client_id';
               client_secret := JNull |}
      else
        org_id <- get_org_id module ;;
        client_secret' <- get_env_client_secret module org_id client_id' ;;
        ret {| do_nothing := true;
               id := id';
               client_id := client_id';
               client_secret := client_secret' |}
  end.

Definition create_environment (module : AnsibleModule) (cmd_base : string)
    : Run Output :=
  let cmd_final := cmd_base in
  let cmd_final := cmd_final ++ " create --type " ++ type_name (type (params module)) in
  let cmd_final := cmd_final ++ " " ++ dq ++ name (params module) ++ dq in
  execute_anypoint_cli module cmd_final ;;;
  resp_json <- get_environment module cmd_base ;;
  id' <- lift (getitem resp_json "ID") ;;
  client_id' <- lift (getitem resp_json "Client ID") ;;
  org_id <- get_org_id module ;;
  client_secret' <- get_env_client_secret module org_id client_id' ;;
  ret {| out_id := id';
         out_client_id := client_id';
         out_client_secret := client_secret';
         out_msg := "environment created" |}.

Definition delete_environment (module : AnsibleModule) (cmd_base : string)
    : Run Output :=
  let cmd_final := cmd_base in
  let cmd_final := cmd_final ++ " delete" in
  let cmd_final := cmd_final ++ " " ++ dq ++ name (params module) ++ dq in
  execute_anypoint_cli module cmd_final ;;;
  ret {| out_id := JNull;
         out_client_id := JNull;
         out_client_secret := JNull;
         out_msg := "environment deleted" |}.

(** Lines 281-285: [cmd_base], from the path of the CLI binary. *)
Definition cmd_base_of (module : AnsibleModule) (anypointcli_path : string)
    : string :=
  let cmd :=
    anypointcli_path ++ " --bearer=" ++ dq ++ bearer (params module) ++ dq in
  let cmd := cmd ++ " --organization=" ++ dq ++ organization (params module) ++ dq in
  let cmd := cmd ++ " --host=" ++ dq ++ host (params module) ++ dq in
  let cmd := cmd ++ " account environment" in
  cmd.

Definition run_module (module : AnsibleModule) : Run unit :=
  let result := {| changed := false;
                   result_id := JNull;
                   result_client_id := JNull;
                   result_client_secret := JNull;
                   msg := "No action taken" |} in
  (* first all check that the anypoint-cli binary is present on the host *)
  cli <- get_anypointcli_path module ;;
  (match cli with
   | None => fail_json "anypoint-cli binary not present on host"
   | Some _ => ret tt
   end) ;;;
  (* exit if the execution is in check_mode *)
  (if check_mode module then exit_json result else ret tt) ;;;
  cli <- get_anypointcli_path module ;;
  cmd_base <- match cli with
              | Some path => ret (cmd_base_of module path)
              | None => raise "TypeError"
              end ;;
  (* exit if I need to do nothing, so check if environment exists *)
  context <- get_context module cmd_base ;;
  let result := {| changed := false;
                   result_id := id context;
                   result_client_id := client_id context;
                   result_client_secret := client_secret context;
                   msg := "No action taken" |} in
  (if do_nothing context then exit_json result else ret tt) ;;;
  (* Parameters set action *)
  output <- match state (params module) with
            | Present => create_environment module cmd_base
            | Absent => delete_environment module cmd_base
            end ;;
  exit_json {| changed := true;
               result_id := out_id output;
               result_client_id := out_client_id output;
               result_client_secret := out_client_secret output;
               msg := out_msg output |}.

End AccountEnvironment.

(** ** Observations on runs, and sample invocations *)

Module Obs.
Import Py.

(** An outcome that ends the run without a result: [fail_json] or an
    uncaught exception. *)
Definition fatal {R A} (o : Outcome R A) : Prop :=
  match o with
  | Fail _ | Raise _ => True
  | Ret _ | Exit _ => False
  end.

(** [d.get(k)] on a dictionary, as a value. *)
Definition get_or_none (k : string) (d : list (string * json)) : json :=
  match lookup k d with
  | Some v => v
  | None => JNull
  end.

(** The trace [tr'] continues the trace [tr]. *)
Definition extends {E} (tr tr' : list E) : Prop :=
  exists suffix, tr' = (tr ++ suffix)%list.

(** A computation that makes no external call. *)
Definition silent {E R A} (c : M E R A) : Prop :=
  forall tr o tr', c tr = (o, tr') -> tr' = tr.

(** A computation that only ever appends to the trace. *)
Definition appending {E R A} (c : M E R A) : Prop :=
  forall tr o tr', c tr = (o, tr') -> extends tr tr'.

End Obs.

Module AssetSamples.
Import Py ExchangeAsset.

(** Calls that only read the platform. *)
Definition read_only (e : Event) : bool :=
  match e with
  | LookExchangeAsset _ _ _ => true
  | AnalyzeAsset _ _ _ _ _ _ _ => true
  | _ => false
  end.

Definition is_some {A} (o : option A) : bool :=
  match o with
  | Some _ => true
  | None => false
  end.

(** The module object after lines 520-531 of [run_module]. *)
Definition normalized (module : AnsibleModule) : AnsibleModule :=
  {| params := normalize_params (params module);
     check_mode := check_mode module;
     platform := platform module |}.

Definition sample_params (st : State) (ty : AssetType) (file : option string)
    (mv : option Maven) : Params :=
  {| name := "My Asset";
     state := st;
     bearer := "fe819df3";
     host := "anypoint.mulesoft.com";
     organization := "My Demos";
     organization_id := "ee819df3";
     type := ty;
     group_id := "ee819df3";
     asset_id := "my-fragment";
     asset_version := "1.0.1";
     api_version := "1.0";
     main_file := None;
     file_path := file;
     tags := [];
     description := None;
     icon := None;
     maven := mv |}.

(** Answers of the query endpoint: a 404 error, another error, a record. *)
Definition error_output (status : Z) : json :=
  JObj [("errors", JList [JObj [("status", JInt status);
                                ("message", JStr "upstream said no")]])].

Definition record_output (ty : string) : json :=
  JObj [("data",
         JObj [("assets",
                JList [JObj [("assetId", JStr "my-fragment");
                             ("groupId", JStr "ee819df3");
                             ("version", JStr "1.0.1");
                             ("type", JStr ty)]])])].

Definition sample_analysis (update dep : bool) : Analysis :=
  {| must_update := update;
     must_update_name := update;
     must_update_icon := false;
     must_update_description := false;
     must_update_tags := false;
     asset_deprecated := dep |}.

(** A host where every binary is installed and every command succeeds. *)
Definition sample_host (graphql : json) (an : Analysis) : Host :=
  {| bin_path := fun n => Some ("/usr/local/bin/" ++ n);
     run_command_result := fun _ _ => (0, "done", EmptyString);
     write_result := fun _ _ _ => None;
     rewrite_pom_result := fun _ _ => None;
     graphql_answer := fun _ _ _ _ => Answer graphql;
     analyze_answer := fun _ _ _ _ _ _ _ _ => Answer an;
     modify_answer := fun _ _ _ _ _ _ _ _ _ => Answer "Asset modified";
     set_name_answer := fun _ _ _ _ _ => Answer tt;
     delete_answer := fun _ _ _ _ => Answer "Asset deleted";
     asset_identifier := fun g a v => g ++ "/" ++ a ++ "/" ++ v |}.

Definition sample_module (st : State) (ty : AssetType) (file : option string)
    (mv : option Maven) (graphql : json) (an : Analysis) : AnsibleModule :=
  {| params := sample_params st ty file mv;
     check_mode := false;
     platform := sample_host graphql an |}.

(** The analysis is coherent when its summary flag is set exactly when one
    of the per-field flags is. *)
Definition coherent (an : Analysis) : Prop :=
  must_update an
  = must_update_name an || must_update_icon an
    || must_update_description an || must_update_tags an.

(** No must-update flag of the plan is set. *)
Definition no_update_flag (c : Context) : Prop :=
  exchange_must_update c = false
  /\ exchange_must_update_name c = false
  /\ exchange_must_update_icon c = false
  /\ exchange_must_update_description c = false
  /\ exchange_must_update_tags c = false.

(** The plan carries the flags of the analysis. *)
Definition flags_from (an : Analysis) (c : Context) : Prop :=
  exchange_must_update c = must_update an
  /\ exchange_must_update_name c = must_update_name an
  /\ exchange_must_update_icon c = must_update_icon an
  /\ exchange_must_update_description c = must_update_description an
  /\ exchange_must_update_tags c = must_update_tags an
  /\ deprecated c = asset_deprecated an.

(** A host on which every external call that changes something succeeds. *)
Definition working (h : Host) : Prop :=
  (forall tr cmd, fst (fst (run_command_result h tr cmd)) = 0)
  /\ (forall tr path content, write_result h tr path content = None)
  /\ (forall tr source_pom, rewrite_pom_result h tr source_pom = None)
  /\ (forall tr g a v c n d i t,
        exists o, modify_answer h tr g a v c n d i t = Answer o)
  /\ (forall tr g a v n, set_name_answer h tr g a v n = Answer tt).

(** The classifier table, as the specification words it. *)
Definition spec_classifier (t : AssetType) (extension : string) : option string :=
  match t with
  | connector =>
      if String.eqb extension ".zip" then Some "studio-plugin" else None
  | ExchangeAsset.extension =>
      if String.eqb extension ".jar" then Some "mule-plugin" else None
  | policy =>
      if String.eqb extension ".jar" then Some "mule-policy" else None
  | example =>
      if String.eqb extension ".jar" then Some "mule-application-example" else None
  | template =>
      if String.eqb extension ".jar" then Some "mule-application-template" else None
  | custom | oas | wsdl => None
  end.

(** The types that are uploaded with the build tool. *)
Definition built (t : AssetType) : bool :=
  match t with
  | custom | oas | wsdl => false
  | _ => true
  end.

(** The command lines the module composes. *)
Definition upload_cmd (module : AnsibleModule) (cmd_base aid : string) : string :=
  let p := params module in
  let upload_cmd := cmd_base in
  let upload_cmd := upload_cmd ++ " upload" in
  let upload_cmd := upload_cmd ++ " --name " ++ dq ++ name p ++ dq in
  let upload_cmd :=
    match main_file p with
    | Some f => upload_cmd ++ " --mainFile " ++ dq ++ f ++ dq
    | None => upload_cmd
    end in
  let upload_cmd :=
    upload_cmd ++ " --classifier " ++ dq ++ type_name (type p) ++ dq in
  let upload_cmd := upload_cmd ++ " " ++ dq ++ aid ++ dq in
  match file_path p with
  | Some f => upload_cmd ++ " " ++ dq ++ f ++ dq
  | None => upload_cmd
  end.

Definition deploy_file_cmd (module : AnsibleModule) (file classifier : string)
    : string :=
  let p := params module in
  let deploy_cmd := EmptyString ++ "deploy:deploy-file" in
  let deploy_cmd :=
    deploy_cmd ++ " -s " ++ dq ++ get_settings_xml_path module ++ dq in
  let deploy_cmd := deploy_cmd ++ " -Dfile=" ++ dq ++ file ++ dq in
  let deploy_cmd := deploy_cmd ++ " -DrepositoryId=Repository" in
  let deploy_cmd := deploy_cmd ++ " -DartifactId=" ++ asset_id p in
  let deploy_cmd := deploy_cmd ++ " -DgroupId=" ++ group_id p in
  let deploy_cmd := deploy_cmd ++ " -Dversion=" ++ asset_version p in
  let deploy_cmd := deploy_cmd ++ " -Dclassifier=" ++ classifier in
  deploy_cmd ++ " -Durl=" ++ get_distribution_repository_url module.

Definition source_pom_of (mv : Maven) (src : string) : string :=
  match maven_get mv "pom" with
  | Some f => if negb (String.eqb f EmptyString) then f else src ++ "/pom.xml"
  | None => src ++ "/pom.xml"
  end.

Definition clean_deploy_cmd (module : AnsibleModule) (mv : Maven) (src : string)
    : string :=
  let deploy_cmd :=
    EmptyString ++ "-U -B clean deploy -DskipTests -DattachMuleSources=true" in
  let deploy_cmd :=
    match maven_get mv "settings" with
    | Some gs => deploy_cmd ++ " -gs " ++ dq ++ gs ++ dq
    | None => deploy_cmd
    end in
  let deploy_cmd :=
    deploy_cmd ++ " -s " ++ dq ++ get_settings_xml_path module ++ dq in
  let deploy_cmd := deploy_cmd ++ " -f " ++ dq ++ source_pom_of mv src ++ dq in
  let deploy_cmd :=
    match arguments mv with
    | [] => deploy_cmd
    | args => deploy_cmd ++ join " -D" args
    end in
  deploy_cmd ++ " -DaltDeploymentRepository=" ++ dq
  ++ "Repository::default::" ++ get_distribution_repository_url module ++ dq.

Definition deprecate_cmd (cmd_base aid : string) : string :=
  cmd_base ++ " deprecate " ++ dq ++ aid ++ dq.

Definition undeprecate_cmd (cmd_base aid : string) : string :=
  cmd_base ++ " undeprecate " ++ dq ++ aid ++ dq.

Definition invalid_extension_msg (module : AnsibleModule) : string :=
  "[upload_exchange_asset] invalid file extension for "
  ++ type_name (type (params module)) ++ " asset type "
  ++ "(only supported .zip for mule 3 and .jar for mule 4)".

Definition nothing_to_upload_msg : string :=
  "[upload_exchange_asset] asset type " ++ dq ++ "template" ++ dq
  ++ " or " ++ dq ++ "example" ++ dq
  ++ " requires either a project directory"
  ++ "to build it or a file to just upload it".

(** The events of a run. *)
Definition settings_written (module : AnsibleModule) : Event :=
  WriteFile (get_settings_xml_path module) (settings_xml_content module).

Definition metadata_updated (module : AnsibleModule) (context : Context) : Event :=
  let p := params module in
  ModifyExchangeAsset (group_id p) (asset_id p) (asset_version p) context
                      (name p) (description p) (icon p) (tags p).

Definition name_set (module : AnsibleModule) : Event :=
  let p := params module in
  SetAssetName (group_id p) (asset_id p) (asset_version p) (name p).

Definition pom_rewritten (module : AnsibleModule) (source_pom : string) : Event :=
  let p := params module in
  RewritePom source_pom (asset_version p) (asset_id p) (group_id p) (name p)
             (match type p with
              | example => Some "mule-application-example"
              | template => Some "mule-application-template"
              | _ => None
              end).

Definition looked_up (module : AnsibleModule) : Event :=
  let p := params module in
  LookExchangeAsset (group_id p) (asset_id p) (asset_version p).

(** The plan for an asset that does not exist. *)
Definition missing_plan : Context :=
  {| do_nothing := false;
     exists_ := false;
     exchange_must_update := false;
     exchange_must_update_name := false;
     exchange_must_update_icon := false;
     exchange_must_update_description := false;
     exchange_must_update_tags := false;
     deprecated := false |}.

(** The result of a run that changed nothing. *)
Definition no_action : Result := {| changed := false; msg := "No action taken" |}.

(** The composite identifier of the asset. *)
Definition identifier (module : AnsibleModule) : string :=
  let p := params module in
  ap_exchange_common.get_asset_identifier
    module (group_id p) (asset_id p) (asset_version p).

(** How a run ends when a step ends as [o]: a returned message becomes the
    result of the run, anything else ends the run as it is. *)
Definition reported (o : Outcome Result string) : Outcome Result unit :=
  match o with
  | Ret v => Exit {| changed := true; msg := remove_newlines v |}
  | Exit r => Exit r
  | Fail m => Fail m
  | Raise e => Raise e
  end.

(** The observed state already satisfies the desired one: for [absent]
    the asset is not found; for [present] it is found, nothing is to be
    updated and it is not deprecated; for [deprecated] it is found and
    deprecated.  [tr1] is the trace once the lookup has answered. *)
Definition observed_satisfies (module : AnsibleModule) (tr1 : list Event)
    (found : option json) : Prop :=
  let p := params module in
  let analyzed an :=
    analyze_answer (platform module) tr1 (group_id p) (asset_id p)
                   (asset_version p) (name p) (description p) (icon p) (tags p)
    = Answer an in
  match state p with
  | Absent => found = None
  | Present =>
      found <> None
      /\ exists an, analyzed an /\ must_update an = false
                    /\ asset_deprecated an = false
  | Deprecated =>
      found <> None /\ exists an, analyzed an /\ asset_deprecated an = true
  end.

(** The same invocation on another host. *)
Definition on_host (module : AnsibleModule) (h : Host) : AnsibleModule :=
  {| params := params module; check_mode := false; platform := h |}.

(** The classifier of an example or a template. *)
Definition application_classifier (t : AssetType) : string :=
  match t with
  | example => "mule-application-example"
  | _ => "mule-application-template"
  end.

Definition no_maven_options : Maven :=
  {| sources := None; settings := None; pom := None; arguments := [] |}.

End AssetSamples.

Module EnvSamples.
Import Py AccountEnvironment.

(** The command lines and addresses the module composes. *)
Definition describe_cmd (module : AnsibleModule) (cmd_base : string) : string :=
  let cmd_final := cmd_base in
  let cmd_final := cmd_final ++ " describe" in
  let cmd_final := cmd_final ++ " " ++ dq ++ name (params module) ++ dq in
  cmd_final ++ " --output json".

Definition delete_cmd (module : AnsibleModule) (cmd_base : string) : string :=
  let cmd_final := cmd_base in
  let cmd_final := cmd_final ++ " delete" in
  cmd_final ++ " " ++ dq ++ name (params module) ++ dq.

Definition profile_url (module : AnsibleModule) : string :=
  "https://" ++ host (params module) ++ "/accounts/api/profile".

Definition clients_url (module : AnsibleModule) (org_id client_id : string)
    : string :=
  "https://" ++ host (params module) ++ "/accounts/api/organizations/"
  ++ org_id ++ "/clients/" ++ client_id.

(** The events of a run. *)
Definition described (module : AnsibleModule) (cmd_base : string) : Event :=
  RunCommand (describe_cmd module cmd_base).

Definition deleted (module : AnsibleModule) (cmd_base : string) : Event :=
  RunCommand (delete_cmd module cmd_base).

Definition profile_fetched (module : AnsibleModule) : Event :=
  OpenUrl (profile_url module) "GET" (auth_headers module) None.

Definition secret_fetched (module : AnsibleModule) (org_id client_id : string)
    : Event :=
  OpenUrl (clients_url module org_id client_id) "GET" (auth_headers module) None.

(** Calls that only read the platform: the [describe] command and the
    HTTP GET requests. *)
Definition read_only (module : AnsibleModule) (cmd_base : string) (e : Event)
    : bool :=
  match e with
  | RunCommand cmd => String.eqb cmd (describe_cmd module cmd_base)
  | OpenUrl _ method _ _ => String.eqb method "GET"
  end.

(** What [describe] said: the exit code and the output of the command. *)
Definition describe_result (module : AnsibleModule) (cmd_base : string)
    (tr : list Event) : Z * string * string :=
  run_command_result (platform module) tr (describe_cmd module cmd_base).

(** The environment exists: [describe] gave a record with an identifier
    and a client identifier. *)
Definition existing (record : json) (env_id env_client : json) : Prop :=
  exists fields,
    record = JObj fields
    /\ lookup "ID" fields = Some env_id
    /\ env_id <> JNull
    /\ lookup "Client ID" fields = Some env_client.

(** The observed state already satisfies the desired one: for [absent]
    the environment is not found; for [present] it exists (and its client
    secret can be read).  [tr1] is the trace once [describe] has
    answered. *)
Definition observed_satisfies (module : AnsibleModule) (tr1 : list Event)
    (record : json) : Prop :=
  match state (params module) with
  | Absent => record = JObj []
  | Present =>
      exists env_id env_client org tr2 secret tr3,
        existing record env_id env_client
        /\ get_org_id module tr1 = (Ret org, tr2)
        /\ get_env_client_secret module org env_client tr2 = (Ret secret, tr3)
  end.

(** The result of a run that changed nothing. *)
Definition no_action (env_id env_client secret : json) : Result :=
  {| changed := false;
     result_id := env_id;
     result_client_id := env_client;
     result_client_secret := secret;
     msg := "No action taken" |}.

(** Sample invocations.  The toy parser knows the three documents the
    sample hosts produce. *)
Definition sample_params (st : State) : Params :=
  {| name := "Development";
     state := st;
     bearer := "fe819df3";
     host := "anypoint.mulesoft.com";
     organization := "My Demos";
     type := sandbox |}.

Definition sample_record : json :=
  JObj [("ID", JStr "env-1"); ("Client ID", JStr "client-1");
        ("Name", JStr "Development")].

Definition sample_profile : json :=
  JObj [("memberOfOrganizations",
         JList [JObj [("name", JStr "Other"); ("id", JStr "org-0")];
                JObj [("name", JStr "My Demos"); ("id", JStr "org-1")]])].

Definition sample_client : json :=
  JObj [("client_id", JStr "client-1"); ("client_secret", JStr "s3cret")].

Definition sample_loads (s : string) : option json :=
  if String.eqb s "record" then Some sample_record
  else if String.eqb s "profile" then Some sample_profile
  else if String.eqb s "client" then Some sample_client
  else None.

(** A host whose [describe] answers with the given exit code and output,
    and where every other command and request succeeds. *)
Definition sample_host (rc : Z) (out : string) : Host :=
  {| bin_path := fun n => Some ("/usr/local/bin/" ++ n);
     run_command_result :=
       fun tr _ => match tr with
                   | [] => (rc, out, EmptyString)
                   | _ => (0, "done", EmptyString)
                   end;
     open_url_result :=
       fun tr _ _ _ _ => match tr with
                         | [_] => inr "profile"
                         | _ => inr "client"
                         end;
     json_loads := sample_loads |}.

Definition sample_module (st : State) (rc : Z) (out : string) : AnsibleModule :=
  {| params := sample_params st;
     check_mode := false;
     platform := sample_host rc out |}.

End EnvSamples.

(** ** Further observations on runs *)

Module Further.
Import Py.

(** Every call a computation makes satisfies [P], however it ends. *)
Definition emits {E R A} (P : E -> bool) (c : M E R A) : Prop :=
  forall tr o tr', c tr = (o, tr') ->
    exists calls, tr' = (tr ++ calls)%list /\ forallb P calls = true.

(** A computation that never ends the run with [exit_json]. *)
Definition never_exits {E R A} (c : M E R A) : Prop :=
  forall tr r tr', c tr <> (Exit r, tr').

(** Every [exit_json] of a computation carries a result satisfying [P]. *)
Definition exits_with {E R A} (P : R -> Prop) (c : M E R A) : Prop :=
  forall tr r tr', c tr = (Exit r, tr') -> P r.

(** The string holds no line feed. *)
Fixpoint no_newline (s : string) : bool :=
  match s with
  | EmptyString => true
  | String c r => negb (Ascii.eqb c newline) && no_newline r
  end.

(** [sep + x] for every [x], concatenated. *)
Fixpoint prefixed (sep : string) (l : list string) : string :=
  match l with
  | [] => EmptyString
  | x :: r => sep ++ x ++ prefixed sep r
  end.

End Further.

Module AssetFurther.
Import Py Further ExchangeAsset AssetSamples.

Definition is_delete (e : Event) : bool :=
  match e with
  | DeleteExchangeAsset _ _ _ => true
  | _ => false
  end.

(** The calls of a run that goes through the CLI only: no file is written,
    no descriptor rewritten, and the commands are the upload, the
    undeprecation or the deprecation. *)
Definition cli_only (module : AnsibleModule) (cmd_base : string) (e : Event)
    : bool :=
  match e with
  | RunCommand cmd =>
      String.eqb cmd (upload_cmd module cmd_base (identifier module))
      || String.eqb cmd (undeprecate_cmd cmd_base (identifier module))
      || String.eqb cmd (deprecate_cmd cmd_base (identifier module))
  | WriteFile _ _ => false
  | RewritePom _ _ _ _ _ _ => false
  | SetAssetName _ _ _ _ => false
  | _ => true
  end.

Definition analyzed (module : AnsibleModule) : Event :=
  let p := params module in
  AnalyzeAsset (group_id p) (asset_id p) (asset_version p) (name p)
               (description p) (icon p) (tags p).

Definition deleted (module : AnsibleModule) : Event :=
  let p := params module in
  DeleteExchangeAsset (group_id p) (asset_id p) (asset_version p).

(** The plan built from an analysis of an existing asset with a target
    other than [absent]. *)
Definition existing_plan (st : State) (an : Analysis) : Context :=
  {| do_nothing :=
       match st with
       | Present => negb (must_update an) && negb (asset_deprecated an)
       | Deprecated => asset_deprecated an
       | Absent => false
       end;
     exists_ := true;
     exchange_must_update := must_update an;
     exchange_must_update_name := must_update_name an;
     exchange_must_update_icon := must_update_icon an;
     exchange_must_update_description := must_update_description an;
     exchange_must_update_tags := must_update_tags an;
     deprecated := asset_deprecated an |}.

(** The types whose upload needs a file path (lines 540-544). *)
Definition needs_file (t : AssetType) : bool :=
  match t with
  | oas | wsdl | connector | extension | policy => true
  | custom | example | template => false
  end.

Definition not_delete (e : Event) : bool := negb (is_delete e).

Definition settings_failure_msg (e : string) : string :=
  "[create_settings_xml] Can not create settings.xml file dynamically ["
  ++ e ++ "]".

(** What every reported result looks like: a message without line feed,
    and, when nothing changed, the fixed result "No action taken". *)
Definition well_reported (r : Result) : Prop :=
  no_newline (msg r) = true /\ (changed r = false -> r = no_action).

(** The build command up to the option naming the descriptor, and its
    last option. *)
Definition descriptor_options (module : AnsibleModule) (mv : Maven)
    (src : string) : string :=
  let deploy_cmd :=
    EmptyString ++ "-U -B clean deploy -DskipTests -DattachMuleSources=true" in
  let deploy_cmd :=
    match maven_get mv "settings" with
    | Some gs => deploy_cmd ++ " -gs " ++ dq ++ gs ++ dq
    | None => deploy_cmd
    end in
  let deploy_cmd :=
    deploy_cmd ++ " -s " ++ dq ++ get_settings_xml_path module ++ dq in
  deploy_cmd ++ " -f " ++ dq ++ source_pom_of mv src ++ dq.

Definition repository_option (module : AnsibleModule) : string :=
  " -DaltDeploymentRepository=" ++ dq
  ++ "Repository::default::" ++ get_distribution_repository_url module ++ dq.

Definition missing_file_msg : string :=
  "[run_module] asset type oas, wsdl, connector, extension or policy requires a file path to upload it".

(** No parameter that [run_module] normalizes is an empty string. *)
Definition no_empty_path (p : Params) : Prop :=
  main_file p <> Some EmptyString
  /\ file_path p <> Some EmptyString
  /\ icon p <> Some EmptyString
  /\ description p <> Some EmptyString
  /\ forall mv, maven p = Some mv -> sources mv <> Some EmptyString.

(** Sample hosts on which one kind of call fails. *)
Definition with_commands (h : Host)
    (answer : list Event -> string -> Z * string * string) : Host :=
  {| bin_path := bin_path h;
     run_command_result := answer;
     write_result := write_result h;
     rewrite_pom_result := rewrite_pom_result h;
     graphql_answer := graphql_answer h;
     analyze_answer := analyze_answer h;
     modify_answer := modify_answer h;
     set_name_answer := set_name_answer h;
     delete_answer := delete_answer h;
     asset_identifier := asset_identifier h |}.

Definition with_writes (h : Host)
    (answer : list Event -> string -> string -> option string) : Host :=
  {| bin_path := bin_path h;
     run_command_result := run_command_result h;
     write_result := answer;
     rewrite_pom_result := rewrite_pom_result h;
     graphql_answer := graphql_answer h;
     analyze_answer := analyze_answer h;
     modify_answer := modify_answer h;
     set_name_answer := set_name_answer h;
     delete_answer := delete_answer h;
     asset_identifier := asset_identifier h |}.

Definition on (module : AnsibleModule) (h : Host) : AnsibleModule :=
  {| params := params module;
     check_mode := check_mode module;
     platform := h |}.

Definition checking (module : AnsibleModule) : AnsibleModule :=
  {| params := params module;
     check_mode := true;
     platform := platform module |}.

End AssetFurther.

Module EnvFurther.
Import Py AccountEnvironment EnvSamples.

Definition create_cmd (module : AnsibleModule) (cmd_base : string) : string :=
  let cmd_final := cmd_base in
  let cmd_final :=
    cmd_final ++ " create --type " ++ type_name (type (params module)) in
  cmd_final ++ " " ++ dq ++ name (params module) ++ dq.

Definition created (module : AnsibleModule) (cmd_base : string) : Event :=
  RunCommand (create_cmd module cmd_base).

(** A membership of another organization, and a membership of the
    organization [org] whose [id] entry is [v]. *)
Definition other_org (org : string) (item : json) : Prop :=
  exists fields n,
    item = JObj fields /\ lookup "name" fields = Some n
    /\ eq_str org n = false.

Definition named_org (org : string) (item : json) (v : json) : Prop :=
  exists fields n,
    item = JObj fields /\ lookup "name" fields = Some n
    /\ eq_str org n = true /\ lookup "id" fields = Some v.

Definition org_not_found_msg (module : AnsibleModule) : string :=
  "Business Group {" ++ organization (params module) ++ "} not found".

(** The profile given the body of the response to the profile request. *)
Definition memberships (module : AnsibleModule) (tr : list Event)
    (items : list json) : Prop :=
  exists body doc,
    open_url_result (platform module) tr (profile_url module) "GET"
                    (auth_headers module) None = inr body
    /\ json_loads (platform module) body = Some (JObj doc)
    /\ lookup "memberOfOrganizations" doc = Some (JList items).

Definition is_command (e : Event) : bool :=
  match e with
  | RunCommand _ => true
  | OpenUrl _ _ _ _ => false
  end.

(** A host that answers the commands, and the requests, in the order
    they come: the n-th command gets the n-th scripted answer. *)
Definition further_loads (s : string) : option json :=
  if String.eqb s "strangers"
  then Some (JObj [("memberOfOrganizations",
                    JList [JObj [("name", JStr "Other"); ("id", JStr "org-0")]])])
  else if String.eqb s "bare client"
  then Some (JObj [("client_id", JStr "client-1")])
  else sample_loads s.

Definition scripted (commands : list (Z * string)) (bodies : list string) : Host :=
  {| bin_path := fun n => Some ("/usr/local/bin/" ++ n);
     run_command_result :=
       fun tr _ =>
         (nth (List.length (filter is_command tr)) commands (0, "done"),
          EmptyString);
     open_url_result :=
       fun tr _ _ _ _ =>
         inr (nth (List.length (filter (fun e => negb (is_command e)) tr))
                  bodies "client");
     json_loads := further_loads |}.

Definition scripted_module (st : State) (check : bool)
    (commands : list (Z * string)) (bodies : list string) : AnsibleModule :=
  {| params := sample_params st;
     check_mode := check;
     platform := scripted commands bodies |}.

End EnvFurther.

(** * Properties *)

(** ** File extensions *)

Example splitext_jar : Py.splitext_ext "/tmp/app-1.0.jar" = ".jar".
Proof. reflexivity. Qed.

Example splitext_last_dot : Py.splitext_ext "archive.tar.gz" = ".gz".
Proof. reflexivity. Qed.

Example splitext_hidden_file : Py.splitext_ext "/tmp.d/.profile" = EmptyString.
Proof. reflexivity. Qed.

Example splitext_leading_dots : Py.splitext_ext "..jar" = EmptyString.
Proof. reflexivity. Qed.

(** ** Reasoning about runs *)

Module RunFacts.
Import Py Obs.

Lemma bind_ret_inv {E R A B} (c : M E R A) (k : A -> M E R B) tr b tr' :
  bind c k tr = (Ret b, tr') ->
  exists a tr1, c tr = (Ret a, tr1) /\ k a tr1 = (Ret b, tr').
Proof.
  unfold bind. destruct (c tr) as [[a | r | m | e] tr1]; intros H;
    try discriminate.
  exists a, tr1. split; [reflexivity | exact H].
Qed.

Lemma bind_ret {E R A B} (c : M E R A) (k : A -> M E R B) tr a tr1 :
  c tr = (Ret a, tr1) -> bind c k tr = k a tr1.
Proof. intros H. unfold bind. rewrite H. reflexivity. Qed.

Lemma bind_fail {E R A B} (c : M E R A) (k : A -> M E R B) tr m tr1 :
  c tr = (Fail m, tr1) -> bind c k tr = (Fail m, tr1).
Proof. intros H. unfold bind. rewrite H. reflexivity. Qed.

Lemma bind_raise {E R A B} (c : M E R A) (k : A -> M E R B) tr e tr1 :
  c tr = (Raise e, tr1) -> bind c k tr = (Raise e, tr1).
Proof. intros H. unfold bind. rewrite H. reflexivity. Qed.

Lemma bind_exit {E R A B} (c : M E R A) (k : A -> M E R B) tr r tr1 :
  c tr = (Exit r, tr1) -> bind c k tr = (Exit r, tr1).
Proof. intros H. unfold bind. rewrite H. reflexivity. Qed.

Lemma call_helper_ret_inv {E R A} (e : E) (answer : list E -> Reply A) tr a tr' :
  call_helper (R := R) e answer tr = (Ret a, tr') ->
  answer tr = Answer a /\ tr' = (tr ++ [e])%list.
Proof.
  unfold call_helper. destruct (answer tr); intros H; inversion H; auto.
Qed.

Lemma bind_assoc {E R A B C} (c : M E R A) (k : A -> M E R B)
    (h : B -> M E R C) tr :
  bind (bind c k) h tr = bind c (fun a => bind (k a) h) tr.
Proof.
  unfold bind. destruct (c tr) as [[a | r | m | e] tr1]; reflexivity.
Qed.

Lemma bind_pure {E R A B} (a : A) (k : A -> M E R B) tr :
  bind (ret a) k tr = k a tr.
Proof. reflexivity. Qed.

Lemma bind_lift_ret {E R A B} (a : A) (k : A -> M E R B) tr :
  bind (lift (Ret a)) k tr = k a tr.
Proof. reflexivity. Qed.

(** One step of a run: the first computation returns as [H] says. *)
Tactic Notation "step" uconstr(H) :=
  rewrite ?bind_assoc; erewrite (bind_ret _ _ _ _ _ H); cbn beta.

Ltac step_pure :=
  rewrite ?bind_assoc; rewrite bind_pure; cbn beta.

(** *** Traces only grow *)

Lemma extends_refl {E} (tr : list E) : extends tr tr.
Proof. exists []. symmetry. apply app_nil_r. Qed.

Lemma extends_trans {E} (a b c : list E) :
  extends a b -> extends b c -> extends a c.
Proof.
  intros [s Hs] [t Ht]. exists (s ++ t)%list. subst. symmetry. apply app_assoc.
Qed.

Lemma extends_snoc {E} (tr : list E) e : extends tr (tr ++ [e])%list.
Proof. exists [e]. reflexivity. Qed.

Lemma appending_ret {E R A} (a : A) : appending (ret (E := E) (R := R) a).
Proof. intros tr o tr' H. inversion H. apply extends_refl. Qed.

Lemma appending_lift {E R A} (o : Outcome R A) : appending (lift (E := E) o).
Proof. intros tr o' tr' H. inversion H. apply extends_refl. Qed.

Lemma appending_fail {E R A} m : appending (fail_json (E := E) (R := R) (A := A) m).
Proof. intros tr o tr' H. inversion H. apply extends_refl. Qed.

Lemma appending_exit {E R A} r : appending (exit_json (E := E) (R := R) (A := A) r).
Proof. intros tr o tr' H. inversion H. apply extends_refl. Qed.

Lemma appending_raise {E R A} e : appending (raise (E := E) (R := R) (A := A) e).
Proof. intros tr o tr' H. inversion H. apply extends_refl. Qed.

Lemma appending_call {E R A} (e : E) (answer : list E -> A) :
  appending (call (R := R) e answer).
Proof. intros tr o tr' H. inversion H. apply extends_snoc. Qed.

Lemma appending_call_helper {E R A} (e : E) (answer : list E -> Reply A) :
  appending (call_helper (R := R) e answer).
Proof.
  intros tr o tr'. unfold call_helper.
  destruct (answer tr); intros H; inversion H; apply extends_snoc.
Qed.

Lemma appending_bind {E R A B} (c : M E R A) (k : A -> M E R B) :
  appending c -> (forall a, appending (k a)) -> appending (bind c k).
Proof.
  intros Hc Hk tr o tr'. unfold bind.
  destruct (c tr) as [[a | r | m | e] tr1] eqn:Hrun; intros H.
  - eapply extends_trans; [eapply Hc; exact Hrun | eapply Hk; exact H].
  - inversion H; subst. eapply Hc; exact Hrun.
  - inversion H; subst. eapply Hc; exact Hrun.
  - inversion H; subst. eapply Hc; exact Hrun.
Qed.

Create HintDb appending.

(** What runs after a step continues the trace that step left. *)
Lemma bind_after {E R A B} (c : M E R A) (k : A -> M E R B) tr o tr1 o' tr' :
  c tr = (o, tr1) -> (forall a, appending (k a)) ->
  bind c k tr = (o', tr') -> extends tr1 tr'.
Proof.
  intros Hc Hk. unfold bind. rewrite Hc.
  destruct o; intros H; try (inversion H; subst; apply extends_refl).
  eapply Hk. exact H.
Qed.

#[export] Hint Resolve appending_ret appending_lift appending_fail
  appending_exit appending_raise appending_call appending_call_helper
  : appending.

(** Splits a computation along its binds and branches. *)
Ltac appending_tac :=
  repeat first
    [ solve [auto with appending]
    | apply appending_bind; [| intros ?]
    | match goal with
      | |- appending (if ?b then _ else _) => destruct b
      | |- appending (match ?x with _ => _ end) => destruct x
      end ].

(** *** Computations without calls *)

Lemma silent_ret {E R A} (a : A) : silent (ret (E := E) (R := R) a).
Proof. intros tr o tr' H. inversion H. reflexivity. Qed.

Lemma silent_lift {E R A} (o : Outcome R A) : silent (lift (E := E) o).
Proof. intros tr o' tr' H. inversion H. reflexivity. Qed.

Lemma silent_fail {E R A} m : silent (fail_json (E := E) (R := R) (A := A) m).
Proof. intros tr o tr' H. inversion H. reflexivity. Qed.

Lemma silent_raise {E R A} e : silent (raise (E := E) (R := R) (A := A) e).
Proof. intros tr o tr' H. inversion H. reflexivity. Qed.

Lemma silent_bind {E R A B} (c : M E R A) (k : A -> M E R B) :
  silent c -> (forall a, silent (k a)) -> silent (bind c k).
Proof.
  intros Hc Hk tr o tr'. unfold bind.
  destruct (c tr) as [[a | r | m | e] tr1] eqn:Hrun; intros H;
    try (inversion H; subst; eapply Hc; exact Hrun).
  apply Hc in Hrun. apply Hk in H. congruence.
Qed.

Create HintDb silent.

#[export] Hint Resolve silent_ret silent_lift silent_fail silent_raise : silent.

Ltac silent_tac :=
  repeat first
    [ progress cbv beta
    | solve [auto with silent]
    | apply silent_bind; [| intros ?]
    | match goal with
      | |- silent (if ?b then _ else _) => destruct b
      | |- silent (match ?x with _ => _ end) => destruct x
      end ].

(** One call, then no other. *)
Lemma one_call {E R A B} (e : E) (answer : list E -> Reply A)
    (k : A -> M E R B) tr o tr' :
  (forall a, silent (k a)) ->
  bind (call_helper e answer) k tr = (o, tr') -> tr' = (tr ++ [e])%list.
Proof.
  intros Hk. unfold bind, call_helper.
  destruct (answer tr) as [a | m]; intros H.
  - apply Hk in H. exact H.
  - inversion H. reflexivity.
Qed.

Lemma one_plain_call {E R A B} (e : E) (answer : list E -> A)
    (k : A -> M E R B) tr o tr' :
  (forall a, silent (k a)) ->
  bind (call e answer) k tr = (o, tr') -> tr' = (tr ++ [e])%list.
Proof.
  intros Hk. unfold bind, call. intros H. apply Hk in H. exact H.
Qed.

End RunFacts.

(** ** The asset module *)

Module AssetFacts.
Import Py Obs ExchangeAsset AssetSamples RunFacts.

(** *** Every function of the module only appends to the trace *)

Lemma appending_run_command module cmd : appending (run_command module cmd).
Proof. unfold run_command. appending_tac. Qed.

Lemma appending_get_bin_path module n r : appending (get_bin_path module n r).
Proof. unfold get_bin_path. appending_tac. Qed.

#[export] Hint Resolve appending_run_command appending_get_bin_path : appending.

Lemma appending_execute_anypoint_cli tag module cmd :
  appending (ap_common.execute_anypoint_cli tag module cmd).
Proof. unfold ap_common.execute_anypoint_cli. appending_tac. Qed.

Lemma appending_execute_maven module cmd : appending (execute_maven module cmd).
Proof. unfold execute_maven, get_maven_path. appending_tac. Qed.

Lemma appending_create_settings_xml module :
  appending (create_settings_xml module).
Proof. unfold create_settings_xml. appending_tac. Qed.

Lemma appending_modify_pom_file module pom :
  appending (modify_pom_file module pom).
Proof. unfold modify_pom_file. appending_tac. Qed.

Lemma appending_modify_exchange_asset module g a v c n d i t :
  appending (ap_exchange_common.modify_exchange_asset module g a v c n d i t).
Proof. unfold ap_exchange_common.modify_exchange_asset. appending_tac. Qed.

Lemma appending_set_asset_name module g a v n :
  appending (ap_exchange_common.set_asset_name module g a v n).
Proof. unfold ap_exchange_common.set_asset_name. appending_tac. Qed.

Lemma appending_delete_exchange_asset module g a v :
  appending (ap_exchange_common.delete_exchange_asset module g a v).
Proof. unfold ap_exchange_common.delete_exchange_asset. appending_tac. Qed.

#[export] Hint Resolve appending_execute_anypoint_cli appending_execute_maven
  appending_create_settings_xml appending_modify_pom_file
  appending_modify_exchange_asset appending_set_asset_name
  appending_delete_exchange_asset : appending.

Lemma appending_upload_exchange_asset module context cmd_base aid :
  appending (upload_exchange_asset module context cmd_base aid).
Proof. unfold upload_exchange_asset. appending_tac. Qed.

(** *** The lookup of the asset *)

Section Lookup.
Variable module : AnsibleModule.
Variable tr : list Event.
Variable output : list (string * json).

Let p := params module.
Let query := LookExchangeAsset (group_id p) (asset_id p) (asset_version p).

Hypothesis answered :
  graphql_answer (platform module) tr (group_id p) (asset_id p) (asset_version p)
  = Answer (JObj output).

Ltac start :=
  unfold look_asset_on_exchange,
    ap_exchange_common.look_exchange_asset_with_graphql,
    bind, call_helper, lift;
  fold p; rewrite answered; cbn.

(** A first error whose status is 404: no asset, no failure. *)
Lemma errors_404 e rest :
  lookup "errors" output = Some (JList (JObj e :: rest)) ->
  lookup "status" e = Some (JInt 404) ->
  look_asset_on_exchange module tr = (Ret None, (tr ++ [query])%list).
Proof.
  intros Herr Hst. start. rewrite Herr. cbn. rewrite Hst. reflexivity.
Qed.

(** A first error with any other status (or none): the run ends there, with
    the message of the error when it has one. *)
Lemma errors_other e rest :
  lookup "errors" output = Some (JList (JObj e :: rest)) ->
  ne_int (get_or_none "status" e) 404 = true ->
  (exists o, look_asset_on_exchange module tr = (o, (tr ++ [query])%list)
             /\ fatal o)
  /\ (forall m, lookup "message" e = Some (JStr m) ->
        look_asset_on_exchange module tr
        = (Fail ("[look_asset_on_exchange] Error looking for asset on exchange: "
                 ++ m),
           (tr ++ [query])%list)).
Proof.
  intros Herr Hst. unfold get_or_none in Hst.
  assert (Hshape :
    look_asset_on_exchange module tr
    = (match lookup "message" e with
       | Some (JStr m) =>
           Fail ("[look_asset_on_exchange] Error looking for asset on exchange: "
                 ++ m)
       | Some _ => Raise "TypeError"
       | None => Raise "KeyError"
       end, (tr ++ [query])%list)).
  { start. rewrite Herr. cbn.
    destruct (lookup "status" e) as [st |]; cbn; rewrite ?Hst; cbn;
      destruct (lookup "message" e) as [[] |]; reflexivity. }
  split.
  - eexists. split; [exact Hshape |].
    destruct (lookup "message" e) as [[] |]; exact I.
  - intros m Hm. rewrite Hshape, Hm. reflexivity.
Qed.

(** No error and a first record: found exactly when the four keys agree. *)
Lemma record_match d item rest a g v t :
  truthy (get_or_none "errors" output) = false ->
  lookup "data" output = Some (JObj d) ->
  lookup "assets" d = Some (JList (JObj item :: rest)) ->
  lookup "assetId" item = Some a ->
  lookup "groupId" item = Some g ->
  lookup "version" item = Some v ->
  lookup "type" item = Some t ->
  look_asset_on_exchange module tr
  = (Ret (if eq_str (asset_id p) a && eq_str (group_id p) g
             && eq_str (asset_version p) v && eq_str (type_name (type p)) t
          then Some a else None),
     (tr ++ [query])%list).
Proof.
  intros Herr Hd Has Ha Hg Hv Ht. unfold get_or_none in Herr. start.
  destruct (lookup "errors" output) as [errs |]; cbn; rewrite ?Herr; cbn;
    rewrite Hd; cbn; rewrite Has; cbn; rewrite Ha; cbn;
    (destruct (eq_str (asset_id p) a); cbn; [rewrite Hg; cbn | reflexivity]);
    (destruct (eq_str (group_id p) g); cbn; [rewrite Hv; cbn | reflexivity]);
    (destruct (eq_str (asset_version p) v); cbn; [rewrite Ht; cbn | reflexivity]);
    (destruct (eq_str (type_name (type p)) t); cbn; reflexivity).
Qed.

End Lookup.

(** The lookup makes the query and no other call. *)
Lemma look_asset_on_exchange_trace module tr o tr' :
  look_asset_on_exchange module tr = (o, tr') ->
  tr' = (tr ++ [looked_up module])%list.
Proof.
  unfold look_asset_on_exchange,
    ap_exchange_common.look_exchange_asset_with_graphql.
  intros H. eapply one_call; [| exact H]. intros output. silent_tac.
Qed.

(** *** The plan *)

Section Plan.
Variable module : AnsibleModule.
Variable cmd_base : string.
Variables tr tr1 : list Event.
Variable found : option json.

Let p := params module.
Let analysis :=
  AnalyzeAsset (group_id p) (asset_id p) (asset_version p) (name p)
               (description p) (icon p) (tags p).

Hypothesis looked : look_asset_on_exchange module tr = (Ret found, tr1).

Lemma get_context_absent :
  state p = Absent ->
  get_context module cmd_base tr
  = (Ret {| do_nothing := negb (is_some found);
            exists_ := is_some found;
            exchange_must_update := false;
            exchange_must_update_name := false;
            exchange_must_update_icon := false;
            exchange_must_update_description := false;
            exchange_must_update_tags := false;
            deprecated := false |}, tr1).
Proof.
  intros Hst. unfold get_context. rewrite (bind_ret _ _ _ _ _ looked).
  fold p. rewrite Hst. destruct found; reflexivity.
Qed.

Lemma get_context_missing :
  state p <> Absent -> found = None ->
  get_context module cmd_base tr
  = (Ret {| do_nothing := false;
            exists_ := false;
            exchange_must_update := false;
            exchange_must_update_name := false;
            exchange_must_update_icon := false;
            exchange_must_update_description := false;
            exchange_must_update_tags := false;
            deprecated := false |}, tr1).
Proof.
  intros Hst Hf. unfold get_context. rewrite (bind_ret _ _ _ _ _ looked).
  fold p. rewrite Hf. destruct (state p); [reflexivity | reflexivity |].
  exfalso. apply Hst. reflexivity.
Qed.

Lemma get_context_existing an :
  state p <> Absent -> is_some found = true ->
  analyze_answer (platform module) tr1 (group_id p) (asset_id p)
                 (asset_version p) (name p) (description p) (icon p) (tags p)
  = Answer an ->
  get_context module cmd_base tr
  = (Ret {| do_nothing :=
              match state p with
              | Present => negb (must_update an) && negb (asset_deprecated an)
              | Deprecated => asset_deprecated an
              | Absent => false
              end;
            exists_ := true;
            exchange_must_update := must_update an;
            exchange_must_update_name := must_update_name an;
            exchange_must_update_icon := must_update_icon an;
            exchange_must_update_description := must_update_description an;
            exchange_must_update_tags := must_update_tags an;
            deprecated := asset_deprecated an |},
     (tr1 ++ [analysis])%list).
Proof.
  intros Hst Hf Han. unfold get_context. rewrite (bind_ret _ _ _ _ _ looked).
  fold p. destruct found as [a |]; [| discriminate Hf].
  unfold ap_exchange_common.analyze_asset, bind, call_helper.
  destruct (state p) eqn:Hs; try (exfalso; apply Hst; reflexivity);
    rewrite Han; reflexivity.
Qed.

End Plan.

(** *** The steps of an upload on a working host *)

#[local] Arguments String.append : simpl never.
#[local] Arguments execute_maven : simpl never.
#[local] Arguments create_settings_xml : simpl never.
#[local] Arguments modify_pom_file : simpl never.
#[local] Arguments ap_common.execute_anypoint_cli : simpl never.
#[local] Arguments ap_exchange_common.modify_exchange_asset : simpl never.
#[local] Arguments ap_exchange_common.set_asset_name : simpl never.
#[local] Arguments splitext_ext : simpl never.
#[local] Arguments get_settings_xml_path : simpl never.
#[local] Arguments get_distribution_repository_url : simpl never.
#[local] Arguments settings_xml_content : simpl never.

Lemma create_settings_xml_written module tr :
  write_result (platform module) tr (get_settings_xml_path module)
               (settings_xml_content module) = None ->
  create_settings_xml module tr
  = (Ret true, (tr ++ [settings_written module])%list).
Proof.
  intros Hwrite. unfold create_settings_xml, bind, call. rewrite Hwrite.
  reflexivity.
Qed.

Lemma execute_maven_invoked module mvn cmd tr :
  bin_path (platform module) "mvn" = Some mvn ->
  exists o, execute_maven module cmd tr
            = (o, (tr ++ [RunCommand (mvn ++ " " ++ cmd)])%list).
Proof.
  intros Hmvn.
  unfold execute_maven, get_maven_path, get_bin_path, run_command, bind, call, ret.
  rewrite Hmvn.
  destruct (negb _); eexists; reflexivity.
Qed.

(** Every path of [upload_exchange_asset] that returns has ended with the
    metadata-update call, and returns the fixed message. *)
Lemma upload_ends_with_update module context cmd_base aid tr v tr' :
  upload_exchange_asset module context cmd_base aid tr = (Ret v, tr') ->
  v = "Asset uploaded"
  /\ exists before,
       tr' = (before ++ [metadata_updated module context])%list
       /\ extends tr before.
Proof.
  unfold upload_exchange_asset. intros H.
  apply bind_ret_inv in H. destruct H as (u & before & Hbranch & H).
  apply bind_ret_inv in H. destruct H as (o & tr2 & Hmod & H).
  inversion H; subst. split; [reflexivity |].
  exists before. split.
  - unfold ap_exchange_common.modify_exchange_asset in Hmod.
    apply call_helper_ret_inv in Hmod. apply Hmod.
  - match type of Hbranch with
    | ?c tr = _ => assert (Happ : appending c) by appending_tac
    end.
    eapply Happ. exact Hbranch.
Qed.

(** The deploy-file path with a pair outside the classifier table: the
    failure comes right after the settings file, before the build tool. *)
Lemma upload_invalid_extension module context cmd_base aid tr file :
  built (type (params module)) = true ->
  file_path (params module) = Some file ->
  write_result (platform module) tr (get_settings_xml_path module)
               (settings_xml_content module) = None ->
  spec_classifier (type (params module)) (splitext_ext file) = None ->
  upload_exchange_asset module context cmd_base aid tr
  = (Fail (invalid_extension_msg module),
     (tr ++ [settings_written module])%list).
Proof.
  intros Hty Hfile Hwrite Hc.
  unfold upload_exchange_asset, type_is, invalid_extension_msg.
  unfold spec_classifier in Hc. rewrite Hfile.
  destruct (type (params module)) eqn:Ht; try discriminate Hty; cbn;
    step (create_settings_xml_written module tr Hwrite); step_pure;
    (destruct (String.eqb (splitext_ext file) _); [discriminate Hc |]);
    reflexivity.
Qed.

(** The deploy-file path with a pair of the table: the build tool is
    invoked with the classifier of the table. *)
Lemma upload_maven_invoked module context cmd_base aid tr file mvn c :
  built (type (params module)) = true ->
  file_path (params module) = Some file ->
  write_result (platform module) tr (get_settings_xml_path module)
               (settings_xml_content module) = None ->
  bin_path (platform module) "mvn" = Some mvn ->
  spec_classifier (type (params module)) (splitext_ext file) = Some c ->
  exists o tr',
    upload_exchange_asset module context cmd_base aid tr = (o, tr')
    /\ extends (tr ++ [settings_written module;
                       RunCommand (mvn ++ " " ++ deploy_file_cmd module file c)])%list
               tr'.
Proof.
  intros Hty Hfile Hwrite Hmvn Hc.
  destruct (upload_exchange_asset module context cmd_base aid tr) as [o tr']
    eqn:Hrun.
  exists o, tr'. split; [reflexivity |].
  revert Hrun. unfold upload_exchange_asset, type_is.
  unfold spec_classifier in Hc. rewrite Hfile.
  destruct (type (params module)) eqn:Ht; try discriminate Hty; cbn;
    step (create_settings_xml_written module tr Hwrite); step_pure;
    (destruct (String.eqb (splitext_ext file) _); [| discriminate Hc]);
    injection Hc as <-; step_pure;
    match goal with
    | |- context [execute_maven module ?cmd] =>
        destruct (execute_maven_invoked module mvn cmd
                    (tr ++ [settings_written module])%list Hmvn) as [om Hm]
    end;
    rewrite ?bind_assoc; intros Hrun;
    (eapply bind_after in Hrun; [| exact Hm | intros; appending_tac]);
    unfold deploy_file_cmd; rewrite <- app_assoc in Hrun; exact Hrun.
Qed.

Section Working.
Variable module : AnsibleModule.
Hypothesis host_works : working (platform module).

Let p := params module.

Lemma execute_anypoint_cli_ok tag cmd tr :
  ap_common.execute_anypoint_cli tag module cmd tr
  = (Ret (snd (fst (run_command_result (platform module) tr cmd))),
     (tr ++ [RunCommand cmd])%list).
Proof.
  destruct host_works as (Hrun & _).
  unfold ap_common.execute_anypoint_cli, run_command, bind, call.
  rewrite Hrun. reflexivity.
Qed.

Lemma execute_maven_ok mvn cmd tr :
  bin_path (platform module) "mvn" = Some mvn ->
  execute_maven module cmd tr
  = (Ret (snd (fst (run_command_result (platform module) tr (mvn ++ " " ++ cmd)))),
     (tr ++ [RunCommand (mvn ++ " " ++ cmd)])%list).
Proof.
  intros Hmvn. destruct host_works as (Hrun & _).
  unfold execute_maven, get_maven_path, get_bin_path, run_command, bind, call, ret.
  rewrite Hmvn. rewrite Hrun. reflexivity.
Qed.

Lemma create_settings_xml_ok tr :
  create_settings_xml module tr
  = (Ret true, (tr ++ [settings_written module])%list).
Proof.
  destruct host_works as (_ & Hwrite & _).
  apply create_settings_xml_written. apply Hwrite.
Qed.

Lemma modify_pom_file_ok source_pom tr :
  modify_pom_file module source_pom tr
  = (Ret tt, (tr ++ [pom_rewritten module source_pom])%list).
Proof.
  destruct host_works as (_ & _ & Hpom & _).
  unfold modify_pom_file, bind, call. rewrite Hpom. reflexivity.
Qed.

Lemma modify_exchange_asset_ok context tr :
  exists o,
    ap_exchange_common.modify_exchange_asset
      module (group_id p) (asset_id p) (asset_version p) context
      (name p) (description p) (icon p) (tags p) tr
    = (Ret o, (tr ++ [metadata_updated module context])%list).
Proof.
  destruct host_works as (_ & _ & _ & Hmod & _).
  destruct (Hmod tr (group_id p) (asset_id p) (asset_version p) context
                 (name p) (description p) (icon p) (tags p)) as [o Ho].
  exists o. unfold ap_exchange_common.modify_exchange_asset, call_helper.
  rewrite Ho. reflexivity.
Qed.

Lemma set_asset_name_ok tr :
  ap_exchange_common.set_asset_name
    module (group_id p) (asset_id p) (asset_version p) (name p) tr
  = (Ret tt, (tr ++ [name_set module])%list).
Proof.
  destruct host_works as (_ & _ & _ & _ & Hname).
  unfold ap_exchange_common.set_asset_name, call_helper.
  rewrite Hname. reflexivity.
Qed.

(** The CLI path. *)
Lemma upload_by_cli context cmd_base aid tr :
  built (type p) = false ->
  upload_exchange_asset module context cmd_base aid tr
  = (Ret "Asset uploaded",
     (tr ++ [RunCommand (upload_cmd module cmd_base aid);
             metadata_updated module context])%list).
Proof.
  intros Hty.
  destruct (modify_exchange_asset_ok context
              (tr ++ [RunCommand (upload_cmd module cmd_base aid)])%list)
    as [o Ho].
  unfold upload_exchange_asset, type_is. fold p.
  unfold upload_cmd in Ho |- *. fold p in Ho |- *.
  destruct (type p) eqn:Ht; try discriminate Hty; cbn;
    unfold bind; rewrite execute_anypoint_cli_ok; cbn;
    cbn in Ho; rewrite Ho; cbn; rewrite <- app_assoc; reflexivity.
Qed.

(** The deploy-file path, for a pair of the classifier table. *)
Lemma upload_by_deploy_file context cmd_base aid tr mvn file c :
  built (type p) = true ->
  file_path p = Some file ->
  bin_path (platform module) "mvn" = Some mvn ->
  spec_classifier (type p) (splitext_ext file) = Some c ->
  upload_exchange_asset module context cmd_base aid tr
  = (Ret "Asset uploaded",
     (tr ++ [settings_written module;
             RunCommand (mvn ++ " " ++ deploy_file_cmd module file c);
             name_set module;
             metadata_updated module context])%list).
Proof.
  intros Hty Hfile Hmvn Hc.
  pose proof (modify_exchange_asset_ok context) as Hmod.
  unfold upload_exchange_asset, type_is. unfold spec_classifier in Hc.
  fold p. rewrite Hfile.
  destruct (type p) eqn:Ht; try discriminate Hty; cbn;
    step (create_settings_xml_ok tr); step_pure;
    (destruct (String.eqb (splitext_ext file) _); [| discriminate Hc]);
    injection Hc as <-;
    step_pure; step (execute_maven_ok mvn _ _ Hmvn);
    step (set_asset_name_ok _);
    edestruct Hmod as [o Ho]; step Ho;
    unfold ret, deploy_file_cmd; fold p;
    repeat rewrite <- app_assoc; reflexivity.
Qed.

(** Building from the sources. *)
Lemma upload_from_sources context cmd_base aid tr mvn mv src :
  type p = example \/ type p = template ->
  file_path p = None ->
  maven p = Some mv ->
  sources mv = Some src ->
  bin_path (platform module) "mvn" = Some mvn ->
  upload_exchange_asset module context cmd_base aid tr
  = (Ret "Asset uploaded",
     (tr ++ [settings_written module;
             pom_rewritten module (source_pom_of mv src);
             RunCommand (mvn ++ " " ++ clean_deploy_cmd module mv src);
             metadata_updated module context])%list).
Proof.
  intros Hty Hfile Hmv Hsrc Hmvn.
  pose proof (modify_exchange_asset_ok context) as Hmod.
  unfold upload_exchange_asset, type_is. fold p. rewrite Hfile, Hmv.
  destruct Hty as [Ht | Ht]; rewrite Ht; cbn;
    step_pure; rewrite Hsrc;
    step (create_settings_xml_ok tr);
    step (modify_pom_file_ok _ _);
    step (execute_maven_ok mvn _ _ Hmvn);
    step_pure;
    edestruct Hmod as [o Ho]; step Ho;
    unfold ret, clean_deploy_cmd, source_pom_of, pom_rewritten; fold p;
    rewrite Ht; repeat rewrite <- app_assoc; reflexivity.
Qed.

(** Neither a file nor sources. *)
Lemma upload_nothing context cmd_base aid tr mv :
  type p = example \/ type p = template ->
  file_path p = None ->
  maven p = Some mv ->
  sources mv = None ->
  upload_exchange_asset module context cmd_base aid tr
  = (Fail nothing_to_upload_msg, tr).
Proof.
  intros Hty Hfile Hmv Hsrc.
  unfold upload_exchange_asset, type_is. fold p. rewrite Hfile, Hmv.
  destruct Hty as [Ht | Ht]; rewrite Ht; cbn;
    step_pure; rewrite Hsrc; reflexivity.
Qed.

End Working.

(** *** [run_module] up to the plan *)

#[local] Arguments get_context : simpl never.
#[local] Arguments upload_exchange_asset : simpl never.
#[local] Arguments validate_parameters : simpl never.
#[local] Arguments apply_changes : simpl never.
#[local] Arguments look_asset_on_exchange : simpl never.
#[local] Arguments cmd_base_of : simpl never.

Lemma get_bin_path_found module n path tr :
  bin_path (platform module) n = Some path ->
  get_bin_path module n true tr = (Ret (Some path), tr).
Proof. intros H. unfold get_bin_path. rewrite H. reflexivity. Qed.

Lemma run_module_check_mode module cli mvn tr :
  bin_path (platform module) "anypoint-cli" = Some cli ->
  bin_path (platform module) "mvn" = Some mvn ->
  check_mode module = true ->
  run_module module tr = (Exit no_action, tr).
Proof.
  intros Hcli Hmvn Hcheck. unfold run_module.
  unfold ap_common.get_anypointcli_path, get_maven_path.
  step (get_bin_path_found module _ cli tr Hcli). step_pure.
  step (get_bin_path_found module _ mvn tr Hmvn). step_pure.
  rewrite Hcheck. reflexivity.
Qed.

Lemma run_module_started module cli mvn tr :
  bin_path (platform module) "anypoint-cli" = Some cli ->
  bin_path (platform module) "mvn" = Some mvn ->
  check_mode module = false ->
  run_module module tr
  = (validate_parameters (normalized module) ;;;
     context <- get_context (normalized module) (cmd_base_of module cli) ;;
     (if do_nothing context then exit_json no_action else ret tt) ;;;
     apply_changes (normalized module) context (cmd_base_of module cli)) tr.
Proof.
  intros Hcli Hmvn Hcheck. unfold run_module.
  unfold ap_common.get_anypointcli_path, get_maven_path.
  step (get_bin_path_found module _ cli tr Hcli). step_pure.
  step (get_bin_path_found module _ mvn tr Hmvn). step_pure.
  rewrite Hcheck. step_pure.
  step (get_bin_path_found module _ cli tr Hcli). step_pure.
  reflexivity.
Qed.

(** The validation reads the parameters only and makes no call. *)
Lemma validate_parameters_pure m1 m2 tr1 tr2 :
  params m1 = params m2 ->
  fst (validate_parameters m1 tr1) = fst (validate_parameters m2 tr2)
  /\ snd (validate_parameters m1 tr1) = tr1.
Proof.
  intros Hp. unfold validate_parameters, type_is. rewrite Hp.
  destruct (state (params m2)), (type (params m2)),
    (maven (params m2)), (file_path (params m2)); cbn; auto.
Qed.

Lemma validate_parameters_cases module tr :
  validate_parameters module tr = (Ret tt, tr)
  \/ exists m, validate_parameters module tr = (Fail m, tr).
Proof.
  unfold validate_parameters, type_is.
  destruct (state (params module)), (type (params module)),
    (maven (params module)), (file_path (params module)); cbn;
    first [left; reflexivity | right; eexists; reflexivity].
Qed.

Lemma validate_parameters_other module tr :
  state (params module) <> Present ->
  validate_parameters module tr = (Ret tt, tr).
Proof.
  intros Hst. unfold validate_parameters.
  destruct (state (params module)); [exfalso; apply Hst |..]; reflexivity.
Qed.

Lemma validate_parameters_custom module tr :
  type (params module) = custom ->
  validate_parameters module tr = (Ret tt, tr).
Proof.
  intros Hty. unfold validate_parameters, type_is. rewrite Hty.
  destruct (state (params module)); reflexivity.
Qed.

Lemma validate_parameters_maven module mv tr :
  type (params module) = example \/ type (params module) = template ->
  maven (params module) = Some mv ->
  validate_parameters module tr = (Ret tt, tr).
Proof.
  intros Hty Hmv. unfold validate_parameters, type_is. rewrite Hmv.
  destruct Hty as [Ht | Ht]; rewrite Ht;
    destruct (state (params module)); reflexivity.
Qed.

(** Without the [maven] options the validation rejects an example or a
    template, whatever else is given. *)
Lemma validate_parameters_no_maven module tr :
  state (params module) = Present ->
  type (params module) = example \/ type (params module) = template ->
  maven (params module) = None ->
  validate_parameters module tr
  = (Fail "asset type template or example requires a project directory to build it",
     tr).
Proof.
  intros Hst Hty Hmv. unfold validate_parameters, type_is. rewrite Hst, Hmv.
  destruct Hty as [Ht | Ht]; rewrite Ht; reflexivity.
Qed.

(** A run that got as far as an [exit_json] had valid parameters. *)
Lemma completed_run_validated module r tr :
  check_mode module = false ->
  run_module module [] = (Exit r, tr) ->
  forall tr', validate_parameters (normalized module) tr' = (Ret tt, tr').
Proof.
  intros Hcheck Hrun tr'.
  destruct (validate_parameters_cases (normalized module) tr') as [H | [m H]];
    [exact H | exfalso].
  destruct (validate_parameters_pure (normalized module) (normalized module)
              [] tr' eq_refl) as [Hfst _].
  rewrite H in Hfst. cbn in Hfst.
  revert Hrun. unfold run_module.
  unfold ap_common.get_anypointcli_path, get_maven_path, get_bin_path.
  destruct (bin_path (platform module) "anypoint-cli") as [cli |] eqn:Hcli;
    [| discriminate].
  step_pure. step_pure.
  destruct (bin_path (platform module) "mvn") as [mvn |] eqn:Hmvn;
    [| discriminate].
  step_pure. step_pure. rewrite Hcheck. step_pure. step_pure. step_pure.
  fold (normalized module).
  destruct (validate_parameters_cases (normalized module) []) as [Hv | [m' Hv]].
  - rewrite Hv in Hfst. discriminate Hfst.
  - rewrite (bind_fail _ _ _ _ _ Hv). discriminate.
Qed.

Lemma run_module_planned module cli mvn context tr tr1 :
  bin_path (platform module) "anypoint-cli" = Some cli ->
  bin_path (platform module) "mvn" = Some mvn ->
  check_mode module = false ->
  validate_parameters (normalized module) tr = (Ret tt, tr) ->
  get_context (normalized module) (cmd_base_of module cli) tr = (Ret context, tr1) ->
  run_module module tr
  = if do_nothing context then (Exit no_action, tr1)
    else apply_changes (normalized module) context (cmd_base_of module cli) tr1.
Proof.
  intros Hcli Hmvn Hcheck Hvalid Hctx.
  rewrite (run_module_started module cli mvn tr Hcli Hmvn Hcheck).
  step Hvalid. step Hctx.
  destruct (do_nothing context); [reflexivity |]. step_pure. reflexivity.
Qed.

(** *** The calls that change the platform *)

Section Apply.
Variable module : AnsibleModule.
Variable context : Context.
Variable cmd_base : string.

Let p := params module.
Let aid := identifier module.

(** Target [present], asset missing: the upload and nothing else. *)
Lemma apply_present_missing tr o tr' :
  state p = Present -> exists_ context = false ->
  upload_exchange_asset module context cmd_base aid tr = (o, tr') ->
  apply_changes module context cmd_base tr = (reported o, tr').
Proof.
  intros Hst Hex Hup. unfold apply_changes. fold p.
  change (ap_exchange_common.get_asset_identifier
            module (group_id p) (asset_id p) (asset_version p)) with aid.
  rewrite Hst, Hex. cbn. rewrite ?bind_assoc.
  unfold bind. rewrite Hup. destruct o; reflexivity.
Qed.

(** Target [deprecated], asset missing, the upload did not return: the run
    ends there. *)
Lemma apply_deprecated_upload_failed tr o tr' :
  state p = Deprecated -> exists_ context = false ->
  upload_exchange_asset module context cmd_base aid tr = (o, tr') ->
  (forall v, o <> Ret v) ->
  apply_changes module context cmd_base tr = (reported o, tr').
Proof.
  intros Hst Hex Hup Hno. unfold apply_changes. fold p.
  change (ap_exchange_common.get_asset_identifier
            module (group_id p) (asset_id p) (asset_version p)) with aid.
  rewrite Hst, Hex. cbn. rewrite ?bind_assoc.
  unfold bind. rewrite Hup. destruct o; try reflexivity.
  exfalso. eapply Hno. reflexivity.
Qed.

(** Target [deprecated], asset missing, the upload returned: the
    metadata update when the plan asks for it, then the deprecation. *)
Lemma apply_deprecated_missing tr v tr2 :
  state p = Deprecated -> exists_ context = false ->
  upload_exchange_asset module context cmd_base aid tr = (Ret v, tr2) ->
  let deprecation := RunCommand (deprecate_cmd cmd_base aid) in
  let deprecate_at tr3 :=
    reported
      (if fst (fst (run_command_result (platform module) tr3
                                       (deprecate_cmd cmd_base aid))) =? 0
       then Ret (snd (fst (run_command_result (platform module) tr3
                                              (deprecate_cmd cmd_base aid))))
       else Fail ("[run_module]" ++ " "
                  ++ snd (fst (run_command_result (platform module) tr3
                                                  (deprecate_cmd cmd_base aid))))) in
  apply_changes module context cmd_base tr
  = if exchange_must_update context then
      match modify_answer (platform module) tr2 (group_id p) (asset_id p)
                          (asset_version p) context (name p) (description p)
                          (icon p) (tags p) with
      | Answer _ =>
          (deprecate_at (tr2 ++ [metadata_updated module context])%list,
           (tr2 ++ [metadata_updated module context; deprecation])%list)
      | Fatal m => (Fail m, (tr2 ++ [metadata_updated module context])%list)
      end
    else (deprecate_at tr2, (tr2 ++ [deprecation])%list).
Proof.
  intros Hst Hex Hup deprecation deprecate_at.
  unfold apply_changes. fold p.
  change (ap_exchange_common.get_asset_identifier
            module (group_id p) (asset_id p) (asset_version p)) with aid.
  rewrite Hst, Hex. cbn. step Hup. step_pure.
  subst deprecate_at deprecation. unfold deprecate_cmd.
  destruct (exchange_must_update context).
  - rewrite ?bind_assoc.
    unfold ap_exchange_common.modify_exchange_asset, call_helper, bind at 1.
    fold p.
    destruct (modify_answer _ _ _ _ _ _ _ _ _ _) as [o2 | m]; [| reflexivity].
    step_pure.
    unfold ap_common.execute_anypoint_cli, run_command, bind, call, ret,
      read_output, fail_json, exit_json, reported.
    rewrite <- app_assoc.
    destruct (fst (fst _) =? 0); reflexivity.
  - step_pure.
    unfold ap_common.execute_anypoint_cli, run_command, bind, call, ret,
      read_output, fail_json, exit_json, reported.
    destruct (fst (fst _) =? 0); reflexivity.
Qed.

End Apply.

(** *** Whole runs for a missing asset *)

Lemma sample_host_works graphql an : working (sample_host graphql an).
Proof.
  repeat split; intros; try reflexivity. eexists. reflexivity.
Qed.

Section Missing.
Variable module : AnsibleModule.
Variables cli mvn : string.
Variable tr1 : list Event.

Let m' := normalized module.
Let cmd_base := cmd_base_of module cli.

Hypothesis cli_installed : bin_path (platform module) "anypoint-cli" = Some cli.
Hypothesis mvn_installed : bin_path (platform module) "mvn" = Some mvn.
Hypothesis real_run : check_mode module = false.
Hypothesis not_found : look_asset_on_exchange m' [] = (Ret None, tr1).

Lemma lookup_trace : tr1 = [looked_up m'].
Proof. apply look_asset_on_exchange_trace in not_found. exact not_found. Qed.

Lemma run_module_missing :
  state (params module) <> Absent ->
  validate_parameters m' [] = (Ret tt, []) ->
  run_module module [] = apply_changes m' missing_plan cmd_base tr1.
Proof.
  intros Hst Hvalid.
  rewrite (run_module_planned module cli mvn missing_plan [] tr1
             cli_installed mvn_installed real_run Hvalid).
  - reflexivity.
  - apply (get_context_missing m' (cmd_base_of module cli) [] tr1 None not_found);
      [exact Hst | reflexivity].
Qed.

Lemma run_module_creates o tr2 :
  state (params module) = Present ->
  validate_parameters m' [] = (Ret tt, []) ->
  upload_exchange_asset m' missing_plan cmd_base (identifier m') tr1 = (o, tr2) ->
  run_module module [] = (reported o, tr2).
Proof.
  intros Hst Hvalid Hup.
  rewrite run_module_missing; [| rewrite Hst; discriminate | exact Hvalid].
  apply apply_present_missing; [exact Hst | reflexivity | exact Hup].
Qed.

End Missing.

(** *** A second run changes nothing *)

(** A first run on the sample host, the asset missing: it is uploaded. *)
Lemma sample_first_run :
  let module :=
    sample_module Present custom None None (error_output 404)
                  (sample_analysis false false) in
  run_module module []
  = (Exit {| changed := true; msg := "Asset uploaded" |},
     [LookExchangeAsset "ee819df3" "my-fragment" "1.0.1";
      RunCommand
        (upload_cmd module (cmd_base_of module "/usr/local/bin/anypoint-cli")
                    "ee819df3/my-fragment/1.0.1");
      metadata_updated module missing_plan]).
Proof. vm_compute. reflexivity. Qed.

Lemma asset_idempotent module previous_host r0 tr0 cli mvn found tr1 :
  run_module (on_host module previous_host) [] = (Exit r0, tr0) ->
  bin_path (platform module) "anypoint-cli" = Some cli ->
  bin_path (platform module) "mvn" = Some mvn ->
  look_asset_on_exchange (normalized module) [] = (Ret found, tr1) ->
  observed_satisfies (normalized module) tr1 found ->
  exists context tr2,
    get_context (normalized module) (cmd_base_of module cli) []
    = (Ret context, tr2)
    /\ do_nothing context = true
    /\ forallb read_only tr2 = true
    /\ run_module module []
       = (Exit no_action, if check_mode module then [] else tr2).
Proof.
  intros Hprev Hcli Hmvn Hlook Hsat.
  set (m' := normalized module) in *.
  assert (Hvalid : validate_parameters m' [] = (Ret tt, [])).
  { pose proof (completed_run_validated (on_host module previous_host) r0 tr0
                  eq_refl Hprev []) as Hv.
    destruct (validate_parameters_pure m' (normalized (on_host module previous_host))
                [] [] eq_refl) as [Hfst Hsnd].
    rewrite Hv in Hfst. cbn in Hfst.
    destruct (validate_parameters m' []) as [o tr]. cbn in Hfst, Hsnd.
    congruence. }
  assert (Htr1 : tr1 = [looked_up m'])
    by (apply look_asset_on_exchange_trace in Hlook; exact Hlook).
  assert (Hplan : exists context tr2,
             get_context m' (cmd_base_of module cli) [] = (Ret context, tr2)
             /\ do_nothing context = true /\ forallb read_only tr2 = true).
  { unfold observed_satisfies in Hsat.
    destruct (state (params m')) eqn:Hst.
    - destruct Hsat as (Hfound & an & Han & Hup & Hdep).
      eexists. eexists. split; [| split].
      + eapply get_context_existing; try eassumption.
        * rewrite Hst. discriminate.
        * destruct found; [reflexivity | congruence].
      + rewrite Hst. cbn. rewrite Hup, Hdep. reflexivity.
      + rewrite Htr1. reflexivity.
    - destruct Hsat as (Hfound & an & Han & Hdep).
      eexists. eexists. split; [| split].
      + eapply get_context_existing; try eassumption.
        * rewrite Hst. discriminate.
        * destruct found; [reflexivity | congruence].
      + rewrite Hst. cbn. exact Hdep.
      + rewrite Htr1. reflexivity.
    - eexists. eexists. split; [| split].
      + eapply get_context_absent; eassumption.
      + cbn. rewrite Hsat. reflexivity.
      + rewrite Htr1. reflexivity. }
  destruct Hplan as (context & tr2 & Hctx & Hdn & Hro).
  exists context, tr2. repeat split; try assumption.
  destruct (check_mode module) eqn:Hcheck.
  - eapply run_module_check_mode; eassumption.
  - rewrite (run_module_planned module cli mvn context [] tr2
               Hcli Hmvn Hcheck Hvalid Hctx).
    rewrite Hdn. reflexivity.
Qed.

End AssetFacts.

(** ** The environment module *)

Module EnvFacts.
Import Py Obs AccountEnvironment EnvSamples RunFacts.

#[local] Arguments String.append : simpl never.

(** *** The state inspector *)

Section Describe.
Variable module : AnsibleModule.
Variable cmd_base : string.
Variable tr : list Event.

Let rc := fst (fst (describe_result module cmd_base tr)).
Let out := snd (fst (describe_result module cmd_base tr)).

Lemma get_environment_trace o tr' :
  get_environment module cmd_base tr = (o, tr') ->
  tr' = (tr ++ [described module cmd_base])%list.
Proof.
  unfold get_environment, run_command. intros H.
  eapply one_plain_call; [| exact H].
  intros result. unfold loads. silent_tac.
Qed.

Lemma get_environment_parsed v :
  rc = 0 -> json_loads (platform module) out = Some v ->
  get_environment module cmd_base tr
  = (Ret v, (tr ++ [described module cmd_base])%list).
Proof.
  subst rc out. unfold describe_result. intros Hrc Hv.
  unfold get_environment, run_command, bind, call, loads. cbn.
  fold (describe_cmd module cmd_base). rewrite Hrc. cbn. rewrite Hv.
  reflexivity.
Qed.

Lemma get_environment_unparsed :
  rc = 0 -> json_loads (platform module) out = None ->
  get_environment module cmd_base tr
  = (Raise "ValueError", (tr ++ [described module cmd_base])%list).
Proof.
  subst rc out. unfold describe_result. intros Hrc Hv.
  unfold get_environment, run_command, bind, call, loads. cbn.
  fold (describe_cmd module cmd_base). rewrite Hrc. cbn. rewrite Hv.
  reflexivity.
Qed.

Lemma get_environment_not_found :
  rc = 255 -> remove_newlines out = error_message ->
  get_environment module cmd_base tr
  = (Ret (JObj []), (tr ++ [described module cmd_base])%list).
Proof.
  subst rc out. unfold describe_result. intros Hrc Hout.
  unfold get_environment, run_command, bind, call. cbn.
  fold (describe_cmd module cmd_base). rewrite Hrc, Hout. reflexivity.
Qed.

Lemma get_environment_failed :
  rc <> 0 -> ~ (rc = 255 /\ remove_newlines out = error_message) ->
  get_environment module cmd_base tr
  = (Fail out, (tr ++ [described module cmd_base])%list).
Proof.
  subst rc out. unfold describe_result. intros Hrc Hnot.
  unfold get_environment, run_command, bind, call. cbn.
  fold (describe_cmd module cmd_base).
  destruct (Z.eqb_spec (fst (fst (run_command_result (platform module) tr
                                    (describe_cmd module cmd_base)))) 0)
    as [H0 | H0]; [contradiction |].
  destruct (Z.eqb_spec (fst (fst (run_command_result (platform module) tr
                                    (describe_cmd module cmd_base)))) 255)
    as [H255 | H255]; cbn; [| reflexivity].
  destruct (String.eqb_spec
              (remove_newlines
                 (snd (fst (run_command_result (platform module) tr
                              (describe_cmd module cmd_base)))))
              error_message) as [Hm | Hm]; [| reflexivity].
  exfalso. apply Hnot. split; assumption.
Qed.

End Describe.

(** *** The HTTP lookups *)

Lemma execute_http_call_trace module url method headers payload o tr tr' :
  execute_http_call module url method (Some headers) payload tr = (o, tr') ->
  tr' = (tr ++ [OpenUrl url method headers payload])%list.
Proof.
  unfold execute_http_call. intros H.
  eapply one_plain_call; [| exact H]. intros r. silent_tac.
Qed.

Lemma get_org_id_trace module o tr tr' :
  get_org_id module tr = (o, tr') ->
  tr' = (tr ++ [profile_fetched module])%list.
Proof.
  unfold get_org_id, execute_http_call. rewrite bind_assoc. intros H.
  eapply one_plain_call; [| exact H].
  intros r. unfold load, loads. silent_tac.
Qed.

Lemma get_env_client_secret_trace module org client secret tr tr' :
  get_env_client_secret module org client tr = (Ret secret, tr') ->
  exists org_id client_id,
    org = JStr org_id /\ client = JStr client_id
    /\ tr' = (tr ++ [secret_fetched module org_id client_id])%list.
Proof.
  unfold get_env_client_secret.
  destruct org as [| | | org_id | |]; try discriminate.
  destruct client as [| | | client_id | |]; try discriminate.
  intros H. exists org_id, client_id. split; [reflexivity |].
  split; [reflexivity |].
  revert H. unfold as_str. rewrite !bind_lift_ret.
  unfold execute_http_call. rewrite bind_assoc. intros H.
  eapply one_plain_call; [| exact H].
  intros r. unfold load, loads. silent_tac.
Qed.

(** *** The plan *)

Section Plan.
Variable module : AnsibleModule.
Variable cmd_base : string.
Variables tr tr1 : list Event.
Variable record : json.

Hypothesis described_as : get_environment module cmd_base tr = (Ret record, tr1).

Lemma get_context_not_found :
  record = JObj [] ->
  get_context module cmd_base tr
  = (Ret {| do_nothing := match state (params module) with
                          | Absent => true
                          | Present => false
                          end;
            id := JNull; client_id := JNull; client_secret := JNull |}, tr1).
Proof.
  intros Hrec. unfold get_context. step described_as. rewrite Hrec. cbn.
  destruct (state (params module)); reflexivity.
Qed.

Lemma get_context_absent_existing env_id env_client :
  existing record env_id env_client ->
  state (params module) = Absent ->
  get_context module cmd_base tr
  = (Ret {| do_nothing := false;
            id := env_id; client_id := env_client; client_secret := JNull |},
     tr1).
Proof.
  intros (fields & Hrec & Hid & Hnull & Hclient) Hst.
  unfold get_context. step described_as. rewrite Hrec, Hst.
  assert (Hne : ne_empty_dict (JObj fields) = true)
    by (destruct fields; [discriminate Hid | reflexivity]).
  rewrite Hne. unfold getitem. rewrite Hid, Hclient.
  rewrite ?bind_assoc, !bind_lift_ret, ?bind_pure. cbn.
  destruct env_id; try reflexivity. congruence.
Qed.

Lemma get_context_present_existing env_id env_client :
  existing record env_id env_client ->
  state (params module) = Present ->
  get_context module cmd_base tr
  = (org_id <- get_org_id module ;;
     client_secret' <- get_env_client_secret module org_id env_client ;;
     ret {| do_nothing := true;
            id := env_id;
            client_id := env_client;
            client_secret := client_secret' |}) tr1.
Proof.
  intros (fields & Hrec & Hid & Hnull & Hclient) Hst.
  unfold get_context. step described_as. rewrite Hrec, Hst.
  assert (Hne : ne_empty_dict (JObj fields) = true)
    by (destruct fields; [discriminate Hid | reflexivity]).
  rewrite Hne. unfold getitem. rewrite Hid, Hclient.
  rewrite ?bind_assoc, !bind_lift_ret, ?bind_pure. cbn.
  destruct env_id; try reflexivity. congruence.
Qed.

(** Whenever the plan for an existing environment is returned with target
    [present], it is to do nothing. *)
Lemma get_context_present_returns env_id env_client context tr' :
  existing record env_id env_client ->
  state (params module) = Present ->
  get_context module cmd_base tr = (Ret context, tr') ->
  do_nothing context = true /\ id context = env_id
  /\ client_id context = env_client.
Proof.
  intros Hex Hst.
  rewrite (get_context_present_existing env_id env_client Hex Hst).
  intros H.
  apply bind_ret_inv in H. destruct H as (org & tr2 & _ & H).
  apply bind_ret_inv in H. destruct H as (secret & tr3 & _ & H).
  inversion H. repeat split.
Qed.

End Plan.

(** *** [run_module] *)

Lemma env_get_bin_path_found module n path tr :
  bin_path (platform module) n = Some path ->
  get_bin_path module n true tr = (Ret (Some path), tr).
Proof. intros H. unfold get_bin_path. rewrite H. reflexivity. Qed.

Lemma env_run_module_check_mode module cli tr :
  bin_path (platform module) "anypoint-cli" = Some cli ->
  check_mode module = true ->
  run_module module tr = (Exit (no_action JNull JNull JNull), tr).
Proof.
  intros Hcli Hcheck. unfold run_module, get_anypointcli_path.
  step (env_get_bin_path_found module _ cli tr Hcli). step_pure.
  rewrite Hcheck. reflexivity.
Qed.

Lemma env_run_module_planned module cli context tr tr1 :
  bin_path (platform module) "anypoint-cli" = Some cli ->
  check_mode module = false ->
  get_context module (cmd_base_of module cli) tr = (Ret context, tr1) ->
  run_module module tr
  = if do_nothing context
    then (Exit (no_action (id context) (client_id context)
                          (client_secret context)), tr1)
    else
      (output <- match state (params module) with
                 | Present => create_environment module (cmd_base_of module cli)
                 | Absent => delete_environment module (cmd_base_of module cli)
                 end ;;
       exit_json {| changed := true;
                    result_id := out_id output;
                    result_client_id := out_client_id output;
                    result_client_secret := out_client_secret output;
                    msg := out_msg output |}) tr1.
Proof.
  intros Hcli Hcheck Hctx. unfold run_module, get_anypointcli_path.
  step (env_get_bin_path_found module _ cli tr Hcli). step_pure.
  rewrite Hcheck. step_pure.
  step (env_get_bin_path_found module _ cli tr Hcli). step_pure.
  step Hctx.
  destruct (do_nothing context); [reflexivity |]. step_pure. reflexivity.
Qed.

Lemma delete_environment_ok module cmd_base tr :
  fst (fst (run_command_result (platform module) tr (delete_cmd module cmd_base)))
  = 0 ->
  delete_environment module cmd_base tr
  = (Ret {| out_id := JNull;
            out_client_id := JNull;
            out_client_secret := JNull;
            out_msg := "environment deleted" |},
     (tr ++ [deleted module cmd_base])%list).
Proof.
  intros Hrc.
  unfold delete_environment, execute_anypoint_cli, run_command, bind, call.
  cbn. fold (delete_cmd module cmd_base). rewrite Hrc. reflexivity.
Qed.

(** *** A second run changes nothing *)

Lemma env_idempotent module cli record tr1 :
  bin_path (platform module) "anypoint-cli" = Some cli ->
  get_environment module (cmd_base_of module cli) [] = (Ret record, tr1) ->
  observed_satisfies module tr1 record ->
  exists context tr2,
    get_context module (cmd_base_of module cli) [] = (Ret context, tr2)
    /\ do_nothing context = true
    /\ forallb (read_only module (cmd_base_of module cli)) tr2 = true
    /\ run_module module []
       = if check_mode module
         then (Exit (no_action JNull JNull JNull), [])
         else (Exit (no_action (id context) (client_id context)
                               (client_secret context)), tr2).
Proof.
  intros Hcli Hdesc Hsat.
  assert (Htr1 : tr1 = [described module (cmd_base_of module cli)])
    by (apply get_environment_trace in Hdesc; exact Hdesc).
  assert (Hplan : exists context tr2,
             get_context module (cmd_base_of module cli) [] = (Ret context, tr2)
             /\ do_nothing context = true
             /\ forallb (read_only module (cmd_base_of module cli)) tr2 = true).
  { unfold observed_satisfies in Hsat.
    destruct (state (params module)) eqn:Hst.
    - destruct Hsat as (i & c & org & tr2 & secret & tr3 & Hex & Horg & Hsec).
      eexists. eexists. split; [| split].
      + rewrite (get_context_present_existing module _ _ _ _ Hdesc i c Hex Hst).
        step Horg. step Hsec. reflexivity.
      + reflexivity.
      + apply get_org_id_trace in Horg.
        apply get_env_client_secret_trace in Hsec.
        destruct Hsec as (o & cid & _ & _ & Htr3).
        rewrite Htr3, Horg, Htr1. cbn. rewrite String.eqb_refl. reflexivity.
    - eexists. eexists. split; [| split].
      + apply (get_context_not_found module _ _ _ _ Hdesc Hsat).
      + rewrite Hst. reflexivity.
      + rewrite Htr1. cbn. rewrite String.eqb_refl. reflexivity. }
  destruct Hplan as (context & tr2 & Hctx & Hdn & Hro).
  exists context, tr2. split; [exact Hctx |]. split; [exact Hdn |].
  split; [exact Hro |].
  destruct (check_mode module) eqn:Hcheck.
  - eapply env_run_module_check_mode; eassumption.
  - rewrite (env_run_module_planned module cli context [] tr2 Hcli Hcheck Hctx).
    rewrite Hdn. reflexivity.
Qed.

End EnvFacts.

(** * The claims on the asset module *)

Module AssetClaims.
Import Py Obs ExchangeAsset AssetSamples RunFacts AssetFacts.

(** C1.  Decision table of [get_context]: once the lookup has answered,
    - target [absent]: [do_nothing] is true iff the asset does not exist;
    - target [present], asset exists: [do_nothing] is true iff the
      must-update flag is not set and the asset is not deprecated (with a
      coherent analysis: iff no must-update flag at all is set and the asset
      is not deprecated);
    - target [deprecated], asset exists: [do_nothing] is true iff the asset
      is already deprecated;
    - target [present] or [deprecated], asset missing: [do_nothing] is
      false.
    In each case [get_context] does return its plan. *)
Theorem C1_get_context_decision_table
    (module : AnsibleModule) (cmd_base : string) (tr tr1 : list Event)
    (found : option json) :
  look_asset_on_exchange module tr = (Ret found, tr1) ->
  let p := params module in
  let analysis :=
    AnalyzeAsset (group_id p) (asset_id p) (asset_version p) (name p)
                 (description p) (icon p) (tags p) in
  let analyzed an :=
    analyze_answer (platform module) tr1 (group_id p) (asset_id p)
                   (asset_version p) (name p) (description p) (icon p) (tags p)
    = Answer an in
  (state p = Absent ->
     exists ctx, get_context module cmd_base tr = (Ret ctx, tr1)
       /\ exists_ ctx = is_some found
       /\ (do_nothing ctx = true <-> found = None))
  /\ (state p = Present -> found <> None -> forall an, analyzed an ->
        exists ctx,
          get_context module cmd_base tr = (Ret ctx, (tr1 ++ [analysis])%list)
          /\ exists_ ctx = true /\ flags_from an ctx
          /\ (do_nothing ctx = true
              <-> exchange_must_update ctx = false /\ deprecated ctx = false)
          /\ (coherent an ->
              (do_nothing ctx = true
               <-> no_update_flag ctx /\ deprecated ctx = false)))
  /\ (state p = Deprecated -> found <> None -> forall an, analyzed an ->
        exists ctx,
          get_context module cmd_base tr = (Ret ctx, (tr1 ++ [analysis])%list)
          /\ exists_ ctx = true /\ flags_from an ctx
          /\ (do_nothing ctx = true <-> deprecated ctx = true))
  /\ (state p <> Absent -> found = None ->
        exists ctx, get_context module cmd_base tr = (Ret ctx, tr1)
          /\ exists_ ctx = false /\ do_nothing ctx = false).
Proof.
  intros Hlook p analysis analyzed. repeat split.
  - intros Hst. eexists. split; [apply get_context_absent; eassumption |].
    cbn. split; [reflexivity |]. destruct found; cbn; split; congruence.
  - intros Hst Hf an Han.
    assert (Hsome : is_some found = true) by (destruct found; [reflexivity | congruence]).
    assert (Hne : state p <> Absent) by (rewrite Hst; discriminate).
    eexists. split; [eapply get_context_existing; eassumption |].
    fold p. rewrite Hst. cbn. unfold flags_from, no_update_flag, coherent. cbn.
    repeat split; try reflexivity;
      destruct (must_update an), (asset_deprecated an),
        (must_update_name an), (must_update_icon an),
        (must_update_description an), (must_update_tags an);
      cbn in *; intuition congruence.
  - intros Hst Hf an Han.
    assert (Hsome : is_some found = true) by (destruct found; [reflexivity | congruence]).
    assert (Hne : state p <> Absent) by (rewrite Hst; discriminate).
    eexists. split; [eapply get_context_existing; eassumption |].
    fold p. rewrite Hst. cbn. unfold flags_from. cbn.
    repeat split; try reflexivity; auto.
  - intros Hst Hf. eexists.
    split; [eapply get_context_missing; eassumption |]. cbn. auto.
Qed.

(** On a sample host: a [present] target, the asset found, nothing to
    update: the plan is to do nothing. *)
Lemma C1_witness :
  let module :=
    sample_module Present custom None None (record_output "custom")
                  (sample_analysis false false) in
  exists ctx tr,
    get_context module "anypoint-cli" [] = (Ret ctx, tr)
    /\ do_nothing ctx = true.
Proof.
  intros module.
  destruct (C1_get_context_decision_table module "anypoint-cli" []
              [LookExchangeAsset "ee819df3" "my-fragment" "1.0.1"]
              (Some (JStr "my-fragment")) eq_refl)
    as (_ & Hpresent & _).
  destruct (Hpresent eq_refl ltac:(discriminate) (sample_analysis false false) eq_refl)
    as (ctx & Hrun & _ & Hflags & Hdn & _).
  exists ctx. eexists. split; [exact Hrun |].
  apply Hdn. destruct Hflags as (Hu & _ & _ & _ & _ & Hd).
  rewrite Hu, Hd. split; reflexivity.
Defined.

(** C8.  [look_asset_on_exchange]:
    - a query error whose status is 404 gives no asset and no failure;
    - a query error with any other status ends the run ([fail_json] with
      the message of the error, when it has one);
    - when the query returns a record, the asset is found exactly when
      asset id, group id, version and declared type all agree with the
      requested ones, and not found otherwise. *)
Theorem C8_look_asset_on_exchange :
  (forall module tr output e rest,
     let p := params module in
     graphql_answer (platform module) tr (group_id p) (asset_id p)
                    (asset_version p) = Answer (JObj output) ->
     lookup "errors" output = Some (JList (JObj e :: rest)) ->
     lookup "status" e = Some (JInt 404) ->
     look_asset_on_exchange module tr
     = (Ret None,
        (tr ++ [LookExchangeAsset (group_id p) (asset_id p) (asset_version p)])%list))
  /\ (forall module tr output e rest,
        let p := params module in
        let query := LookExchangeAsset (group_id p) (asset_id p) (asset_version p) in
        graphql_answer (platform module) tr (group_id p) (asset_id p)
                       (asset_version p) = Answer (JObj output) ->
        lookup "errors" output = Some (JList (JObj e :: rest)) ->
        ne_int (get_or_none "status" e) 404 = true ->
        (exists o, look_asset_on_exchange module tr = (o, (tr ++ [query])%list)
                   /\ fatal o)
        /\ (forall m, lookup "message" e = Some (JStr m) ->
              look_asset_on_exchange module tr
              = (Fail ("[look_asset_on_exchange] Error looking for asset on exchange: "
                       ++ m),
                 (tr ++ [query])%list)))
  /\ (forall module tr output d item rest a g v t,
        let p := params module in
        graphql_answer (platform module) tr (group_id p) (asset_id p)
                       (asset_version p) = Answer (JObj output) ->
        truthy (get_or_none "errors" output) = false ->
        lookup "data" output = Some (JObj d) ->
        lookup "assets" d = Some (JList (JObj item :: rest)) ->
        lookup "assetId" item = Some a ->
        lookup "groupId" item = Some g ->
        lookup "version" item = Some v ->
        lookup "type" item = Some t ->
        look_asset_on_exchange module tr
        = (Ret (if eq_str (asset_id p) a && eq_str (group_id p) g
                   && eq_str (asset_version p) v
                   && eq_str (type_name (type p)) t
                then Some a else None),
           (tr ++ [LookExchangeAsset (group_id p) (asset_id p) (asset_version p)])%list)).
Proof.
  split; [| split].
  - intros. eapply errors_404; eassumption.
  - intros. eapply errors_other; eassumption.
  - intros. eapply record_match; eassumption.
Qed.

(** On sample hosts: a 404 error is "not found", a 500 error is fatal, a
    record of another type is "not found", the matching record is found. *)
Lemma C8_witness :
  let query := LookExchangeAsset "ee819df3" "my-fragment" "1.0.1" in
  let asked graphql :=
    look_asset_on_exchange
      (sample_module Present custom None None graphql (sample_analysis false false))
      [] in
  asked (error_output 404) = (Ret None, [query])
  /\ asked (error_output 500)
     = (Fail "[look_asset_on_exchange] Error looking for asset on exchange: upstream said no",
        [query])
  /\ asked (record_output "oas") = (Ret None, [query])
  /\ asked (record_output "custom") = (Ret (Some (JStr "my-fragment")), [query]).
Proof.
  intros query asked.
  destruct C8_look_asset_on_exchange as (H404 & Hother & Hrecord).
  split; [| split; [| split]].
  - eapply (H404 (sample_module Present custom None None (error_output 404)
                                (sample_analysis false false)) []);
      reflexivity.
  - edestruct (Hother (sample_module Present custom None None (error_output 500)
                                     (sample_analysis false false)) [])
      as [_ Hmsg]; [reflexivity | reflexivity | reflexivity |].
    apply Hmsg. reflexivity.
  - exact (Hrecord (sample_module Present custom None None (record_output "oas")
                                  (sample_analysis false false)) []
                   _ _ _ _ (JStr "my-fragment") (JStr "ee819df3") (JStr "1.0.1")
                   (JStr "oas")
                   eq_refl eq_refl eq_refl eq_refl eq_refl eq_refl eq_refl eq_refl).
  - exact (Hrecord (sample_module Present custom None None (record_output "custom")
                                  (sample_analysis false false)) []
                   _ _ _ _ (JStr "my-fragment") (JStr "ee819df3") (JStr "1.0.1")
                   (JStr "custom")
                   eq_refl eq_refl eq_refl eq_refl eq_refl eq_refl eq_refl eq_refl).
Defined.

(** C3.  In the deploy-file path (a type uploaded with the build tool and a
    file path), the classifier is the one the table gives for the pair
    (declared type, extension of the file): the build tool is invoked with
    it; for a pair outside the table the module fails with the
    invalid-extension error right after writing the settings file, before
    the build tool is invoked. *)
Theorem C3_classifier_selection
    (module : AnsibleModule) (context : Context) (cmd_base aid : string)
    (tr : list Event) (file mvn : string) :
  let p := params module in
  built (type p) = true ->
  file_path p = Some file ->
  write_result (platform module) tr (get_settings_xml_path module)
               (settings_xml_content module) = None ->
  bin_path (platform module) "mvn" = Some mvn ->
  (spec_classifier connector ".zip" = Some "studio-plugin"
   /\ spec_classifier extension ".jar" = Some "mule-plugin"
   /\ spec_classifier policy ".jar" = Some "mule-policy"
   /\ spec_classifier example ".jar" = Some "mule-application-example"
   /\ spec_classifier template ".jar" = Some "mule-application-template")
  /\ match spec_classifier (type p) (splitext_ext file) with
     | Some c =>
         exists o tr',
           upload_exchange_asset module context cmd_base aid tr = (o, tr')
           /\ extends
                (tr ++ [settings_written module;
                        RunCommand (mvn ++ " " ++ deploy_file_cmd module file c)])%list
                tr'
     | None =>
         upload_exchange_asset module context cmd_base aid tr
         = (Fail (invalid_extension_msg module),
            (tr ++ [settings_written module])%list)
     end.
Proof.
  intros p Hty Hfile Hwrite Hmvn. split.
  - repeat split; reflexivity.
  - destruct (spec_classifier (type p) (splitext_ext file)) as [c |] eqn:Hc.
    + eapply upload_maven_invoked; eassumption.
    + eapply upload_invalid_extension; eassumption.
Qed.

(** A connector shipped as a zip archive is deployed as [studio-plugin]. *)
Lemma C3_witness :
  let module :=
    sample_module Present connector (Some "/tmp/connector.zip") None
                  (error_output 404) (sample_analysis false false) in
  exists o tr',
    upload_exchange_asset module missing_plan "anypoint-cli" "a/b/c" [] = (o, tr')
    /\ extends
         [settings_written module;
          RunCommand ("/usr/local/bin/mvn" ++ " "
                      ++ deploy_file_cmd module "/tmp/connector.zip" "studio-plugin")]
         tr'.
Proof.
  intros module.
  exact (proj2 (C3_classifier_selection module missing_plan "anypoint-cli" "a/b/c"
                  [] "/tmp/connector.zip" "/usr/local/bin/mvn"
                  eq_refl eq_refl eq_refl eq_refl)).
Defined.

(** C6.  Every path of [upload_exchange_asset] that returns has ended with
    the metadata-update call, made without any condition; on a working
    host each of the three creation paths does return, the update being
    its last call; and for a missing asset with target [present], type
    [custom] and no file, the run makes the lookup, one upload call that
    carries no file, one metadata-update call, and reports
    [changed = true]. *)
Theorem C6_upload_ends_with_metadata_update :
  (forall module context cmd_base aid tr v tr',
     upload_exchange_asset module context cmd_base aid tr = (Ret v, tr') ->
     v = "Asset uploaded"
     /\ exists before,
          tr' = (before ++ [metadata_updated module context])%list
          /\ extends tr before)
  /\ (forall module context cmd_base aid tr,
        working (platform module) ->
        built (type (params module)) = false ->
        upload_exchange_asset module context cmd_base aid tr
        = (Ret "Asset uploaded",
           (tr ++ [RunCommand (upload_cmd module cmd_base aid);
                   metadata_updated module context])%list))
  /\ (forall module context cmd_base aid tr mvn file c,
        working (platform module) ->
        built (type (params module)) = true ->
        file_path (params module) = Some file ->
        bin_path (platform module) "mvn" = Some mvn ->
        spec_classifier (type (params module)) (splitext_ext file) = Some c ->
        upload_exchange_asset module context cmd_base aid tr
        = (Ret "Asset uploaded",
           (tr ++ [settings_written module;
                   RunCommand (mvn ++ " " ++ deploy_file_cmd module file c);
                   name_set module;
                   metadata_updated module context])%list))
  /\ (forall module context cmd_base aid tr mvn mv src,
        working (platform module) ->
        type (params module) = example \/ type (params module) = template ->
        file_path (params module) = None ->
        maven (params module) = Some mv ->
        sources mv = Some src ->
        bin_path (platform module) "mvn" = Some mvn ->
        upload_exchange_asset module context cmd_base aid tr
        = (Ret "Asset uploaded",
           (tr ++ [settings_written module;
                   pom_rewritten module (source_pom_of mv src);
                   RunCommand (mvn ++ " " ++ clean_deploy_cmd module mv src);
                   metadata_updated module context])%list))
  /\ (forall module cli mvn tr1,
        let m' := normalized module in
        let cmd_base := cmd_base_of module cli in
        state (params module) = Present ->
        type (params module) = custom ->
        file_path (params m') = None ->
        check_mode module = false ->
        bin_path (platform module) "anypoint-cli" = Some cli ->
        bin_path (platform module) "mvn" = Some mvn ->
        working (platform module) ->
        look_asset_on_exchange m' [] = (Ret None, tr1) ->
        run_module module []
        = (Exit {| changed := true; msg := "Asset uploaded" |},
           [looked_up m';
            RunCommand (upload_cmd m' cmd_base (identifier m'));
            metadata_updated m' missing_plan])
        /\ upload_cmd m' cmd_base (identifier m')
           = (match main_file (params m') with
              | Some f =>
                  ((cmd_base ++ " upload") ++ " --name " ++ dq
                   ++ name (params m') ++ dq)
                  ++ " --mainFile " ++ dq ++ f ++ dq
              | None =>
                  (cmd_base ++ " upload") ++ " --name " ++ dq
                  ++ name (params m') ++ dq
              end ++ " --classifier " ++ dq ++ "custom" ++ dq)
             ++ " " ++ dq ++ identifier m' ++ dq).
Proof.
  split; [| split; [| split; [| split]]].
  - intros. eapply upload_ends_with_update. eassumption.
  - intros. apply upload_by_cli; assumption.
  - intros. apply upload_by_deploy_file; assumption.
  - intros. apply upload_from_sources; assumption.
  - intros module cli mvn tr1 m' cmd_base Hst Hty Hfile Hcheck Hcli Hmvn Hwork Hlook.
    split.
    + rewrite (lookup_trace module tr1 Hlook) in Hlook.
      assert (Hbuilt : built (type (params m')) = false)
        by (change (type (params m')) with (type (params module));
            rewrite Hty; reflexivity).
      pose proof (upload_by_cli m' Hwork missing_plan cmd_base (identifier m')
                                [looked_up m'] Hbuilt) as Hup.
      rewrite (run_module_creates module cli mvn _ Hcli Hmvn Hcheck Hlook _ _ Hst
                 (validate_parameters_custom m' [] Hty) Hup).
      reflexivity.
    + unfold upload_cmd. rewrite Hfile.
      change (type (params m')) with (type (params module)). rewrite Hty.
      reflexivity.
Qed.

(** The scenario on the sample host. *)
Lemma C6_witness :
  let module :=
    sample_module Present custom None None (error_output 404)
                  (sample_analysis false false) in
  run_module module []
  = (Exit {| changed := true; msg := "Asset uploaded" |},
     [LookExchangeAsset "ee819df3" "my-fragment" "1.0.1";
      RunCommand
        (upload_cmd module (cmd_base_of module "/usr/local/bin/anypoint-cli")
                    "ee819df3/my-fragment/1.0.1");
      metadata_updated module missing_plan]).
Proof.
  intros module.
  destruct C6_upload_ends_with_metadata_update as (_ & _ & _ & _ & Hrun).
  exact (proj1 (Hrun module "/usr/local/bin/anypoint-cli" "/usr/local/bin/mvn"
                     [LookExchangeAsset "ee819df3" "my-fragment" "1.0.1"]
                     eq_refl eq_refl eq_refl eq_refl eq_refl eq_refl
                     (sample_host_works _ _) eq_refl)).
Defined.

(** C5.  Target [deprecated], asset missing.  The calls that change the
    platform come in a fixed order: the upload (whose last call is its own
    metadata update), then the metadata update of the plan when its
    must-update flag is set, then the deprecation; when the upload does
    not return, the run ends there and nothing follows. *)
Theorem C5_deprecated_missing_order
    (module : AnsibleModule) (cli mvn : string) (tr1 : list Event) :
  let m' := normalized module in
  let cmd_base := cmd_base_of module cli in
  let aid := identifier m' in
  let deprecation := RunCommand (deprecate_cmd cmd_base aid) in
  state (params module) = Deprecated ->
  check_mode module = false ->
  bin_path (platform module) "anypoint-cli" = Some cli ->
  bin_path (platform module) "mvn" = Some mvn ->
  look_asset_on_exchange m' [] = (Ret None, tr1) ->
  (forall o tr2,
     upload_exchange_asset m' missing_plan cmd_base aid tr1 = (o, tr2) ->
     extends tr1 tr2
     /\ match o with
        | Ret v =>
            (exists before,
               tr2 = (before ++ [metadata_updated m' missing_plan])%list)
            /\ exists o',
                 run_module module [] = (o', (tr2 ++ [deprecation])%list)
                 /\ (fst (fst (run_command_result (platform module) tr2
                                  (deprecate_cmd cmd_base aid))) = 0 ->
                     o' = Exit {| changed := true;
                                  msg := remove_newlines
                                           (snd (fst (run_command_result
                                                        (platform module) tr2
                                                        (deprecate_cmd cmd_base aid)))) |})
        | _ => run_module module [] = (reported o, tr2)
        end)
  /\ (forall context tr v tr2,
        exists_ context = false ->
        upload_exchange_asset m' context cmd_base aid tr = (Ret v, tr2) ->
        exists o tr',
          apply_changes m' context cmd_base tr = (o, tr')
          /\ (tr' = (tr2 ++ (if exchange_must_update context
                             then [metadata_updated m' context] else [])
                         ++ [deprecation])%list
              \/ (exchange_must_update context = true /\ fatal o
                  /\ tr' = (tr2 ++ [metadata_updated m' context])%list))).
Proof.
  intros m' cmd_base aid deprecation Hst Hcheck Hcli Hmvn Hlook.
  assert (Hst' : state (params m') = Deprecated) by exact Hst.
  split.
  - intros o tr2 Hup. split.
    + eapply appending_upload_exchange_asset. exact Hup.
    + assert (Hrun : run_module module []
                     = apply_changes m' missing_plan cmd_base tr1).
      { apply (run_module_missing module cli mvn tr1 Hcli Hmvn Hcheck Hlook).
        - rewrite Hst. discriminate.
        - apply validate_parameters_other.
          change (state (params module) <> Present). rewrite Hst. discriminate. }
      rewrite Hrun.
      destruct o as [v | r | m | e].
      * split.
        { destruct (upload_ends_with_update _ _ _ _ _ _ _ Hup)
            as (_ & before & Hbefore & _).
          exists before. exact Hbefore. }
        rewrite (apply_deprecated_missing m' missing_plan cmd_base tr1 v tr2
                   Hst' eq_refl Hup).
        cbn [exchange_must_update missing_plan].
        eexists. split; [reflexivity |].
        intros Hrc.
        change (platform m') with (platform module). fold aid. rewrite Hrc.
        reflexivity.
      * apply (apply_deprecated_upload_failed m' missing_plan cmd_base tr1 _ tr2
                 Hst' eq_refl Hup). discriminate.
      * apply (apply_deprecated_upload_failed m' missing_plan cmd_base tr1 _ tr2
                 Hst' eq_refl Hup). discriminate.
      * apply (apply_deprecated_upload_failed m' missing_plan cmd_base tr1 _ tr2
                 Hst' eq_refl Hup). discriminate.
  - intros context tr v tr2 Hex Hup.
    rewrite (apply_deprecated_missing m' context cmd_base tr v tr2 Hst' Hex Hup).
    destruct (exchange_must_update context).
    + destruct (modify_answer _ _ _ _ _ _ _ _ _ _) as [o2 | m].
      * eexists. eexists. split; [reflexivity |]. left. reflexivity.
      * eexists. eexists. split; [reflexivity |]. right.
        repeat split.
    + eexists. eexists. split; [reflexivity |]. left. reflexivity.
Qed.

(** On the sample host: lookup, upload, its metadata update, deprecation. *)
Lemma C5_witness :
  let module :=
    sample_module Deprecated custom None None (error_output 404)
                  (sample_analysis false false) in
  let cmd_base := cmd_base_of module "/usr/local/bin/anypoint-cli" in
  run_module module []
  = (Exit {| changed := true; msg := "done" |},
     [LookExchangeAsset "ee819df3" "my-fragment" "1.0.1";
      RunCommand (upload_cmd module cmd_base "ee819df3/my-fragment/1.0.1");
      metadata_updated module missing_plan;
      RunCommand (deprecate_cmd cmd_base "ee819df3/my-fragment/1.0.1")]).
Proof.
  intros module cmd_base.
  destruct (C5_deprecated_missing_order module "/usr/local/bin/anypoint-cli"
              "/usr/local/bin/mvn"
              [LookExchangeAsset "ee819df3" "my-fragment" "1.0.1"]
              eq_refl eq_refl eq_refl eq_refl eq_refl) as [Hrun _].
  destruct (Hrun (Ret "Asset uploaded")
                 [LookExchangeAsset "ee819df3" "my-fragment" "1.0.1";
                  RunCommand (upload_cmd module cmd_base "ee819df3/my-fragment/1.0.1");
                  metadata_updated module missing_plan]
                 eq_refl) as (_ & _ & o' & Hrun' & Hexit).
  rewrite Hrun'. rewrite (Hexit eq_refl). reflexivity.
Defined.

(** C4, as stated, fails: target [present], type [example], the [maven]
    options given, an explicit file that is not a jar archive, asset
    missing.  The run ends with the invalid-extension error and the build
    tool is never invoked. *)
Lemma C4_counterexample :
  let module :=
    sample_module Present example (Some "/tmp/app.zip") (Some no_maven_options)
                  (error_output 404) (sample_analysis false false) in
  state (params module) = Present
  /\ type (params module) = example
  /\ file_path (params module) = Some "/tmp/app.zip"
  /\ run_module module []
     = (Fail "[upload_exchange_asset] invalid file extension for example asset type (only supported .zip for mule 3 and .jar for mule 4)",
        [LookExchangeAsset "ee819df3" "my-fragment" "1.0.1";
         settings_written module]).
Proof.
  intros module.
  split; [reflexivity |]. split; [reflexivity |]. split; [reflexivity |].
  vm_compute. reflexivity.
Qed.

(** The same invocation with a jar archive but without the [maven]
    options is rejected by the validation of the parameters, before any
    call: the check at lines 534-537 asks for a [project_dir] key that
    [maven_spec] does not declare, and refuses a missing [maven] whatever
    [file_path] is, while the documentation of [maven] reads "Not required
    if you already specified file_path option". *)
Lemma explicit_file_without_maven_rejected :
  run_module
    (sample_module Present example (Some "/tmp/app.jar") None
                   (error_output 404) (sample_analysis false false)) []
  = (Fail "asset type template or example requires a project directory to build it",
     []).
Proof. vm_compute. reflexivity. Qed.

(** C4, amended.  Target [present], type [example] or [template], the
    [maven] options given, asset missing, on a working host:
    - the validation of the parameters raises no error;
    - with an explicit file whose extension is [.jar], the file is uploaded
      with the [deploy:deploy-file] goal and the run reports
      [changed = true];
    - with an explicit file of another extension, the run fails with the
      invalid-extension error before the build tool is invoked;
    - without a file but with sources, the asset is built from the sources;
    - the error asking for a project directory or a file is raised when
      neither sources nor a file was given. *)
Theorem C4_explicit_file_amended
    (module : AnsibleModule) (cli mvn : string) (mv : Maven)
    (tr1 : list Event) :
  let m' := normalized module in
  let p := params m' in
  state p = Present ->
  type p = example \/ type p = template ->
  maven p = Some mv ->
  check_mode module = false ->
  bin_path (platform module) "anypoint-cli" = Some cli ->
  bin_path (platform module) "mvn" = Some mvn ->
  working (platform module) ->
  look_asset_on_exchange m' [] = (Ret None, tr1) ->
  validate_parameters m' [] = (Ret tt, [])
  /\ (forall file,
        file_path p = Some file -> splitext_ext file = ".jar" ->
        run_module module []
        = (Exit {| changed := true; msg := "Asset uploaded" |},
           [looked_up m';
            settings_written m';
            RunCommand (mvn ++ " "
                        ++ deploy_file_cmd m' file (application_classifier (type p)));
            name_set m';
            metadata_updated m' missing_plan]))
  /\ (forall file,
        file_path p = Some file -> splitext_ext file <> ".jar" ->
        run_module module []
        = (Fail (invalid_extension_msg m'), [looked_up m'; settings_written m']))
  /\ (forall src,
        file_path p = None -> sources mv = Some src ->
        run_module module []
        = (Exit {| changed := true; msg := "Asset uploaded" |},
           [looked_up m';
            settings_written m';
            pom_rewritten m' (source_pom_of mv src);
            RunCommand (mvn ++ " " ++ clean_deploy_cmd m' mv src);
            metadata_updated m' missing_plan]))
  /\ (file_path p = None -> sources mv = None ->
      run_module module [] = (Fail nothing_to_upload_msg, [looked_up m'])).
Proof.
  intros m' p Hst Hty Hmv Hcheck Hcli Hmvn Hwork Hlook.
  assert (Hvalid : validate_parameters m' [] = (Ret tt, []))
    by (eapply validate_parameters_maven; eassumption).
  assert (Hbuilt : built (type p) = true)
    by (destruct Hty as [Ht | Ht]; rewrite Ht; reflexivity).
  rewrite (lookup_trace module tr1 Hlook) in Hlook.
  pose proof (fun o tr2 =>
                run_module_creates module cli mvn _ Hcli Hmvn Hcheck Hlook o tr2
                                   Hst Hvalid) as Hrun.
  split; [exact Hvalid |]. split; [| split; [| split]].
  - intros file Hfile Hext.
    assert (Hc : spec_classifier (type p) (splitext_ext file)
                 = Some (application_classifier (type p)))
      by (rewrite Hext; destruct Hty as [Ht | Ht]; rewrite Ht; reflexivity).
    rewrite (Hrun _ _ (upload_by_deploy_file m' Hwork missing_plan _ _ _ mvn file _
                         Hbuilt Hfile Hmvn Hc)).
    reflexivity.
  - intros file Hfile Hext.
    assert (Hc : spec_classifier (type p) (splitext_ext file) = None).
    { apply String.eqb_neq in Hext.
      destruct Hty as [Ht | Ht]; rewrite Ht; cbn; rewrite Hext; reflexivity. }
    destruct Hwork as (_ & Hwrite & _).
    rewrite (Hrun _ _ (upload_invalid_extension m' missing_plan _ _ _ file
                         Hbuilt Hfile (Hwrite _ _ _) Hc)).
    reflexivity.
  - intros src Hfile Hsrc.
    rewrite (Hrun _ _ (upload_from_sources m' Hwork missing_plan _ _ _ mvn mv src
                         Hty Hfile Hmv Hsrc Hmvn)).
    reflexivity.
  - intros Hfile Hsrc.
    rewrite (Hrun _ _ (upload_nothing m' missing_plan _ _ _ mv
                         Hty Hfile Hmv Hsrc)).
    reflexivity.
Qed.

(** An example shipped as a jar archive, with the [maven] options given. *)
Lemma C4_witness :
  let module :=
    sample_module Present example (Some "/tmp/app.jar") (Some no_maven_options)
                  (error_output 404) (sample_analysis false false) in
  run_module module []
  = (Exit {| changed := true; msg := "Asset uploaded" |},
     [LookExchangeAsset "ee819df3" "my-fragment" "1.0.1";
      settings_written module;
      RunCommand ("/usr/local/bin/mvn" ++ " "
                  ++ deploy_file_cmd module "/tmp/app.jar"
                       "mule-application-example");
      name_set module;
      metadata_updated module missing_plan]).
Proof.
  intros module.
  destruct (C4_explicit_file_amended module "/usr/local/bin/anypoint-cli"
              "/usr/local/bin/mvn" no_maven_options
              [LookExchangeAsset "ee819df3" "my-fragment" "1.0.1"]
              eq_refl (or_introl eq_refl) eq_refl eq_refl eq_refl eq_refl
              (sample_host_works _ _) eq_refl) as (_ & Hjar & _).
  exact (Hjar "/tmp/app.jar" eq_refl eq_refl).
Defined.

End AssetClaims.

(** * The claims on the environment module *)

Module EnvClaims.
Import Py Obs AccountEnvironment EnvSamples RunFacts EnvFacts.

(** C7.  Decision table of the environment module, once [describe] has
    answered:
    - the environment does not exist: [do_nothing] is false for target
      [present] and true for target [absent];
    - it exists, target [absent]: [do_nothing] is false;
    - it exists, target [present]: whenever [get_context] returns,
      [do_nothing] is true, whatever the declared type is (nothing is
      compared or updated); it does return as soon as the organization id
      and the client secret can be read. *)
Theorem C7_environment_decision_table
    (module : AnsibleModule) (cmd_base : string) (tr tr1 : list Event)
    (record : json) :
  get_environment module cmd_base tr = (Ret record, tr1) ->
  (record = JObj [] ->
     exists context,
       get_context module cmd_base tr = (Ret context, tr1)
       /\ do_nothing context = match state (params module) with
                               | Absent => true
                               | Present => false
                               end)
  /\ (forall env_id env_client,
        existing record env_id env_client ->
        state (params module) = Absent ->
        exists context,
          get_context module cmd_base tr = (Ret context, tr1)
          /\ do_nothing context = false)
  /\ (forall env_id env_client,
        existing record env_id env_client ->
        state (params module) = Present ->
        (forall context tr',
           get_context module cmd_base tr = (Ret context, tr') ->
           do_nothing context = true /\ id context = env_id
           /\ client_id context = env_client)
        /\ (forall org tr2 secret tr3,
              get_org_id module tr1 = (Ret org, tr2) ->
              get_env_client_secret module org env_client tr2
              = (Ret secret, tr3) ->
              get_context module cmd_base tr
              = (Ret {| do_nothing := true;
                        id := env_id;
                        client_id := env_client;
                        client_secret := secret |}, tr3))).
Proof.
  intros Hdesc. split; [| split].
  - intros Hrec. eexists. split.
    + eapply get_context_not_found; eassumption.
    + reflexivity.
  - intros i c Hex Hst. eexists. split.
    + eapply get_context_absent_existing; eassumption.
    + reflexivity.
  - intros i c Hex Hst. split.
    + intros context tr' Hctx.
      eapply get_context_present_returns; eassumption.
    + intros org tr2 secret tr3 Horg Hsec.
      rewrite (get_context_present_existing module _ _ _ _ Hdesc i c Hex Hst).
      step Horg. step Hsec. reflexivity.
Qed.

(** On the sample host the environment exists and the target is
    [present]: the plan is to do nothing. *)
Lemma C7_witness :
  let module := sample_module Present 0 "record" in
  get_context module "anypoint-cli" []
  = (Ret {| do_nothing := true;
            id := JStr "env-1";
            client_id := JStr "client-1";
            client_secret := JStr "s3cret" |},
     [described module "anypoint-cli";
      profile_fetched module;
      secret_fetched module "org-1" "client-1"]).
Proof.
  intros module.
  destruct (C7_environment_decision_table module "anypoint-cli" []
              [described module "anypoint-cli"] sample_record eq_refl)
    as (_ & _ & Hpresent).
  assert (Hex : existing sample_record (JStr "env-1") (JStr "client-1")).
  { eexists. repeat split. discriminate. }
  destruct (Hpresent _ _ Hex eq_refl) as [_ Hreturns].
  exact (Hreturns (JStr "org-1")
                  [described module "anypoint-cli"; profile_fetched module]
                  (JStr "s3cret")
                  [described module "anypoint-cli"; profile_fetched module;
                   secret_fetched module "org-1" "client-1"]
                  eq_refl eq_refl).
Defined.

(** C9, as stated, fails: [describe] exits with code 1 and prints the
    sentinel message; the state inspector does not answer "not found",
    it ends the run with [fail_json]. *)
Lemma C9_counterexample :
  let module := sample_module Present 1 "Error: Environment not found" in
  fst (fst (describe_result module "anypoint-cli" [])) <> 0
  /\ remove_newlines (snd (fst (describe_result module "anypoint-cli" [])))
     = error_message
  /\ get_environment module "anypoint-cli" []
     = (Fail "Error: Environment not found", [described module "anypoint-cli"]).
Proof.
  intros module. split; [discriminate |]. split; reflexivity.
Qed.

(** C9, amended.  [get_environment] makes the [describe] call and
    - exit code 0: returns the parsed output (an output that is not JSON
      raises);
    - exit code 255 and an output that, line feeds removed, is the
      sentinel message: returns the empty record;
    - any other outcome: ends the run with [fail_json] and the output as
      message. *)
Theorem C9_get_environment_amended
    (module : AnsibleModule) (cmd_base : string) (tr : list Event) :
  let rc := fst (fst (describe_result module cmd_base tr)) in
  let out := snd (fst (describe_result module cmd_base tr)) in
  let tr' := (tr ++ [described module cmd_base])%list in
  (rc = 0 -> forall v,
     json_loads (platform module) out = Some v ->
     get_environment module cmd_base tr = (Ret v, tr'))
  /\ (rc = 0 ->
      json_loads (platform module) out = None ->
      get_environment module cmd_base tr = (Raise "ValueError", tr'))
  /\ (rc = 255 ->
      remove_newlines out = error_message ->
      get_environment module cmd_base tr = (Ret (JObj []), tr'))
  /\ (rc <> 0 ->
      ~ (rc = 255 /\ remove_newlines out = error_message) ->
      get_environment module cmd_base tr = (Fail out, tr')).
Proof.
  intros rc out tr'. repeat split.
  - intros Hrc v Hv. apply get_environment_parsed; assumption.
  - intros Hrc Hv. apply get_environment_unparsed; assumption.
  - intros Hrc Hout. apply get_environment_not_found; assumption.
  - intros Hrc Hnot. apply get_environment_failed; assumption.
Qed.

(** Exit code 255 with the sentinel message, split over two lines. *)
Lemma C9_witness :
  let module :=
    sample_module Present 255 ("Error: Environment not found" ++ nl) in
  get_environment module "anypoint-cli" []
  = (Ret (JObj []), [described module "anypoint-cli"]).
Proof.
  intros module.
  destruct (C9_get_environment_amended module "anypoint-cli" [])
    as (_ & _ & Hsentinel & _).
  exact (Hsentinel eq_refl eq_refl).
Defined.

(** C10.  Target [absent], the environment exists and the [delete]
    command succeeds: the plan carried the identifiers found by
    [describe], but the outcome reports [changed = true] with [id],
    [client_id] and [client_secret] all [None]. *)
Theorem C10_delete_reports_no_identifiers
    (module : AnsibleModule) (cli : string) (record : json)
    (tr1 : list Event) (env_id env_client : json) :
  let cmd_base := cmd_base_of module cli in
  state (params module) = Absent ->
  check_mode module = false ->
  bin_path (platform module) "anypoint-cli" = Some cli ->
  get_environment module cmd_base [] = (Ret record, tr1) ->
  existing record env_id env_client ->
  fst (fst (run_command_result (platform module) tr1 (delete_cmd module cmd_base)))
  = 0 ->
  get_context module cmd_base []
  = (Ret {| do_nothing := false;
            id := env_id;
            client_id := env_client;
            client_secret := JNull |}, tr1)
  /\ env_id <> JNull
  /\ run_module module []
     = (Exit {| changed := true;
                result_id := JNull;
                result_client_id := JNull;
                result_client_secret := JNull;
                msg := "environment deleted" |},
        [described module cmd_base; deleted module cmd_base]).
Proof.
  intros cmd_base Hst Hcheck Hcli Hdesc Hex Hrc.
  pose proof (get_context_absent_existing module _ _ _ _ Hdesc _ _ Hex Hst)
    as Hctx.
  split; [exact Hctx |]. split; [destruct Hex as (f & _ & _ & Hn & _); exact Hn |].
  rewrite (env_run_module_planned module cli _ [] tr1 Hcli Hcheck Hctx).
  cbn [do_nothing]. rewrite Hst.
  step (delete_environment_ok module cmd_base tr1 Hrc).
  apply get_environment_trace in Hdesc. rewrite Hdesc. reflexivity.
Qed.

(** The environment of the sample host is deleted. *)
Lemma C10_witness :
  let module := sample_module Absent 0 "record" in
  let cmd_base := cmd_base_of module "/usr/local/bin/anypoint-cli" in
  run_module module []
  = (Exit {| changed := true;
             result_id := JNull;
             result_client_id := JNull;
             result_client_secret := JNull;
             msg := "environment deleted" |},
     [described module cmd_base; deleted module cmd_base]).
Proof.
  intros module cmd_base.
  assert (Hex : existing sample_record (JStr "env-1") (JStr "client-1")).
  { eexists. repeat split. discriminate. }
  exact (proj2 (proj2
           (C10_delete_reports_no_identifiers module
              "/usr/local/bin/anypoint-cli" sample_record
              [described module cmd_base] _ _
              eq_refl eq_refl eq_refl eq_refl Hex eq_refl))).
Defined.

End EnvClaims.

(** * Idempotence of both modules *)

Module Idempotence.
Import Py.

(** C2.  When the observed state already satisfies the desired state, as
    after an earlier run of the same invocation that completed, a run
    plans to do nothing, makes read-only calls only (none at all in check
    mode), and exits with the result whose [changed] is false: in the
    asset module and in the environment module. *)
Theorem C2_idempotence :
  (forall (module : ExchangeAsset.AnsibleModule) previous_host r0 tr0
          cli mvn found tr1,
     ExchangeAsset.run_module (AssetSamples.on_host module previous_host) []
     = (Exit r0, tr0) ->
     ExchangeAsset.bin_path (ExchangeAsset.platform module) "anypoint-cli"
     = Some cli ->
     ExchangeAsset.bin_path (ExchangeAsset.platform module) "mvn" = Some mvn ->
     ExchangeAsset.look_asset_on_exchange (AssetSamples.normalized module) []
     = (Ret found, tr1) ->
     AssetSamples.observed_satisfies (AssetSamples.normalized module) tr1 found ->
     exists context tr2,
       ExchangeAsset.get_context (AssetSamples.normalized module)
                                 (ExchangeAsset.cmd_base_of module cli) []
       = (Ret context, tr2)
       /\ ExchangeAsset.do_nothing context = true
       /\ forallb AssetSamples.read_only tr2 = true
       /\ ExchangeAsset.run_module module []
          = (Exit {| ExchangeAsset.changed := false;
                     ExchangeAsset.msg := "No action taken" |},
             if ExchangeAsset.check_mode module then [] else tr2))
  /\ (forall (module : AccountEnvironment.AnsibleModule) cli record tr1,
        AccountEnvironment.bin_path (AccountEnvironment.platform module)
                                    "anypoint-cli" = Some cli ->
        AccountEnvironment.get_environment
          module (AccountEnvironment.cmd_base_of module cli) []
        = (Ret record, tr1) ->
        EnvSamples.observed_satisfies module tr1 record ->
        exists context tr2,
          AccountEnvironment.get_context
            module (AccountEnvironment.cmd_base_of module cli) []
          = (Ret context, tr2)
          /\ AccountEnvironment.do_nothing context = true
          /\ forallb (EnvSamples.read_only
                        module (AccountEnvironment.cmd_base_of module cli)) tr2
             = true
          /\ AccountEnvironment.run_module module []
             = if AccountEnvironment.check_mode module
               then (Exit (EnvSamples.no_action JNull JNull JNull), [])
               else (Exit (EnvSamples.no_action
                             (AccountEnvironment.id context)
                             (AccountEnvironment.client_id context)
                             (AccountEnvironment.client_secret context)), tr2)).
Proof.
  split.
  - intros. eapply AssetFacts.asset_idempotent; eassumption.
  - intros. eapply EnvFacts.env_idempotent; eassumption.
Qed.

(** The asset was uploaded by a first run and is now found, up to date
    and active; the environment exists: both second runs change
    nothing. *)
Lemma C2_witness :
  ExchangeAsset.run_module
    (AssetSamples.sample_module ExchangeAsset.Present ExchangeAsset.custom
       None None (AssetSamples.record_output "custom")
       (AssetSamples.sample_analysis false false)) []
  = (Exit {| ExchangeAsset.changed := false;
             ExchangeAsset.msg := "No action taken" |},
     [ExchangeAsset.LookExchangeAsset "ee819df3" "my-fragment" "1.0.1";
      ExchangeAsset.AnalyzeAsset "ee819df3" "my-fragment" "1.0.1" "My Asset"
                                 None None []])
  /\ AccountEnvironment.run_module
       (EnvSamples.sample_module AccountEnvironment.Present 0 "record") []
     = (Exit (EnvSamples.no_action (JStr "env-1") (JStr "client-1")
                                   (JStr "s3cret")),
        [EnvSamples.described
           (EnvSamples.sample_module AccountEnvironment.Present 0 "record")
           (AccountEnvironment.cmd_base_of
              (EnvSamples.sample_module AccountEnvironment.Present 0 "record")
              "/usr/local/bin/anypoint-cli");
         EnvSamples.profile_fetched
           (EnvSamples.sample_module AccountEnvironment.Present 0 "record");
         EnvSamples.secret_fetched
           (EnvSamples.sample_module AccountEnvironment.Present 0 "record")
           "org-1" "client-1"]).
Proof.
  destruct C2_idempotence as [Hasset Henv]. split.
  - destruct (Hasset
                (AssetSamples.sample_module ExchangeAsset.Present
                   ExchangeAsset.custom None None
                   (AssetSamples.record_output "custom")
                   (AssetSamples.sample_analysis false false))
                (AssetSamples.sample_host (AssetSamples.error_output 404)
                   (AssetSamples.sample_analysis false false))
                {| ExchangeAsset.changed := true;
                   ExchangeAsset.msg := "Asset uploaded" |}
                _ "/usr/local/bin/anypoint-cli" "/usr/local/bin/mvn"
                (Some (JStr "my-fragment"))
                [ExchangeAsset.LookExchangeAsset "ee819df3" "my-fragment" "1.0.1"]
                AssetFacts.sample_first_run eq_refl eq_refl eq_refl)
      as (context & tr2 & Hctx & _ & _ & Hrun).
    + split; [discriminate |].
      exists (AssetSamples.sample_analysis false false).
      repeat split.
    + rewrite Hrun. cbn [ExchangeAsset.check_mode AssetSamples.sample_module].
      vm_compute in Hctx. inversion Hctx. reflexivity.
  - pose (env := EnvSamples.sample_module AccountEnvironment.Present 0 "record").
    pose (cmd_base :=
            AccountEnvironment.cmd_base_of env "/usr/local/bin/anypoint-cli").
    destruct (Henv env "/usr/local/bin/anypoint-cli" EnvSamples.sample_record
                   [EnvSamples.described env cmd_base] eq_refl eq_refl)
      as (context & tr2 & Hctx & _ & _ & Hrun).
    + exists (JStr "env-1"), (JStr "client-1"), (JStr "org-1").
      exists [EnvSamples.described env cmd_base; EnvSamples.profile_fetched env].
      exists (JStr "s3cret").
      exists [EnvSamples.described env cmd_base; EnvSamples.profile_fetched env;
              EnvSamples.secret_fetched env "org-1" "client-1"].
      split; [| split; vm_compute; reflexivity].
      eexists. repeat split. discriminate.
    + unfold env in Hrun, Hctx. rewrite Hrun.
      cbn [AccountEnvironment.check_mode EnvSamples.sample_module].
      vm_compute in Hctx. inversion Hctx. reflexivity.
Defined.

End Idempotence.

(** * Further properties *)

Module FurtherFacts.
Import Py Obs Further RunFacts.

Lemma emits_ret {E R A} P (a : A) : emits P (ret (E := E) (R := R) a).
Proof.
  intros tr o tr' H. inversion H. exists []. split;
    [symmetry; apply app_nil_r | reflexivity].
Qed.

Lemma emits_lift {E R A} P (o : Outcome R A) : emits P (lift (E := E) o).
Proof.
  intros tr o' tr' H. inversion H. exists []. split;
    [symmetry; apply app_nil_r | reflexivity].
Qed.

Lemma emits_fail {E R A} P m : emits P (fail_json (E := E) (R := R) (A := A) m).
Proof.
  intros tr o tr' H. inversion H. exists []. split;
    [symmetry; apply app_nil_r | reflexivity].
Qed.

Lemma emits_exit {E R A} P r : emits P (exit_json (E := E) (R := R) (A := A) r).
Proof.
  intros tr o tr' H. inversion H. exists []. split;
    [symmetry; apply app_nil_r | reflexivity].
Qed.

Lemma emits_raise {E R A} P e : emits P (raise (E := E) (R := R) (A := A) e).
Proof.
  intros tr o tr' H. inversion H. exists []. split;
    [symmetry; apply app_nil_r | reflexivity].
Qed.

Lemma emits_call {E R A} (P : E -> bool) (e : E) (answer : list E -> A) :
  P e = true -> emits P (call (R := R) e answer).
Proof.
  intros HP tr o tr' H. inversion H. exists [e]. split; [reflexivity |].
  cbn. rewrite HP. reflexivity.
Qed.

Lemma emits_call_helper {E R A} (P : E -> bool) (e : E)
    (answer : list E -> Reply A) :
  P e = true -> emits P (call_helper (R := R) e answer).
Proof.
  intros HP tr o tr'. unfold call_helper.
  destruct (answer tr); intros H; inversion H; exists [e];
    (split; [reflexivity | cbn; rewrite HP; reflexivity]).
Qed.

Lemma emits_bind {E R A B} P (c : M E R A) (k : A -> M E R B) :
  emits P c -> (forall a, emits P (k a)) -> emits P (bind c k).
Proof.
  intros Hc Hk tr o tr'. unfold bind.
  destruct (c tr) as [[a | r | m | e] tr1] eqn:Hrun; intros H;
    try (inversion H; subst; eapply Hc; exact Hrun).
  destruct (Hc _ _ _ Hrun) as (s1 & -> & H1).
  destruct (Hk _ _ _ _ H) as (s2 & -> & H2).
  exists (s1 ++ s2)%list. split; [symmetry; apply app_assoc |].
  rewrite forallb_app, H1, H2. reflexivity.
Qed.

Lemma silent_emits {E R A} P (c : M E R A) : silent c -> emits P c.
Proof.
  intros Hc tr o tr' H. apply Hc in H. subst. exists []. split;
    [symmetry; apply app_nil_r | reflexivity].
Qed.

Create HintDb emits.

#[export] Hint Resolve emits_ret emits_lift emits_fail emits_exit emits_raise
  : emits.

(** Splits a computation along its binds and branches; the calls are left
    to [side], which shows that they satisfy the predicate. *)
Ltac emits_with side :=
  repeat first
    [ progress cbv beta
    | solve [auto with emits]
    | apply emits_call; solve [side]
    | apply emits_call_helper; solve [side]
    | apply emits_bind; [| intros ?]
    | match goal with
      | |- emits _ (if ?b then _ else _) => destruct b
      | |- emits _ (match ?x with _ => _ end) => destruct x
      end ].

(** The whole trace of a computation started on the empty trace. *)
Lemma emits_from_nil {E R A} P (c : M E R A) o tr :
  emits P c -> c [] = (o, tr) -> forallb P tr = true.
Proof.
  intros Hc H. destruct (Hc _ _ _ H) as (s & -> & Hs). exact Hs.
Qed.

(** *** Computations that do not exit *)

Lemma exits_with_ret {E R A} P (a : A) : exits_with P (ret (E := E) (R := R) a).
Proof. intros tr r tr' H. discriminate H. Qed.

Lemma exits_with_fail {E R A} P m :
  exits_with P (fail_json (E := E) (R := R) (A := A) m).
Proof. intros tr r tr' H. discriminate H. Qed.

Lemma exits_with_raise {E R A} P e :
  exits_with P (raise (E := E) (R := R) (A := A) e).
Proof. intros tr r tr' H. discriminate H. Qed.

Lemma exits_with_exit {E R A} (P : R -> Prop) r :
  P r -> exits_with P (exit_json (E := E) (R := R) (A := A) r).
Proof. intros HP tr r' tr' H. inversion H. subst. exact HP. Qed.

Lemma exits_with_call {E R A} P (e : E) (answer : list E -> A) :
  exits_with P (call (R := R) e answer).
Proof. intros tr r tr' H. discriminate H. Qed.

Lemma exits_with_call_helper {E R A} P (e : E) (answer : list E -> Reply A) :
  exits_with P (call_helper (R := R) e answer).
Proof.
  intros tr r tr'. unfold call_helper. destruct (answer tr); discriminate.
Qed.

Lemma exits_with_lift {E R A} P (o : Outcome R A) :
  (forall r, o <> Exit r) -> exits_with P (lift (E := E) o).
Proof. intros Ho tr r tr' H. inversion H. subst. exfalso. eapply Ho. reflexivity. Qed.

Lemma exits_with_bind {E R A B} P (c : M E R A) (k : A -> M E R B) :
  exits_with P c -> (forall a, exits_with P (k a)) -> exits_with P (bind c k).
Proof.
  intros Hc Hk tr r tr'. unfold bind.
  destruct (c tr) as [[a | r0 | m | e] tr1] eqn:Hrun; intros H;
    try discriminate H.
  - eapply Hk. exact H.
  - inversion H. subst. eapply Hc. exact Hrun.
Qed.

Lemma getitem_no_exit {R} d k r : getitem (R := R) d k <> Exit r.
Proof. unfold getitem. destruct d; try discriminate. destruct (lookup k l); discriminate. Qed.

Lemma get_no_exit {R} d k r : get (R := R) d k <> Exit r.
Proof. unfold get. destruct d; try discriminate. destruct (lookup k l); discriminate. Qed.

Lemma index0_no_exit {R} v r : index0 (R := R) v <> Exit r.
Proof.
  unfold index0. destruct v as [| | | s | l |]; try discriminate.
  - destruct s; discriminate.
  - destruct l; discriminate.
Qed.

Lemma as_str_no_exit {R} v r : as_str (R := R) v <> Exit r.
Proof. unfold as_str. destruct v; discriminate. Qed.

Create HintDb exits.

#[export] Hint Resolve exits_with_ret exits_with_fail exits_with_raise
  exits_with_call exits_with_call_helper : exits.
#[export] Hint Resolve getitem_no_exit get_no_exit index0_no_exit as_str_no_exit
  : exits.

Ltac exits_with_tac side :=
  repeat first
    [ progress cbv beta
    | solve [auto with exits]
    | apply exits_with_lift; solve [auto with exits]
    | apply exits_with_exit; solve [side]
    | apply exits_with_bind; [| intros ?]
    | match goal with
      | |- exits_with _ (if ?b then _ else _) => destruct b
      | |- exits_with _ (match ?x with _ => _ end) => destruct x
      end ].

(** *** Strings *)

Lemma remove_newlines_no_newline s : no_newline (remove_newlines s) = true.
Proof.
  induction s as [| c r IH]; [reflexivity |].
  change (remove_newlines (String c r))
    with (if Ascii.eqb c newline then remove_newlines r
          else String c (remove_newlines r)).
  destruct (Ascii.eqb c newline) eqn:Hc; [exact IH |].
  change (no_newline (String c (remove_newlines r)))
    with (negb (Ascii.eqb c newline) && no_newline (remove_newlines r)).
  rewrite Hc, IH. reflexivity.
Qed.

Lemma append_assoc (a b c : string) : (a ++ b) ++ c = a ++ b ++ c.
Proof. induction a as [| x a IH]; [reflexivity |]. cbn. rewrite IH. reflexivity. Qed.

Lemma join_cons sep x l : join sep (x :: l) = x ++ prefixed sep l.
Proof.
  revert x. induction l as [| y l IH]; intros x.
  - cbn. induction x as [| c x IHx]; [reflexivity |]. cbn. rewrite <- IHx. reflexivity.
  - change (join sep (x :: y :: l)) with (x ++ sep ++ join sep (y :: l)).
    rewrite IH. reflexivity.
Qed.

End FurtherFacts.

(** ** Further properties of the asset module *)

Module AssetExtras.
Import Py Obs Further ExchangeAsset AssetSamples AssetFurther.
Import RunFacts FurtherFacts AssetFacts.

#[local] Arguments String.append : simpl never.
#[local] Arguments execute_maven : simpl never.
#[local] Arguments create_settings_xml : simpl never.
#[local] Arguments modify_pom_file : simpl never.
#[local] Arguments ap_common.execute_anypoint_cli : simpl never.
#[local] Arguments ap_exchange_common.modify_exchange_asset : simpl never.
#[local] Arguments ap_exchange_common.set_asset_name : simpl never.
#[local] Arguments ap_exchange_common.delete_exchange_asset : simpl never.
#[local] Arguments splitext_ext : simpl never.
#[local] Arguments get_settings_xml_path : simpl never.
#[local] Arguments get_distribution_repository_url : simpl never.
#[local] Arguments settings_xml_content : simpl never.
#[local] Arguments get_context : simpl never.
#[local] Arguments upload_exchange_asset : simpl never.
#[local] Arguments validate_parameters : simpl never.
#[local] Arguments apply_changes : simpl never.
#[local] Arguments look_asset_on_exchange : simpl never.
#[local] Arguments cmd_base_of : simpl never.

(** X1.  In check mode, with both binaries installed, the run exits at
    once with [changed = false] and the message "No action taken": no
    parameter is validated and no call is made, whatever the parameters
    and the platform are. *)
Theorem X1_check_mode_makes_no_call
    (module : AnsibleModule) (cli mvn : string) :
  bin_path (platform module) "anypoint-cli" = Some cli ->
  bin_path (platform module) "mvn" = Some mvn ->
  check_mode module = true ->
  run_module module []
  = (Exit {| changed := false; msg := "No action taken" |}, []).
Proof.
  intros Hcli Hmvn Hcheck.
  exact (run_module_check_mode module cli mvn [] Hcli Hmvn Hcheck).
Qed.

(** Check mode on an invocation that a real run rejects (an [oas] asset
    without a file). *)
Lemma X1_witness :
  run_module
    (checking (sample_module Present oas None None (error_output 500)
                             (sample_analysis false false))) []
  = (Exit {| changed := false; msg := "No action taken" |}, []).
Proof.
  exact (X1_check_mode_makes_no_call
           (checking (sample_module Present oas None None (error_output 500)
                                    (sample_analysis false false)))
           "/usr/local/bin/anypoint-cli" "/usr/local/bin/mvn"
           eq_refl eq_refl eq_refl).
Defined.

(** X2.  Target [present] with a type that needs a file ([oas], [wsdl],
    [connector], [extension], [policy]) and no [file_path], or an empty
    one: the run fails during the validation of the parameters, before any
    call. *)
Theorem X2_missing_file_path_rejected
    (module : AnsibleModule) (cli mvn : string) :
  bin_path (platform module) "anypoint-cli" = Some cli ->
  bin_path (platform module) "mvn" = Some mvn ->
  check_mode module = false ->
  state (params module) = Present ->
  needs_file (type (params module)) = true ->
  file_path (params module) = None
  \/ file_path (params module) = Some EmptyString ->
  run_module module [] = (Fail missing_file_msg, []).
Proof.
  intros Hcli Hmvn Hcheck Hst Hty Hfile.
  rewrite (run_module_started module cli mvn [] Hcli Hmvn Hcheck).
  assert (Hnone : file_path (params (normalized module)) = None)
    by (cbn; destruct Hfile as [-> | ->]; reflexivity).
  assert (Hv : validate_parameters (normalized module) []
               = (Fail missing_file_msg, [])).
  { unfold validate_parameters, type_is. rewrite Hnone.
    change (state (params (normalized module))) with (state (params module)).
    change (type (params (normalized module))) with (type (params module)).
    rewrite Hst.
    destruct (type (params module)); try discriminate Hty; reflexivity. }
  rewrite ?bind_assoc. rewrite (bind_fail _ _ _ _ _ Hv). reflexivity.
Qed.

(** A policy declared with an empty file path. *)
Lemma X2_witness :
  run_module
    (sample_module Present policy (Some EmptyString) None (error_output 404)
                   (sample_analysis false false)) []
  = (Fail missing_file_msg, []).
Proof.
  exact (X2_missing_file_path_rejected
           (sample_module Present policy (Some EmptyString) None
                          (error_output 404) (sample_analysis false false))
           "/usr/local/bin/anypoint-cli" "/usr/local/bin/mvn"
           eq_refl eq_refl eq_refl eq_refl eq_refl (or_intror eq_refl)).
Defined.

(** X3.  The validation only looks at target [present].  With target
    [deprecated], a missing asset of type [connector], [extension] or
    [policy] and no file path, the run writes the settings file and then
    raises [TypeError] (the concatenation of [None] at line 427): the
    build tool is never invoked and nothing is reported. *)
Theorem X3_deprecated_without_file_raises
    (module : AnsibleModule) (cli mvn : string) (tr1 : list Event) :
  let m' := normalized module in
  bin_path (platform module) "anypoint-cli" = Some cli ->
  bin_path (platform module) "mvn" = Some mvn ->
  check_mode module = false ->
  state (params module) = Deprecated ->
  type (params module) = connector \/ type (params module) = extension
  \/ type (params module) = policy ->
  file_path (params m') = None ->
  look_asset_on_exchange m' [] = (Ret None, tr1) ->
  write_result (platform module) tr1 (get_settings_xml_path m')
               (settings_xml_content m') = None ->
  run_module module []
  = (Raise "TypeError", [looked_up m'; settings_written m']).
Proof.
  intros m' Hcli Hmvn Hcheck Hst Hty Hfile Hlook Hwrite. subst m'.
  rewrite (run_module_missing module cli mvn tr1 Hcli Hmvn Hcheck Hlook);
    [| rewrite Hst; discriminate
     | apply validate_parameters_other;
       change (state (params module) <> Present); rewrite Hst; discriminate].
  set (m' := normalized module) in *.
  assert (Htr1 : tr1 = [looked_up m'])
    by (apply look_asset_on_exchange_trace in Hlook; exact Hlook).
  assert (Hst' : state (params m') = Deprecated) by exact Hst.
  assert (Hup : upload_exchange_asset m' missing_plan (cmd_base_of module cli)
                  (identifier m') tr1
                = (Raise "TypeError", (tr1 ++ [settings_written m'])%list)).
  { unfold upload_exchange_asset, type_is. rewrite Hfile.
    change (type (params m')) with (type (params module)).
    destruct Hty as [Ht | [Ht | Ht]]; rewrite Ht; cbn;
      step (create_settings_xml_written m' tr1 Hwrite); reflexivity. }
  rewrite (apply_deprecated_upload_failed m' missing_plan _ tr1 _ _
             Hst' eq_refl Hup); [| discriminate].
  rewrite Htr1. reflexivity.
Qed.

(** A connector to deprecate, never uploaded, no file given. *)
Lemma X3_witness :
  let module :=
    sample_module Deprecated connector None None (error_output 404)
                  (sample_analysis false false) in
  run_module module []
  = (Raise "TypeError",
     [LookExchangeAsset "ee819df3" "my-fragment" "1.0.1";
      settings_written module]).
Proof.
  intros module.
  exact (X3_deprecated_without_file_raises module "/usr/local/bin/anypoint-cli"
           "/usr/local/bin/mvn"
           [LookExchangeAsset "ee819df3" "my-fragment" "1.0.1"]
           eq_refl eq_refl eq_refl eq_refl (or_introl eq_refl) eq_refl
           eq_refl eq_refl).
Defined.

(** X4.  With target [deprecated], a missing asset of type [example] or
    [template], no file path and no [maven] options, the run raises
    [TypeError] right after the lookup (line 387 subscripts [None]): no
    file is written and no command is run. *)
Theorem X4_deprecated_without_maven_raises
    (module : AnsibleModule) (cli mvn : string) (tr1 : list Event) :
  let m' := normalized module in
  bin_path (platform module) "anypoint-cli" = Some cli ->
  bin_path (platform module) "mvn" = Some mvn ->
  check_mode module = false ->
  state (params module) = Deprecated ->
  type (params module) = example \/ type (params module) = template ->
  file_path (params m') = None ->
  maven (params module) = None ->
  look_asset_on_exchange m' [] = (Ret None, tr1) ->
  run_module module [] = (Raise "TypeError", [looked_up m']).
Proof.
  intros m' Hcli Hmvn Hcheck Hst Hty Hfile Hmv Hlook. subst m'.
  rewrite (run_module_missing module cli mvn tr1 Hcli Hmvn Hcheck Hlook);
    [| rewrite Hst; discriminate
     | apply validate_parameters_other;
       change (state (params module) <> Present); rewrite Hst; discriminate].
  set (m' := normalized module) in *.
  assert (Htr1 : tr1 = [looked_up m'])
    by (apply look_asset_on_exchange_trace in Hlook; exact Hlook).
  assert (Hst' : state (params m') = Deprecated) by exact Hst.
  assert (Hmv' : maven (params m') = None) by (cbn; rewrite Hmv; reflexivity).
  assert (Hup : upload_exchange_asset m' missing_plan (cmd_base_of module cli)
                  (identifier m') tr1
                = (Raise "TypeError", tr1)).
  { unfold upload_exchange_asset, type_is. rewrite Hfile, Hmv'.
    change (type (params m')) with (type (params module)).
    destruct Hty as [Ht | Ht]; rewrite Ht; reflexivity. }
  rewrite (apply_deprecated_upload_failed m' missing_plan _ tr1 _ _
             Hst' eq_refl Hup); [| discriminate].
  rewrite Htr1. reflexivity.
Qed.

(** A template to deprecate, never uploaded, nothing to upload it from. *)
Lemma X4_witness :
  run_module
    (sample_module Deprecated template None None (error_output 404)
                   (sample_analysis false false)) []
  = (Raise "TypeError", [LookExchangeAsset "ee819df3" "my-fragment" "1.0.1"]).
Proof.
  exact (X4_deprecated_without_maven_raises
           (sample_module Deprecated template None None (error_output 404)
                          (sample_analysis false false))
           "/usr/local/bin/anypoint-cli" "/usr/local/bin/mvn"
           [LookExchangeAsset "ee819df3" "my-fragment" "1.0.1"]
           eq_refl eq_refl eq_refl eq_refl (or_intror eq_refl) eq_refl
           eq_refl eq_refl).
Defined.

(** *** Runs on an asset that exists *)

Section Existing.
Variable module : AnsibleModule.
Variables cli mvn : string.
Variable found : json.
Variable an : Analysis.

Let m' := normalized module.
Let cmd_base := cmd_base_of module cli.
Let aid := identifier m'.

Hypothesis cli_installed : bin_path (platform module) "anypoint-cli" = Some cli.
Hypothesis mvn_installed : bin_path (platform module) "mvn" = Some mvn.
Hypothesis real_run : check_mode module = false.
Hypothesis valid : validate_parameters m' [] = (Ret tt, []).
Hypothesis is_found : look_asset_on_exchange m' [] = (Ret (Some found), [looked_up m']).
Hypothesis is_analyzed :
  analyze_answer (platform module) [looked_up m']
                 (group_id (params m')) (asset_id (params m'))
                 (asset_version (params m')) (name (params m'))
                 (description (params m')) (icon (params m')) (tags (params m'))
  = Answer an.

Lemma run_module_existing :
  state (params module) <> Absent ->
  run_module module []
  = if do_nothing (existing_plan (state (params module)) an)
    then (Exit no_action, [looked_up m'; analyzed m'])
    else apply_changes m' (existing_plan (state (params module)) an) cmd_base
                       [looked_up m'; analyzed m'].
Proof.
  intros Hst.
  rewrite (run_module_planned module cli mvn
             (existing_plan (state (params module)) an) []
             [looked_up m'; analyzed m'] cli_installed mvn_installed real_run valid).
  - reflexivity.
  - apply (get_context_existing m' (cmd_base_of module cli) [] [looked_up m']
             (Some found) is_found an Hst eq_refl is_analyzed).
Qed.

End Existing.

Section ApplyExisting.
Variable module : AnsibleModule.
Variable context : Context.
Variable cmd_base : string.
Variable tr : list Event.
Hypothesis host_works : working (platform module).
Hypothesis it_exists : exists_ context = true.

Let p := params module.
Let aid := identifier module.


(** Target [deprecated]: the metadata update when the plan asks for it,
    then the deprecation, whose output is the message of the run. *)
Lemma apply_deprecated_existing :
  state p = Deprecated ->
  exists out,
    apply_changes module context cmd_base tr
    = (Exit {| changed := true; msg := remove_newlines out |},
       (tr ++ (if exchange_must_update context
               then [metadata_updated module context] else [])
           ++ [RunCommand (deprecate_cmd cmd_base aid)])%list).
Proof.
  intros Hst. unfold apply_changes. fold p.
  change (ap_exchange_common.get_asset_identifier
            module (group_id p) (asset_id p) (asset_version p)) with aid.
  rewrite Hst, it_exists. cbn. step_pure.
  destruct (exchange_must_update context) eqn:Hup.
  - destruct (modify_exchange_asset_ok module host_works context tr) as [o Ho].
    fold p in Ho. step Ho. step_pure.
    step (execute_anypoint_cli_ok module host_works "[run_module]"
            (deprecate_cmd cmd_base aid)
            (tr ++ [metadata_updated module context])%list).
    step_pure. eexists. cbn. rewrite <- ?app_assoc. reflexivity.
  - step_pure.
    step (execute_anypoint_cli_ok module host_works "[run_module]"
            (deprecate_cmd cmd_base aid) tr).
    step_pure. eexists. reflexivity.
Qed.

End ApplyExisting.

(** Target [absent]: the delete call, whose answer ends the run. *)
Lemma apply_absent module context cmd_base tr :
  state (params module) = Absent ->
  apply_changes module context cmd_base tr
  = (match delete_answer (platform module) tr (group_id (params module))
                         (asset_id (params module))
                         (asset_version (params module)) with
     | Answer out => Exit {| changed := true; msg := remove_newlines out |}
     | Fatal m => Fail m
     end,
     (tr ++ [deleted module])%list).
Proof.
  intros Hst. unfold apply_changes. rewrite Hst. cbn.
  unfold ap_exchange_common.delete_exchange_asset, call_helper, bind at 1 2.
  destruct (delete_answer _ _ _ _ _); reflexivity.
Qed.



(** X6.  Target [deprecated] on an asset that exists and is not deprecated
    yet, on a working host: after the lookup and the analysis the run
    updates the metadata if the analysis asks for it, then deprecates the
    asset, and reports [changed = true]; it uploads nothing. *)
Theorem X6_deprecated_existing_asset
    (module : AnsibleModule) (cli mvn : string) (found : json)
    (an : Analysis) :
  let m' := normalized module in
  let cmd_base := cmd_base_of module cli in
  let plan := existing_plan Deprecated an in
  bin_path (platform module) "anypoint-cli" = Some cli ->
  bin_path (platform module) "mvn" = Some mvn ->
  check_mode module = false ->
  working (platform module) ->
  state (params module) = Deprecated ->
  look_asset_on_exchange m' [] = (Ret (Some found), [looked_up m']) ->
  analyze_answer (platform module) [looked_up m']
                 (group_id (params m')) (asset_id (params m'))
                 (asset_version (params m')) (name (params m'))
                 (description (params m')) (icon (params m')) (tags (params m'))
  = Answer an ->
  asset_deprecated an = false ->
  exists out,
    run_module module []
    = (Exit {| changed := true; msg := remove_newlines out |},
       ([looked_up m'; analyzed m']
        ++ (if must_update an then [metadata_updated m' plan] else [])
        ++ [RunCommand (deprecate_cmd cmd_base (identifier m'))])%list).
Proof.
  intros m' cmd_base plan Hcli Hmvn Hcheck Hwork Hst Hlook Han Hdep.
  subst m' cmd_base plan.
  assert (Hvalid : validate_parameters (normalized module) [] = (Ret tt, [])).
  { apply validate_parameters_other.
    change (state (params module) <> Present). rewrite Hst. discriminate. }
  rewrite (run_module_existing module cli mvn found an Hcli Hmvn Hcheck Hvalid
             Hlook Han); [| rewrite Hst; discriminate].
  rewrite Hst.
  assert (Hdn : do_nothing (existing_plan Deprecated an) = false) by exact Hdep.
  rewrite Hdn.
  exact (apply_deprecated_existing (normalized module)
           (existing_plan Deprecated an) (cmd_base_of module cli)
           [looked_up (normalized module); analyzed (normalized module)]
           Hwork eq_refl Hst).
Qed.

(** An active asset, up to date, to deprecate: one deprecation call. *)
Lemma X6_witness :
  let module :=
    sample_module Deprecated custom None None (record_output "custom")
                  (sample_analysis false false) in
  exists out,
    run_module module []
    = (Exit {| changed := true; msg := remove_newlines out |},
       [looked_up module; analyzed module;
        RunCommand (deprecate_cmd
                      (cmd_base_of module "/usr/local/bin/anypoint-cli")
                      (identifier module))]).
Proof.
  intros module.
  exact (X6_deprecated_existing_asset module "/usr/local/bin/anypoint-cli"
           "/usr/local/bin/mvn" (JStr "my-fragment") (sample_analysis false false)
           eq_refl eq_refl eq_refl (sample_host_works _ _) eq_refl
           eq_refl eq_refl eq_refl).
Defined.

(** X7.  Target [absent] on an asset that is found: the run makes the
    lookup and the delete call and nothing else (no analysis); the answer
    of the delete call decides the outcome: its output, line feeds removed,
    with [changed = true], or its failure. *)
Theorem X7_absent_existing_asset
    (module : AnsibleModule) (cli mvn : string) (found : json)
    (tr1 : list Event) :
  let m' := normalized module in
  let p := params m' in
  bin_path (platform module) "anypoint-cli" = Some cli ->
  bin_path (platform module) "mvn" = Some mvn ->
  check_mode module = false ->
  state (params module) = Absent ->
  look_asset_on_exchange m' [] = (Ret (Some found), tr1) ->
  run_module module []
  = (match delete_answer (platform module) [looked_up m']
                         (group_id p) (asset_id p) (asset_version p) with
     | Answer out => Exit {| changed := true; msg := remove_newlines out |}
     | Fatal m => Fail m
     end,
     [looked_up m'; deleted m']).
Proof.
  intros m' p Hcli Hmvn Hcheck Hst Hlook. subst m' p.
  assert (Htr1 : tr1 = [looked_up (normalized module)])
    by (apply look_asset_on_exchange_trace in Hlook; exact Hlook).
  subst tr1.
  assert (Hvalid : validate_parameters (normalized module) [] = (Ret tt, [])).
  { apply validate_parameters_other.
    change (state (params module) <> Present). rewrite Hst. discriminate. }
  rewrite (run_module_planned module cli mvn _ [] _ Hcli Hmvn Hcheck Hvalid
             (get_context_absent (normalized module) (cmd_base_of module cli)
                [] _ (Some found) Hlook Hst)).
  cbn [do_nothing is_some negb].
  exact (apply_absent (normalized module) _ (cmd_base_of module cli) _ Hst).
Qed.

(** The asset of the sample host is deleted. *)
Lemma X7_witness :
  let module :=
    sample_module Absent custom None None (record_output "custom")
                  (sample_analysis false false) in
  run_module module []
  = (Exit {| changed := true; msg := "Asset deleted" |},
     [looked_up module; deleted module]).
Proof.
  intros module.
  exact (X7_absent_existing_asset module "/usr/local/bin/anypoint-cli"
           "/usr/local/bin/mvn" (JStr "my-fragment") [looked_up module]
           eq_refl eq_refl eq_refl eq_refl eq_refl).
Defined.

(** A run stopped by a missing binary has made no call. *)
Lemma run_module_no_binary module o tr :
  bin_path (platform module) "anypoint-cli" = None
  \/ bin_path (platform module) "mvn" = None ->
  run_module module [] = (o, tr) -> tr = [].
Proof.
  intros Hbin. unfold run_module, ap_common.get_anypointcli_path,
    get_maven_path, get_bin_path.
  destruct (bin_path (platform module) "anypoint-cli") as [cli |] eqn:Hcli.
  - destruct Hbin as [Hbin | Hbin]; [discriminate Hbin |]. rewrite Hbin.
    step_pure. step_pure. intros H. inversion H. reflexivity.
  - intros H. inversion H. reflexivity.
Qed.

(** X8.  Target [absent], whatever the host and the platform answer and
    however the run ends: the calls made are none, the lookup alone, or the
    lookup followed by the delete call.  The asset is never analyzed,
    nothing is uploaded, no file is written and no command is run. *)
Theorem X8_absent_run_shape
    (module : AnsibleModule) (o : Outcome Result unit) (tr : list Event) :
  let m' := normalized module in
  state (params module) = Absent ->
  run_module module [] = (o, tr) ->
  tr = [] \/ tr = [looked_up m'] \/ tr = [looked_up m'; deleted m'].
Proof.
  intros m' Hst. subst m'.
  destruct (bin_path (platform module) "anypoint-cli") as [cli |] eqn:Hcli;
    [| intros H; left; eapply run_module_no_binary; [left | ]; eassumption].
  destruct (bin_path (platform module) "mvn") as [mvn |] eqn:Hmvn;
    [| intros H; left; eapply run_module_no_binary; [right | ]; eassumption].
  destruct (check_mode module) eqn:Hcheck.
  { rewrite (run_module_check_mode module cli mvn [] Hcli Hmvn Hcheck).
    intros H. inversion H. left. reflexivity. }
  rewrite (run_module_started module cli mvn [] Hcli Hmvn Hcheck).
  assert (Hvalid : validate_parameters (normalized module) [] = (Ret tt, [])).
  { apply validate_parameters_other.
    change (state (params module) <> Present). rewrite Hst. discriminate. }
  step Hvalid.
  destruct (look_asset_on_exchange (normalized module) []) as [o1 tr1] eqn:Hlook.
  assert (Htr1 : tr1 = [looked_up (normalized module)])
    by (apply look_asset_on_exchange_trace in Hlook; exact Hlook).
  subst tr1.
  destruct o1 as [found | r | m | e].
  - step (get_context_absent (normalized module) (cmd_base_of module cli)
            [] _ found Hlook Hst).
    destruct found as [a |]; cbn [do_nothing is_some negb].
    + step_pure. rewrite (apply_absent (normalized module) _ _ _ Hst).
      intros H. inversion H. right. right. reflexivity.
    + intros H. inversion H. right. left. reflexivity.
  - unfold get_context. rewrite ?bind_assoc. rewrite (bind_exit _ _ _ _ _ Hlook).
    intros H. inversion H. right. left. reflexivity.
  - unfold get_context. rewrite ?bind_assoc. rewrite (bind_fail _ _ _ _ _ Hlook).
    intros H. inversion H. right. left. reflexivity.
  - unfold get_context. rewrite ?bind_assoc. rewrite (bind_raise _ _ _ _ _ Hlook).
    intros H. inversion H. right. left. reflexivity.
Qed.

(** On a platform whose query fails, the run stops after the lookup. *)
Lemma X8_witness :
  let module :=
    sample_module Absent custom None None (error_output 500)
                  (sample_analysis false false) in
  let failure :=
    Fail "[look_asset_on_exchange] Error looking for asset on exchange: upstream said no" in
  run_module module [] = (failure, [looked_up module])
  /\ ([looked_up module] = []
      \/ [looked_up module] = [looked_up module]
      \/ [looked_up module] = [looked_up module; deleted module]).
Proof.
  intros module failure. split; [reflexivity |].
  exact (X8_absent_run_shape module failure [looked_up module] eq_refl eq_refl).
Defined.

(** *** What a run never does *)

Lemma get_bin_path_emits P module n r : emits P (get_bin_path module n r).
Proof. unfold get_bin_path. emits_with idtac. Qed.

Lemma get_maven_path_emits P module : emits P (get_maven_path module).
Proof. apply get_bin_path_emits. Qed.

#[local] Hint Resolve get_bin_path_emits get_maven_path_emits : emits.

Lemma look_asset_emits P module :
  P (looked_up module) = true -> emits P (look_asset_on_exchange module).
Proof.
  intros HP. unfold look_asset_on_exchange,
    ap_exchange_common.look_exchange_asset_with_graphql.
  apply emits_bind; [apply emits_call_helper; exact HP |].
  intros output. apply silent_emits. silent_tac.
Qed.

Lemma get_context_emits P module cmd_base :
  P (looked_up module) = true -> P (analyzed module) = true ->
  emits P (get_context module cmd_base).
Proof.
  intros Hl Ha. unfold get_context, ap_exchange_common.analyze_asset.
  apply emits_bind; [apply look_asset_emits; exact Hl |].
  intros found. emits_with ltac:(exact Ha).
Qed.

Lemma upload_never_deletes module context cmd_base aid :
  emits not_delete (upload_exchange_asset module context cmd_base aid).
Proof.
  unfold upload_exchange_asset. emits_with reflexivity.
Qed.

Lemma apply_changes_never_deletes module context cmd_base :
  state (params module) <> Absent ->
  emits not_delete (apply_changes module context cmd_base).
Proof.
  intros Hst. unfold apply_changes, read_output.
  destruct (state (params module)) eqn:Hs; [| | exfalso; apply Hst; reflexivity];
    repeat first
      [ progress cbv beta
      | solve [auto with emits]
      | apply upload_never_deletes
      | apply emits_call; reflexivity
      | apply emits_call_helper; reflexivity
      | apply emits_bind; [| intros ?]
      | match goal with
        | |- emits _ (if ?b then _ else _) => destruct b
        | |- emits _ (match ?x with _ => _ end) => destruct x
        end ].
Qed.

(** X9.  With target [present] or [deprecated] the delete call is never
    made, whatever the host and the platform answer and however the run
    ends. *)
Theorem X9_only_absent_deletes
    (module : AnsibleModule) (o : Outcome Result unit) (tr : list Event) :
  state (params module) <> Absent ->
  run_module module [] = (o, tr) ->
  forallb not_delete tr = true.
Proof.
  intros Hst Hrun. eapply emits_from_nil; [| exact Hrun].
  unfold run_module, ap_common.get_anypointcli_path, get_maven_path,
    get_bin_path, validate_parameters.
  repeat first
    [ progress cbv beta
    | solve [auto with emits]
    | apply get_context_emits; reflexivity
    | apply apply_changes_never_deletes; exact Hst
    | apply emits_bind; [| intros ?]
    | match goal with
      | |- emits _ (if ?b then _ else _) => destruct b
      | |- emits _ (match ?x with _ => _ end) => destruct x
      end ].
Qed.

(** The first run of the sample never deletes. *)
Lemma X9_witness :
  let module :=
    sample_module Present custom None None (error_output 404)
                  (sample_analysis false false) in
  forallb not_delete
    [looked_up module;
     RunCommand (upload_cmd module
                   (cmd_base_of module "/usr/local/bin/anypoint-cli")
                   (identifier module));
     metadata_updated module missing_plan]
  = true.
Proof.
  intros module.
  eapply (X9_only_absent_deletes module); [discriminate |].
  exact sample_first_run.
Defined.

Lemma upload_cli_only module context cmd_base :
  built (type (params module)) = false ->
  emits (cli_only module cmd_base)
        (upload_exchange_asset module context cmd_base (identifier module)).
Proof.
  intros Hty. unfold upload_exchange_asset, type_is.
  destruct (type (params module)) eqn:Ht; try discriminate Hty; cbn;
    (apply emits_bind;
     [| intros ?; emits_with ltac:(reflexivity)]);
    (apply emits_bind; [| intros ?; emits_with ltac:(reflexivity)]);
    unfold ap_common.execute_anypoint_cli, run_command;
    emits_with ltac:(cbn [cli_only]; unfold upload_cmd; rewrite Ht; cbn;
                     rewrite String.eqb_refl; reflexivity).
Qed.

Lemma apply_changes_cli_only module context cmd_base :
  built (type (params module)) = false ->
  emits (cli_only module cmd_base) (apply_changes module context cmd_base).
Proof.
  intros Hty. unfold apply_changes, read_output.
  change (ap_exchange_common.get_asset_identifier module
            (group_id (params module)) (asset_id (params module))
            (asset_version (params module))) with (identifier module).
  destruct (state (params module));
    repeat first
      [ progress cbv beta
      | solve [auto with emits]
      | apply upload_cli_only; exact Hty
      | apply emits_call;
        solve [ reflexivity
              | cbn [cli_only]; unfold undeprecate_cmd, deprecate_cmd;
                rewrite String.eqb_refl, ?orb_true_r; reflexivity ]
      | apply emits_call_helper; reflexivity
      | apply emits_bind; [| intros ?]
      | match goal with
        | |- emits _ (if ?b then _ else _) => destruct b
        | |- emits _ (match ?x with _ => _ end) => destruct x
        end ].
Qed.

(** X10.  For the types [custom], [oas] and [wsdl], whatever the target,
    the host and the platform answer, a run goes through the CLI only: it
    never writes the settings file (so the token never reaches the disk),
    never rewrites a build descriptor, never sets the asset name apart,
    and the only commands it runs are the upload, the undeprecation and the
    deprecation of the asset: the build tool is never invoked. *)
Theorem X10_cli_types_never_build
    (module : AnsibleModule) (cli : string) (o : Outcome Result unit)
    (tr : list Event) :
  bin_path (platform module) "anypoint-cli" = Some cli ->
  built (type (params module)) = false ->
  run_module module [] = (o, tr) ->
  forallb (cli_only (normalized module) (cmd_base_of module cli)) tr = true.
Proof.
  intros Hcli Hty.
  destruct (bin_path (platform module) "mvn") as [mvn |] eqn:Hmvn.
  2: { intros H. rewrite (run_module_no_binary module o tr (or_intror Hmvn) H).
       reflexivity. }
  destruct (check_mode module) eqn:Hcheck.
  { rewrite (run_module_check_mode module cli mvn [] Hcli Hmvn Hcheck).
    intros H. inversion H. reflexivity. }
  rewrite (run_module_started module cli mvn [] Hcli Hmvn Hcheck).
  intros Hrun. eapply emits_from_nil; [| exact Hrun].
  unfold validate_parameters.
  repeat first
    [ progress cbv beta
    | solve [auto with emits]
    | apply get_context_emits; reflexivity
    | apply apply_changes_cli_only; exact Hty
    | apply emits_bind; [| intros ?]
    | match goal with
      | |- emits _ (if ?b then _ else _) => destruct b
      | |- emits _ (match ?x with _ => _ end) => destruct x
      end ].
Qed.

(** The first run of the sample goes through the CLI only. *)
Lemma X10_witness :
  let module :=
    sample_module Present custom None None (error_output 404)
                  (sample_analysis false false) in
  let cmd_base := cmd_base_of module "/usr/local/bin/anypoint-cli" in
  forallb (cli_only module cmd_base)
    [looked_up module;
     RunCommand (upload_cmd module cmd_base (identifier module));
     metadata_updated module missing_plan]
  = true.
Proof.
  intros module cmd_base.
  exact (X10_cli_types_never_build module "/usr/local/bin/anypoint-cli" _ _
           eq_refl eq_refl sample_first_run).
Defined.

(** *** Failures during an upload *)

(** X11.  In the deploy-file path, when the build tool exits with a
    non-zero code the upload fails with the output of the tool behind the
    tag of [execute_maven]; the settings file has been written and the
    command run, and neither the asset name nor the metadata is set
    afterwards. *)
Theorem X11_build_failure_stops_the_upload
    (module : AnsibleModule) (context : Context) (cmd_base aid : string)
    (tr : list Event) (file mvn c : string) :
  let p := params module in
  let cmd := mvn ++ " " ++ deploy_file_cmd module file c in
  let result :=
    run_command_result (platform module)
                       (tr ++ [settings_written module])%list cmd in
  built (type p) = true ->
  file_path p = Some file ->
  spec_classifier (type p) (splitext_ext file) = Some c ->
  write_result (platform module) tr (get_settings_xml_path module)
               (settings_xml_content module) = None ->
  bin_path (platform module) "mvn" = Some mvn ->
  fst (fst result) <> 0 ->
  upload_exchange_asset module context cmd_base aid tr
  = (Fail ("[execute_maven] " ++ snd (fst result)),
     (tr ++ [settings_written module; RunCommand cmd])%list).
Proof.
  intros p cmd result Hty Hfile Hc Hwrite Hmvn Hrc.
  assert (Hmaven : execute_maven module (deploy_file_cmd module file c)
                     (tr ++ [settings_written module])%list
                   = (Fail ("[execute_maven] " ++ snd (fst result)),
                      ((tr ++ [settings_written module]) ++ [RunCommand cmd])%list)).
  { unfold execute_maven, get_maven_path, get_bin_path, run_command, bind,
      call, ret.
    rewrite Hmvn. fold cmd. fold result.
    destruct (Z.eqb_spec (fst (fst result)) 0) as [H0 | H0];
      [contradiction | reflexivity]. }
  unfold upload_exchange_asset, type_is. unfold spec_classifier in Hc.
  fold p. rewrite Hfile.
  destruct (type p) eqn:Ht; try discriminate Hty; cbn;
    step (create_settings_xml_written module tr Hwrite); step_pure;
    (destruct (String.eqb (splitext_ext file) _); [| discriminate Hc]);
    injection Hc as <-; step_pure;
    unfold deploy_file_cmd in Hmaven; fold p in Hmaven;
    rewrite ?bind_assoc; rewrite (bind_fail _ _ _ _ _ Hmaven);
    rewrite <- app_assoc; reflexivity.
Qed.

(** An extension whose deployment fails. *)
Lemma X11_witness :
  let module :=
    on (sample_module Present extension (Some "/tmp/ext.jar") None
                      (error_output 404) (sample_analysis false false))
       (with_commands (sample_host (error_output 404) (sample_analysis false false))
                      (fun _ _ => (1, "BUILD FAILURE", EmptyString))) in
  upload_exchange_asset module missing_plan "anypoint-cli" "a/b/c" []
  = (Fail "[execute_maven] BUILD FAILURE",
     [settings_written module;
      RunCommand ("/usr/local/bin/mvn" ++ " "
                  ++ deploy_file_cmd module "/tmp/ext.jar" "mule-plugin")]).
Proof.
  intros module.
  exact (X11_build_failure_stops_the_upload module missing_plan "anypoint-cli"
           "a/b/c" [] "/tmp/ext.jar" "/usr/local/bin/mvn" "mule-plugin"
           eq_refl eq_refl eq_refl eq_refl eq_refl ltac:(discriminate)).
Defined.

(** X12.  When the settings file cannot be written, an upload through the
    build tool (an explicit file, or sources to build) fails with the text
    of the exception in the message of [create_settings_xml]; the write is
    the only call made: the descriptor is not rewritten and the build tool
    is not invoked. *)
Theorem X12_settings_failure_stops_the_upload
    (module : AnsibleModule) (context : Context) (cmd_base aid : string)
    (tr : list Event) (e : string) :
  let p := params module in
  built (type p) = true ->
  file_path p <> None
  \/ (exists mv src, maven p = Some mv /\ sources mv = Some src) ->
  write_result (platform module) tr (get_settings_xml_path module)
               (settings_xml_content module) = Some e ->
  upload_exchange_asset module context cmd_base aid tr
  = (Fail (settings_failure_msg e), (tr ++ [settings_written module])%list).
Proof.
  intros p Hty Hgiven Hwrite.
  assert (Hsettings : create_settings_xml module tr
                      = (Fail (settings_failure_msg e),
                         (tr ++ [settings_written module])%list)).
  { unfold create_settings_xml, bind, call. rewrite Hwrite. reflexivity. }
  unfold upload_exchange_asset, type_is. fold p.
  destruct (file_path p) as [file |] eqn:Hfile.
  - destruct (type p) eqn:Ht; try discriminate Hty; cbn;
      rewrite ?bind_assoc; rewrite (bind_fail _ _ _ _ _ Hsettings); reflexivity.
  - destruct Hgiven as [Hno | (mv & src & Hmv & Hsrc)]; [congruence |].
    rewrite Hmv.
    destruct (type p) eqn:Ht; try discriminate Hty; cbn;
      try (step_pure; rewrite Hsrc);
      rewrite ?bind_assoc; rewrite (bind_fail _ _ _ _ _ Hsettings); reflexivity.
Qed.

(** A template built from its sources on a host whose [/tmp] is full. *)
Lemma X12_witness :
  let module :=
    on (sample_module Present template None
          (Some {| sources := Some "/src/app"; settings := None; pom := None;
                   arguments := [] |})
          (error_output 404) (sample_analysis false false))
       (with_writes (sample_host (error_output 404) (sample_analysis false false))
                    (fun _ _ _ => Some "No space left on device")) in
  upload_exchange_asset module missing_plan "anypoint-cli" "a/b/c" []
  = (Fail (settings_failure_msg "No space left on device"),
     [settings_written module]).
Proof.
  intros module.
  refine (X12_settings_failure_stops_the_upload module missing_plan
            "anypoint-cli" "a/b/c" [] "No space left on device"
            eq_refl (or_intror _) eq_refl).
  eexists. eexists. split; reflexivity.
Defined.

(** X13.  When the query answers without errors, [look_asset_on_exchange]
    reads the first record without checking that there is one: an empty
    list of assets raises [IndexError] and an answer without ['data']
    raises [KeyError]; neither is turned into "not found". *)
Theorem X13_lookup_without_record_raises
    (module : AnsibleModule) (tr : list Event) (output : list (string * json)) :
  let p := params module in
  let tr' := (tr ++ [looked_up module])%list in
  graphql_answer (platform module) tr (group_id p) (asset_id p) (asset_version p)
  = Answer (JObj output) ->
  truthy (get_or_none "errors" output) = false ->
  (lookup "data" output = None ->
   look_asset_on_exchange module tr = (Raise "KeyError", tr'))
  /\ (forall d,
        lookup "data" output = Some (JObj d) ->
        lookup "assets" d = Some (JList []) ->
        look_asset_on_exchange module tr = (Raise "IndexError", tr')).
Proof.
  intros p tr' Hans Herr. unfold get_or_none in Herr.
  split.
  - intros Hdata.
    unfold look_asset_on_exchange,
      ap_exchange_common.look_exchange_asset_with_graphql, bind, call_helper, lift.
    fold p. rewrite Hans. cbn.
    destruct (lookup "errors" output); cbn; rewrite ?Herr; cbn;
      rewrite Hdata; reflexivity.
  - intros d Hdata Hassets.
    unfold look_asset_on_exchange,
      ap_exchange_common.look_exchange_asset_with_graphql, bind, call_helper, lift.
    fold p. rewrite Hans. cbn.
    destruct (lookup "errors" output); cbn; rewrite ?Herr; cbn;
      rewrite Hdata; cbn; rewrite Hassets; reflexivity.
Qed.

(** The platform answers with an empty list of assets. *)
Lemma X13_witness :
  let module :=
    sample_module Present custom None None
                  (JObj [("data", JObj [("assets", JList [])])])
                  (sample_analysis false false) in
  look_asset_on_exchange module [] = (Raise "IndexError", [looked_up module]).
Proof.
  intros module.
  exact (proj2 (X13_lookup_without_record_raises module []
                  [("data", JObj [("assets", JList [])])] eq_refl eq_refl)
               [("assets", JList [])] eq_refl eq_refl).
Defined.

(** *** The reported result *)

Lemma get_bin_path_never_exits P module n r :
  exits_with P (get_bin_path module n r).
Proof. unfold get_bin_path. exits_with_tac idtac. Qed.

Lemma look_asset_never_exits P module :
  exits_with P (look_asset_on_exchange module).
Proof.
  unfold look_asset_on_exchange,
    ap_exchange_common.look_exchange_asset_with_graphql.
  exits_with_tac idtac.
Qed.

Lemma get_context_never_exits P module cmd_base :
  exits_with P (get_context module cmd_base).
Proof.
  unfold get_context, ap_exchange_common.analyze_asset.
  apply exits_with_bind; [apply look_asset_never_exits | intros ?].
  exits_with_tac idtac.
Qed.

Lemma validate_never_exits P module :
  exits_with P (validate_parameters module).
Proof. unfold validate_parameters. exits_with_tac idtac. Qed.

Lemma upload_never_exits P module context cmd_base aid :
  exits_with P (upload_exchange_asset module context cmd_base aid).
Proof.
  unfold upload_exchange_asset, execute_maven, get_maven_path, get_bin_path,
    create_settings_xml, modify_pom_file, ap_common.execute_anypoint_cli,
    run_command, ap_exchange_common.set_asset_name,
    ap_exchange_common.modify_exchange_asset.
  exits_with_tac idtac.
Qed.

Lemma apply_changes_well_reported module context cmd_base :
  exits_with well_reported (apply_changes module context cmd_base).
Proof.
  unfold apply_changes, read_output, ap_common.execute_anypoint_cli,
    run_command, ap_exchange_common.modify_exchange_asset,
    ap_exchange_common.delete_exchange_asset.
  repeat first
    [ progress cbv beta
    | solve [auto with exits]
    | apply upload_never_exits
    | apply exits_with_exit; split;
      [apply remove_newlines_no_newline | discriminate]
    | apply exits_with_bind; [| intros ?]
    | match goal with
      | |- exits_with _ (if ?b then _ else _) => destruct b
      | |- exits_with _ (match ?x with _ => _ end) => destruct x
      end ].
Qed.

(** X14.  Whatever the parameters, the host and the platform, a run that
    ends with [exit_json] reports a message without any line feed, and a
    result with [changed = false] is always the fixed one, "No action
    taken". *)
Theorem X14_reported_result
    (module : AnsibleModule) (r : Result) (tr : list Event) :
  run_module module [] = (Exit r, tr) ->
  no_newline (msg r) = true /\ (changed r = false -> r = no_action).
Proof.
  intros Hrun.
  assert (H : exits_with well_reported (run_module module)).
  { unfold run_module, ap_common.get_anypointcli_path, get_maven_path.
    repeat first
      [ progress cbv beta
      | solve [auto with exits]
      | apply get_bin_path_never_exits
      | apply validate_never_exits
      | apply get_context_never_exits
      | apply apply_changes_well_reported
      | apply exits_with_exit; split; reflexivity
      | apply exits_with_bind; [| intros ?]
      | match goal with
        | |- exits_with _ (if ?b then _ else _) => destruct b
        | |- exits_with _ (match ?x with _ => _ end) => destruct x
        end ]. }
  exact (H _ _ _ Hrun).
Qed.

(** The output of the deprecation command is reported on one line. *)
Lemma X14_witness :
  let module :=
    on (sample_module Deprecated custom None None (record_output "custom")
                      (sample_analysis false false))
       (with_commands (sample_host (record_output "custom")
                                   (sample_analysis false false))
                      (fun _ _ => (0, "Asset" ++ nl ++ "deprecated" ++ nl,
                                   EmptyString))) in
  let tr :=
    [looked_up module; analyzed module;
     RunCommand (deprecate_cmd (cmd_base_of module "/usr/local/bin/anypoint-cli")
                               (identifier module))] in
  run_module module [] = (Exit {| changed := true; msg := "Assetdeprecated" |}, tr)
  /\ no_newline "Assetdeprecated" = true.
Proof.
  intros module tr. split; [reflexivity |].
  exact (proj1 (X14_reported_result module
                  {| changed := true; msg := "Assetdeprecated" |} tr eq_refl)).
Defined.

(** X15.  The normalization of the parameters (lines 520-531) leaves no
    empty string in [main_file], [file_path], [icon], [description] and
    [maven.sources], and normalizing twice changes nothing more. *)
Theorem X15_normalize_params (p : Params) :
  no_empty_path (normalize_params p)
  /\ normalize_params (normalize_params p) = normalize_params p.
Proof.
  assert (Hne : forall v, empty_to_none v <> Some EmptyString).
  { intros [s |]; cbn; [| discriminate].
    destruct (String.eqb_spec s EmptyString); [discriminate | congruence]. }
  assert (Hidem : forall v, empty_to_none (empty_to_none v) = empty_to_none v).
  { intros [s |]; cbn; [| reflexivity].
    destruct (String.eqb s EmptyString) eqn:Hs; cbn; [reflexivity |].
    rewrite Hs. reflexivity. }
  split.
  - unfold no_empty_path. cbn. repeat split; try apply Hne.
    intros mv Hmv. destruct (maven p) as [mv0 |]; [| discriminate].
    injection Hmv as <-. cbn. apply Hne.
  - unfold normalize_params. cbn. rewrite !Hidem.
    destruct (maven p) as [mv |]; cbn; rewrite ?Hidem; reflexivity.
Qed.

(** X16.  When the asset is built from its sources and [maven.arguments]
    is not empty, the arguments are joined with [" -D"] and appended as
    they are: the first argument follows the closing quote of the
    descriptor path with neither a space nor [-D]; only the following ones
    are passed as [-Dkey=value]. *)
Theorem X16_first_argument_unprefixed
    (module : AnsibleModule) (context : Context) (cmd_base aid : string)
    (tr : list Event) (mvn : string) (mv : Maven) (src a : string)
    (rest : list string) :
  let p := params module in
  working (platform module) ->
  type p = example \/ type p = template ->
  file_path p = None ->
  maven p = Some mv ->
  sources mv = Some src ->
  arguments mv = a :: rest ->
  bin_path (platform module) "mvn" = Some mvn ->
  upload_exchange_asset module context cmd_base aid tr
  = (Ret "Asset uploaded",
     (tr ++ [settings_written module;
             pom_rewritten module (source_pom_of mv src);
             RunCommand (mvn ++ " "
                         ++ (descriptor_options module mv src
                             ++ a ++ prefixed " -D" rest)
                         ++ repository_option module);
             metadata_updated module context])%list).
Proof.
  intros p Hwork Hty Hfile Hmv Hsrc Hargs Hmvn.
  rewrite (upload_from_sources module Hwork context cmd_base aid tr mvn mv src
             Hty Hfile Hmv Hsrc Hmvn).
  assert (Hcmd : clean_deploy_cmd module mv src
                 = (descriptor_options module mv src ++ a ++ prefixed " -D" rest)
                   ++ repository_option module).
  { unfold clean_deploy_cmd, descriptor_options, repository_option.
    rewrite Hargs, join_cons. reflexivity. }
  rewrite Hcmd. reflexivity.
Qed.

(** Two arguments, as the documentation of [maven.arguments] shows them. *)
Lemma X16_witness :
  let mv :=
    {| sources := Some "/src/app"; settings := None; pom := None;
       arguments := ["key1=value1"; "key2=value2"] |} in
  let module :=
    sample_module Present example None (Some mv) (error_output 404)
                  (sample_analysis false false) in
  upload_exchange_asset module missing_plan "anypoint-cli" "a/b/c" []
  = (Ret "Asset uploaded",
     [settings_written module;
      pom_rewritten module "/src/app/pom.xml";
      RunCommand ("/usr/local/bin/mvn" ++ " "
                  ++ (descriptor_options module mv "/src/app"
                      ++ "key1=value1" ++ " -Dkey2=value2")
                  ++ repository_option module);
      metadata_updated module missing_plan]).
Proof.
  intros mv module.
  exact (X16_first_argument_unprefixed module missing_plan "anypoint-cli" "a/b/c"
           [] "/usr/local/bin/mvn" mv "/src/app" "key1=value1" ["key2=value2"]
           (sample_host_works _ _) (or_introl eq_refl) eq_refl eq_refl eq_refl
           eq_refl eq_refl).
Defined.

(** X25.  Both binaries are required whatever is asked: when the CLI or
    the build tool is not installed, the run ends with a failure before
    any call, also for a target [absent] or a type that never uses the
    build tool. *)
Theorem X25_binaries_required (module : AnsibleModule) :
  bin_path (platform module) "anypoint-cli" = None
  \/ bin_path (platform module) "mvn" = None ->
  exists m, run_module module [] = (Fail m, []).
Proof.
  intros Hbin. unfold run_module, ap_common.get_anypointcli_path,
    get_maven_path, get_bin_path.
  destruct (bin_path (platform module) "anypoint-cli") as [cli |] eqn:Hcli.
  - destruct Hbin as [Hbin | Hbin]; [discriminate Hbin |]. rewrite Hbin.
    step_pure. step_pure. eexists. reflexivity.
  - eexists. reflexivity.
Qed.

(** Deleting a [custom] asset on a host without the build tool. *)
Lemma X25_witness :
  let host := sample_host (record_output "custom") (sample_analysis false false) in
  let module :=
    on (sample_module Absent custom None None (record_output "custom")
                      (sample_analysis false false))
       {| bin_path := fun n => if String.eqb n "mvn" then None
                               else Some ("/usr/local/bin/" ++ n);
          run_command_result := run_command_result host;
          write_result := write_result host;
          rewrite_pom_result := rewrite_pom_result host;
          graphql_answer := graphql_answer host;
          analyze_answer := analyze_answer host;
          modify_answer := modify_answer host;
          set_name_answer := set_name_answer host;
          delete_answer := delete_answer host;
          asset_identifier := asset_identifier host |} in
  exists m, run_module module [] = (Fail m, []).
Proof.
  intros host module.
  exact (X25_binaries_required module (or_intror eq_refl)).
Defined.

(** X26.  The four comparisons of [look_asset_on_exchange] are made in
    order and stop at the first that fails: a first record whose
    [assetId] differs gives "not found" even when its other keys are
    missing, while a record that agrees on [assetId], [groupId] and
    [version] but has no [type] raises [KeyError]. *)
Theorem X26_lookup_compares_in_order
    (module : AnsibleModule) (tr : list Event)
    (output d item : list (string * json)) (rest : list json) (a : json) :
  let p := params module in
  let tr' := (tr ++ [looked_up module])%list in
  graphql_answer (platform module) tr (group_id p) (asset_id p) (asset_version p)
  = Answer (JObj output) ->
  truthy (get_or_none "errors" output) = false ->
  lookup "data" output = Some (JObj d) ->
  lookup "assets" d = Some (JList (JObj item :: rest)) ->
  lookup "assetId" item = Some a ->
  (eq_str (asset_id p) a = false ->
   look_asset_on_exchange module tr = (Ret None, tr'))
  /\ (forall g v,
        eq_str (asset_id p) a = true ->
        lookup "groupId" item = Some g -> eq_str (group_id p) g = true ->
        lookup "version" item = Some v -> eq_str (asset_version p) v = true ->
        lookup "type" item = None ->
        look_asset_on_exchange module tr = (Raise "KeyError", tr')).
Proof.
  intros p tr' Hans Herr Hdata Hassets Ha. unfold get_or_none in Herr.
  split.
  - intros Hne.
    unfold look_asset_on_exchange,
      ap_exchange_common.look_exchange_asset_with_graphql, bind, call_helper, lift.
    fold p. rewrite Hans. cbn.
    destruct (lookup "errors" output); cbn; rewrite ?Herr; cbn;
      rewrite Hdata; cbn; rewrite Hassets; cbn; rewrite Ha; cbn;
      rewrite Hne; reflexivity.
  - intros g v Heq Hg Hgeq Hv Hveq Ht.
    unfold look_asset_on_exchange,
      ap_exchange_common.look_exchange_asset_with_graphql, bind, call_helper, lift.
    fold p. rewrite Hans. cbn.
    destruct (lookup "errors" output); cbn; rewrite ?Herr; cbn;
      rewrite Hdata; cbn; rewrite Hassets; cbn; rewrite Ha; cbn;
      rewrite Heq; cbn; rewrite Hg; cbn; rewrite Hgeq; cbn;
      rewrite Hv; cbn; rewrite Hveq; cbn; rewrite Ht; reflexivity.
Qed.

(** The platform answers with another asset, described by its id only. *)
Lemma X26_witness :
  let answer :=
    JObj [("data", JObj [("assets", JList [JObj [("assetId", JStr "other")]])])] in
  let module :=
    sample_module Present custom None None answer (sample_analysis false false) in
  look_asset_on_exchange module [] = (Ret None, [looked_up module]).
Proof.
  intros answer module.
  exact (proj1 (X26_lookup_compares_in_order module []
                  [("data", JObj [("assets", JList [JObj [("assetId", JStr "other")]])])]
                  [("assets", JList [JObj [("assetId", JStr "other")]])]
                  [("assetId", JStr "other")] [] (JStr "other")
                  eq_refl eq_refl eq_refl eq_refl eq_refl)
               eq_refl).
Defined.

End AssetExtras.

(** ** Further properties of the environment module *)

Module EnvExtras.
Import Py Obs Further AccountEnvironment EnvSamples EnvFurther.
Import RunFacts FurtherFacts EnvFacts.

#[local] Arguments String.append : simpl never.

(** *** The organization lookup *)

Lemma find_org_first org pre item post v :
  Forall (other_org org) pre -> named_org org item v ->
  find_org org (pre ++ item :: post) = Ret v.
Proof.
  intros Hpre (fields & n & -> & Hname & Heq & Hid).
  induction Hpre as [| x pre (fx & nx & -> & Hnx & Hneq) _ IH].
  - cbn. rewrite Hname. rewrite Heq. cbn. rewrite Hid. reflexivity.
  - cbn. rewrite Hnx. rewrite Hneq. exact IH.
Qed.

Lemma find_org_none org items :
  Forall (other_org org) items -> find_org org items = Ret JNull.
Proof.
  intros H. induction H as [| x l (fx & nx & -> & Hnx & Hneq) _ IH].
  - reflexivity.
  - cbn. rewrite Hnx. rewrite Hneq. exact IH.
Qed.

Lemma get_org_id_found module tr items v :
  memberships module tr items ->
  find_org (organization (params module)) items = Ret v ->
  get_org_id module tr
  = (if is_none v then Fail (org_not_found_msg module) else Ret v,
     (tr ++ [profile_fetched module])%list).
Proof.
  intros (body & doc & Hurl & Hload & Hitems) Hfind.
  unfold get_org_id, execute_http_call, load, loads, bind, call, lift.
  fold (profile_url module). rewrite Hurl. cbn. rewrite Hload. cbn.
  rewrite Hitems. cbn. rewrite Hfind.
  destruct v; reflexivity.
Qed.

(** X17.  [get_org_id] makes one GET request for the profile and goes
    through the memberships in order: it returns the [id] of the first
    membership named like the organization, without looking at the ones
    that follow; when no membership has that name it ends the run with
    "Business Group {...} not found". *)
Theorem X17_organization_lookup
    (module : AnsibleModule) (tr : list Event) (items : list json) :
  let org := organization (params module) in
  let tr' := (tr ++ [profile_fetched module])%list in
  memberships module tr items ->
  (forall pre item post v,
     items = (pre ++ item :: post)%list ->
     Forall (other_org org) pre -> named_org org item v -> v <> JNull ->
     get_org_id module tr = (Ret v, tr'))
  /\ (Forall (other_org org) items ->
      get_org_id module tr = (Fail (org_not_found_msg module), tr')).
Proof.
  intros org tr' Hprofile. split.
  - intros pre item post v -> Hpre Hitem Hv.
    rewrite (get_org_id_found module tr _ v Hprofile
               (find_org_first org pre item post v Hpre Hitem)).
    destruct v; try reflexivity. congruence.
  - intros Hall.
    rewrite (get_org_id_found module tr _ JNull Hprofile
               (find_org_none org items Hall)).
    reflexivity.
Qed.

(** The organization is the second membership of the sample profile. *)
Lemma X17_witness :
  let module := scripted_module Present false [] ["profile"] in
  get_org_id module [] = (Ret (JStr "org-1"), [profile_fetched module]).
Proof.
  intros module.
  assert (Hprofile : memberships module []
            [JObj [("name", JStr "Other"); ("id", JStr "org-0")];
             JObj [("name", JStr "My Demos"); ("id", JStr "org-1")]]).
  { exists "profile". eexists. repeat split. }
  refine (proj1 (X17_organization_lookup module [] _ Hprofile)
            [JObj [("name", JStr "Other"); ("id", JStr "org-0")]]
            (JObj [("name", JStr "My Demos"); ("id", JStr "org-1")])
            [] (JStr "org-1") eq_refl _ _ _).
  - constructor; [| constructor]. eexists. eexists. repeat split.
  - eexists. eexists. repeat split.
  - discriminate.
Defined.

(** *** Commands *)

Lemma env_execute_ok module cmd tr :
  fst (fst (run_command_result (platform module) tr cmd)) = 0 ->
  execute_anypoint_cli module cmd tr
  = (Ret (snd (fst (run_command_result (platform module) tr cmd))),
     (tr ++ [RunCommand cmd])%list).
Proof.
  intros Hrc. unfold execute_anypoint_cli, run_command, bind, call.
  rewrite Hrc. reflexivity.
Qed.

Lemma env_execute_failed module cmd tr :
  fst (fst (run_command_result (platform module) tr cmd)) <> 0 ->
  execute_anypoint_cli module cmd tr
  = (Fail (snd (fst (run_command_result (platform module) tr cmd))),
     (tr ++ [RunCommand cmd])%list).
Proof.
  intros Hrc. unfold execute_anypoint_cli, run_command, bind, call.
  destruct (Z.eqb_spec (fst (fst (run_command_result (platform module) tr cmd))) 0);
    [contradiction | reflexivity].
Qed.

(** X18.  In check mode, with the CLI installed, the run exits at once
    with [changed = false], the message "No action taken" and [id],
    [client_id] and [client_secret] all [None]: the environment is not even
    looked up. *)
Theorem X18_environment_check_mode
    (module : AnsibleModule) (cli : string) :
  bin_path (platform module) "anypoint-cli" = Some cli ->
  check_mode module = true ->
  run_module module []
  = (Exit {| changed := false;
             result_id := JNull;
             result_client_id := JNull;
             result_client_secret := JNull;
             msg := "No action taken" |}, []).
Proof.
  intros Hcli Hcheck.
  exact (env_run_module_check_mode module cli [] Hcli Hcheck).
Qed.

(** Check mode on a host where the environment exists. *)
Lemma X18_witness :
  run_module (scripted_module Present true [(0, "record")] ["profile"; "client"]) []
  = (Exit {| changed := false;
             result_id := JNull;
             result_client_id := JNull;
             result_client_secret := JNull;
             msg := "No action taken" |}, []).
Proof.
  exact (X18_environment_check_mode
           (scripted_module Present true [(0, "record")] ["profile"; "client"])
           "/usr/local/bin/anypoint-cli" eq_refl eq_refl).
Defined.

(** *** Creation *)

Section Creation.
Variable module : AnsibleModule.
Variable cli : string.
Variable tr1 : list Event.

Let cmd_base := cmd_base_of module cli.

Hypothesis cli_installed : bin_path (platform module) "anypoint-cli" = Some cli.
Hypothesis real_run : check_mode module = false.
Hypothesis to_create : state (params module) = Present.
Hypothesis not_found : get_environment module cmd_base [] = (Ret (JObj []), tr1).
Hypothesis create_ok :
  fst (fst (run_command_result (platform module) tr1 (create_cmd module cmd_base)))
  = 0.

Lemma first_describe : tr1 = [described module cmd_base].
Proof. apply get_environment_trace in not_found. exact not_found. Qed.

Lemma run_module_creates_environment :
  run_module module []
  = (output <- (resp_json <- get_environment module cmd_base ;;
                id' <- lift (getitem resp_json "ID") ;;
                client_id' <- lift (getitem resp_json "Client ID") ;;
                org_id <- get_org_id module ;;
                client_secret' <- get_env_client_secret module org_id client_id' ;;
                ret {| out_id := id';
                       out_client_id := client_id';
                       out_client_secret := client_secret';
                       out_msg := "environment created" |}) ;;
     exit_json {| changed := true;
                  result_id := out_id output;
                  result_client_id := out_client_id output;
                  result_client_secret := out_client_secret output;
                  msg := out_msg output |})
      (tr1 ++ [created module cmd_base])%list.
Proof.
  rewrite (env_run_module_planned module cli _ [] tr1 cli_installed real_run
             (get_context_not_found module cmd_base [] tr1 (JObj [])
                not_found eq_refl)).
  rewrite to_create. cbn [do_nothing]. unfold create_environment.
  step (env_execute_ok module (create_cmd module cmd_base) tr1 create_ok).
  symmetry. rewrite bind_assoc. reflexivity.
Qed.

End Creation.

(** X19.  Target [present], environment not found, the [create] command
    succeeds and the environment is then described: the run describes,
    creates, describes again, fetches the profile and the client, and
    reports [changed = true], "environment created", the identifiers of
    the second description and the client secret. *)
Theorem X19_environment_created
    (module : AnsibleModule) (cli : string) (tr1 tr3 tr4 tr5 : list Event)
    (fields : list (string * json)) (env_id env_client org secret : json) :
  let cmd_base := cmd_base_of module cli in
  bin_path (platform module) "anypoint-cli" = Some cli ->
  check_mode module = false ->
  state (params module) = Present ->
  get_environment module cmd_base [] = (Ret (JObj []), tr1) ->
  fst (fst (run_command_result (platform module) tr1 (create_cmd module cmd_base)))
  = 0 ->
  get_environment module cmd_base (tr1 ++ [created module cmd_base])%list
  = (Ret (JObj fields), tr3) ->
  lookup "ID" fields = Some env_id ->
  lookup "Client ID" fields = Some env_client ->
  get_org_id module tr3 = (Ret org, tr4) ->
  get_env_client_secret module org env_client tr4 = (Ret secret, tr5) ->
  run_module module []
  = (Exit {| changed := true;
             result_id := env_id;
             result_client_id := env_client;
             result_client_secret := secret;
             msg := "environment created" |}, tr5)
  /\ exists org_id client_id,
       org = JStr org_id /\ env_client = JStr client_id
       /\ tr5 = [described module cmd_base; created module cmd_base;
                 described module cmd_base; profile_fetched module;
                 secret_fetched module org_id client_id].
Proof.
  intros cmd_base Hcli Hcheck Hst Hd1 Hcreate Hd2 Hid Hclient Horg Hsec.
  split.
  - rewrite (run_module_creates_environment module cli tr1 Hcli Hcheck Hst Hd1
               Hcreate).
    step Hd2. unfold getitem. rewrite Hid, Hclient.
    rewrite ?bind_assoc, bind_lift_ret. rewrite ?bind_assoc, bind_lift_ret.
    step Horg. step Hsec. reflexivity.
  - pose proof (first_describe module cli tr1 Hd1) as H1.
    apply get_environment_trace in Hd2.
    apply get_org_id_trace in Horg.
    apply get_env_client_secret_trace in Hsec.
    destruct Hsec as (org_id & client_id & Ho & Hc & H5).
    exists org_id, client_id. split; [exact Ho |]. split; [exact Hc |].
    subst. reflexivity.
Qed.

(** A sandbox environment is created on a scripted host. *)
Lemma X19_witness :
  let module :=
    scripted_module Present false
      [(255, "Error: Environment not found"); (0, "created"); (0, "record")]
      ["profile"; "client"] in
  let cmd_base := cmd_base_of module "/usr/local/bin/anypoint-cli" in
  run_module module []
  = (Exit {| changed := true;
             result_id := JStr "env-1";
             result_client_id := JStr "client-1";
             result_client_secret := JStr "s3cret";
             msg := "environment created" |},
     [described module cmd_base; created module cmd_base;
      described module cmd_base; profile_fetched module;
      secret_fetched module "org-1" "client-1"]).
Proof.
  intros module cmd_base.
  exact (proj1 (X19_environment_created module "/usr/local/bin/anypoint-cli"
                  [described module cmd_base]
                  [described module cmd_base; created module cmd_base;
                   described module cmd_base]
                  [described module cmd_base; created module cmd_base;
                   described module cmd_base; profile_fetched module]
                  [described module cmd_base; created module cmd_base;
                   described module cmd_base; profile_fetched module;
                   secret_fetched module "org-1" "client-1"]
                  [("ID", JStr "env-1"); ("Client ID", JStr "client-1");
                   ("Name", JStr "Development")]
                  (JStr "env-1") (JStr "client-1") (JStr "org-1") (JStr "s3cret")
                  eq_refl eq_refl eq_refl eq_refl eq_refl eq_refl eq_refl
                  eq_refl eq_refl eq_refl)).
Defined.

(** X20.  Target [present], environment not found, the [create] command
    succeeds but the description that follows still answers "not found":
    the run raises [KeyError] (line 223 reads ['ID'] of the empty record)
    after the environment was created; nothing is reported. *)
Theorem X20_created_but_not_described
    (module : AnsibleModule) (cli : string) (tr1 tr3 : list Event) :
  let cmd_base := cmd_base_of module cli in
  bin_path (platform module) "anypoint-cli" = Some cli ->
  check_mode module = false ->
  state (params module) = Present ->
  get_environment module cmd_base [] = (Ret (JObj []), tr1) ->
  fst (fst (run_command_result (platform module) tr1 (create_cmd module cmd_base)))
  = 0 ->
  get_environment module cmd_base (tr1 ++ [created module cmd_base])%list
  = (Ret (JObj []), tr3) ->
  run_module module []
  = (Raise "KeyError",
     [described module cmd_base; created module cmd_base;
      described module cmd_base]).
Proof.
  intros cmd_base Hcli Hcheck Hst Hd1 Hcreate Hd2.
  rewrite (run_module_creates_environment module cli tr1 Hcli Hcheck Hst Hd1
             Hcreate).
  step Hd2.
  pose proof (first_describe module cli tr1 Hd1) as H1.
  apply get_environment_trace in Hd2. subst. reflexivity.
Qed.

(** The platform has not caught up when the environment is described
    again. *)
Lemma X20_witness :
  let module :=
    scripted_module Present false
      [(255, "Error: Environment not found"); (0, "created");
       (255, "Error: Environment not found")] [] in
  let cmd_base := cmd_base_of module "/usr/local/bin/anypoint-cli" in
  run_module module []
  = (Raise "KeyError",
     [described module cmd_base; created module cmd_base;
      described module cmd_base]).
Proof.
  intros module cmd_base.
  exact (X20_created_but_not_described module "/usr/local/bin/anypoint-cli"
           [described module cmd_base]
           [described module cmd_base; created module cmd_base;
            described module cmd_base]
           eq_refl eq_refl eq_refl eq_refl eq_refl eq_refl).
Defined.

(** *** Deletion *)

Lemma delete_environment_trace module cmd_base o tr tr' :
  delete_environment module cmd_base tr = (o, tr') ->
  tr' = (tr ++ [deleted module cmd_base])%list.
Proof.
  unfold delete_environment, execute_anypoint_cli, run_command.
  rewrite bind_assoc. intros H.
  eapply one_plain_call; [| exact H]. intros r. silent_tac.
Qed.

Lemma get_context_absent_trace module cmd_base o tr tr' :
  state (params module) = Absent ->
  get_context module cmd_base tr = (o, tr') ->
  tr' = (tr ++ [described module cmd_base])%list.
Proof.
  intros Hst. unfold get_context, get_environment, run_command. rewrite Hst.
  rewrite !bind_assoc. intros H.
  eapply one_plain_call; [| exact H]. intros r. unfold loads. silent_tac.
Qed.

(** X21.  Target [absent], whatever the host answers and however the run
    ends: the calls made are none, the [describe] command alone, or the
    [describe] command followed by the [delete] command.  No HTTP request
    is made: neither the profile nor the client secret is read. *)
Theorem X21_absent_environment_run_shape
    (module : AnsibleModule) (o : Outcome Result unit) (tr : list Event) :
  state (params module) = Absent ->
  run_module module [] = (o, tr) ->
  tr = []
  \/ exists cli,
       bin_path (platform module) "anypoint-cli" = Some cli
       /\ (tr = [described module (cmd_base_of module cli)]
           \/ tr = [described module (cmd_base_of module cli);
                    deleted module (cmd_base_of module cli)]).
Proof.
  intros Hst.
  destruct (bin_path (platform module) "anypoint-cli") as [cli |] eqn:Hcli.
  2: { unfold run_module, get_anypointcli_path, get_bin_path. rewrite Hcli.
       intros H. inversion H. left. reflexivity. }
  destruct (check_mode module) eqn:Hcheck.
  { rewrite (env_run_module_check_mode module cli [] Hcli Hcheck).
    intros H. inversion H. left. reflexivity. }
  intros Hrun. right. exists cli. split; [reflexivity |].
  destruct (get_context module (cmd_base_of module cli) []) as [oc tr1] eqn:Hctx.
  pose proof (get_context_absent_trace module _ _ _ _ Hst Hctx) as Htr1.
  cbn in Htr1. subst tr1.
  destruct oc as [context | r | m | e].
  - rewrite (env_run_module_planned module cli context [] _ Hcli Hcheck Hctx)
      in Hrun.
    destruct (do_nothing context).
    + inversion Hrun. left. reflexivity.
    + rewrite Hst in Hrun.
      destruct (delete_environment module (cmd_base_of module cli)
                  [described module (cmd_base_of module cli)]) as [od tr2] eqn:Hdel.
      pose proof (delete_environment_trace module _ _ _ _ Hdel) as Htr2.
      unfold bind in Hrun. rewrite Hdel in Hrun.
      destruct od; inversion Hrun; subst; right; reflexivity.
  - revert Hrun. unfold run_module, get_anypointcli_path.
    step (env_get_bin_path_found module _ cli [] Hcli). step_pure.
    rewrite Hcheck. step_pure.
    step (env_get_bin_path_found module _ cli [] Hcli). step_pure.
    rewrite ?bind_assoc. rewrite (bind_exit _ _ _ _ _ Hctx).
    intros H. inversion H. left. reflexivity.
  - revert Hrun. unfold run_module, get_anypointcli_path.
    step (env_get_bin_path_found module _ cli [] Hcli). step_pure.
    rewrite Hcheck. step_pure.
    step (env_get_bin_path_found module _ cli [] Hcli). step_pure.
    rewrite ?bind_assoc. rewrite (bind_fail _ _ _ _ _ Hctx).
    intros H. inversion H. left. reflexivity.
  - revert Hrun. unfold run_module, get_anypointcli_path.
    step (env_get_bin_path_found module _ cli [] Hcli). step_pure.
    rewrite Hcheck. step_pure.
    step (env_get_bin_path_found module _ cli [] Hcli). step_pure.
    rewrite ?bind_assoc. rewrite (bind_raise _ _ _ _ _ Hctx).
    intros H. inversion H. left. reflexivity.
Qed.

(** The [describe] command fails for good: the run stops there. *)
Lemma X21_witness :
  let module := scripted_module Absent false [(1, "Unauthorized")] [] in
  let cmd_base := cmd_base_of module "/usr/local/bin/anypoint-cli" in
  run_module module [] = (Fail "Unauthorized", [described module cmd_base])
  /\ ([described module cmd_base] = []
      \/ exists cli,
           bin_path (platform module) "anypoint-cli" = Some cli
           /\ ([described module cmd_base]
               = [described module (cmd_base_of module cli)]
               \/ [described module cmd_base]
                  = [described module (cmd_base_of module cli);
                     deleted module (cmd_base_of module cli)])).
Proof.
  intros module cmd_base. split; [reflexivity |].
  exact (X21_absent_environment_run_shape module (Fail "Unauthorized")
           [described module cmd_base] eq_refl eq_refl).
Defined.

(** X22.  Target [absent], the environment exists and the [delete]
    command exits with a non-zero code: the run fails with the output of
    the command as message, after the [describe] and the [delete]
    commands. *)
Theorem X22_delete_failure
    (module : AnsibleModule) (cli : string) (record : json)
    (tr1 : list Event) (env_id env_client : json) :
  let cmd_base := cmd_base_of module cli in
  let result :=
    run_command_result (platform module) [described module cmd_base]
                       (delete_cmd module cmd_base) in
  state (params module) = Absent ->
  check_mode module = false ->
  bin_path (platform module) "anypoint-cli" = Some cli ->
  get_environment module cmd_base [] = (Ret record, tr1) ->
  existing record env_id env_client ->
  fst (fst result) <> 0 ->
  run_module module []
  = (Fail (snd (fst result)),
     [described module cmd_base; deleted module cmd_base]).
Proof.
  intros cmd_base result Hst Hcheck Hcli Hdesc Hex Hrc.
  pose proof (get_environment_trace module _ _ _ _ Hdesc) as Htr1.
  cbn in Htr1. subst tr1.
  rewrite (env_run_module_planned module cli _ [] _ Hcli Hcheck
             (get_context_absent_existing module cmd_base [] _ record Hdesc
                env_id env_client Hex Hst)).
  cbn [do_nothing]. rewrite Hst. unfold delete_environment.
  rewrite ?bind_assoc.
  rewrite (bind_fail _ _ _ _ _
             (env_execute_failed module (delete_cmd module cmd_base)
                [described module cmd_base] Hrc)).
  reflexivity.
Qed.

(** The environment exists but may not be deleted. *)
Lemma X22_witness :
  let module :=
    scripted_module Absent false [(0, "record"); (1, "Error: Forbidden")] [] in
  let cmd_base := cmd_base_of module "/usr/local/bin/anypoint-cli" in
  run_module module []
  = (Fail "Error: Forbidden",
     [described module cmd_base; deleted module cmd_base]).
Proof.
  intros module cmd_base.
  refine (X22_delete_failure module "/usr/local/bin/anypoint-cli" sample_record
            [described module cmd_base] (JStr "env-1") (JStr "client-1")
            eq_refl eq_refl eq_refl eq_refl _ ltac:(discriminate)).
  eexists. repeat split. discriminate.
Defined.

(** *** An environment that exists *)

(** X23.  Target [present] on an environment that exists, when the
    organization is not among the memberships of the profile: the run
    fails with "Business Group {...} not found" although there is nothing
    to change; it has described the environment and fetched the
    profile. *)
Theorem X23_existing_environment_unknown_organization
    (module : AnsibleModule) (cli : string) (record : json)
    (tr1 : list Event) (env_id env_client : json) (items : list json) :
  let cmd_base := cmd_base_of module cli in
  state (params module) = Present ->
  check_mode module = false ->
  bin_path (platform module) "anypoint-cli" = Some cli ->
  get_environment module cmd_base [] = (Ret record, tr1) ->
  existing record env_id env_client ->
  memberships module tr1 items ->
  Forall (other_org (organization (params module))) items ->
  run_module module []
  = (Fail (org_not_found_msg module),
     [described module cmd_base; profile_fetched module]).
Proof.
  intros cmd_base Hst Hcheck Hcli Hdesc Hex Hprofile Hall.
  pose proof (get_environment_trace module _ _ _ _ Hdesc) as Htr1.
  cbn in Htr1.
  assert (Horg : get_org_id module tr1
                 = (Fail (org_not_found_msg module),
                    (tr1 ++ [profile_fetched module])%list)).
  { rewrite (get_org_id_found module tr1 items JNull Hprofile
               (find_org_none _ items Hall)). reflexivity. }
  assert (Hctx : get_context module cmd_base []
                 = (Fail (org_not_found_msg module),
                    (tr1 ++ [profile_fetched module])%list)).
  { rewrite (get_context_present_existing module cmd_base [] tr1 record Hdesc
               env_id env_client Hex Hst).
    rewrite (bind_fail _ _ _ _ _ Horg). reflexivity. }
  unfold run_module, get_anypointcli_path.
  step (env_get_bin_path_found module _ cli [] Hcli). step_pure.
  rewrite Hcheck. step_pure.
  step (env_get_bin_path_found module _ cli [] Hcli). step_pure.
  rewrite ?bind_assoc. fold cmd_base. rewrite (bind_fail _ _ _ _ _ Hctx).
  subst tr1. reflexivity.
Qed.

(** The caller is a member of another organization only. *)
Lemma X23_witness :
  let module := scripted_module Present false [(0, "record")] ["strangers"] in
  let cmd_base := cmd_base_of module "/usr/local/bin/anypoint-cli" in
  run_module module []
  = (Fail "Business Group {My Demos} not found",
     [described module cmd_base; profile_fetched module]).
Proof.
  intros module cmd_base.
  refine (X23_existing_environment_unknown_organization module
            "/usr/local/bin/anypoint-cli" sample_record
            [described module cmd_base] (JStr "env-1") (JStr "client-1")
            [JObj [("name", JStr "Other"); ("id", JStr "org-0")]]
            eq_refl eq_refl eq_refl eq_refl _ _ _).
  - eexists. repeat split. discriminate.
  - exists "strangers". eexists. repeat split.
  - constructor; [| constructor]. eexists. eexists. repeat split.
Defined.

(** X24.  [get_env_client_secret] makes one GET request and returns the
    ['client_secret'] entry of the answer, [None] when the answer has no
    such entry: a missing secret is not an error.  With an organization
    or client identifier that is not a string it raises [TypeError]
    before any request. *)
Theorem X24_client_secret
    (module : AnsibleModule) (tr : list Event) :
  (forall org_id client_id body doc,
     open_url_result (platform module) tr (clients_url module org_id client_id)
                     "GET" (auth_headers module) None = inr body ->
     json_loads (platform module) body = Some (JObj doc) ->
     get_env_client_secret module (JStr org_id) (JStr client_id) tr
     = (Ret (get_or_none "client_secret" doc),
        (tr ++ [secret_fetched module org_id client_id])%list))
  /\ (forall org client,
        (forall s, org <> JStr s) \/ (forall s, client <> JStr s) ->
        get_env_client_secret module org client tr = (Raise "TypeError", tr)).
Proof.
  split.
  - intros org_id client_id body doc Hurl Hload.
    unfold get_env_client_secret, execute_http_call, load, loads, bind, call,
      lift, get_or_none. cbn.
    fold (clients_url module org_id client_id). rewrite Hurl. cbn.
    rewrite Hload. cbn. destruct (lookup "client_secret" doc); reflexivity.
  - intros org client Hbad. unfold get_env_client_secret.
    destruct org as [| | | o | |]; try reflexivity.
    destruct client as [| | | c | |]; try reflexivity.
    destruct Hbad as [H | H]; exfalso; eapply H; reflexivity.
Qed.

(** The client document of the platform has no secret. *)
Lemma X24_witness :
  let module := scripted_module Present false [] ["bare client"] in
  get_env_client_secret module (JStr "org-1") (JStr "client-1") []
  = (Ret JNull, [secret_fetched module "org-1" "client-1"]).
Proof.
  intros module.
  exact (proj1 (X24_client_secret module []) "org-1" "client-1" "bare client"
               [("client_id", JStr "client-1")] eq_refl eq_refl).
Defined.

End EnvExtras.
